(** * Real-time layer and notification fan-out of the work-management API

    A shallow embedding of
      - src/config/socket.js          (handshake, online registry, rooms, typing,
                                       heartbeat, error listener), with the
                                       [uncaughtException] handler of server.js
                                       and [logger.error] of utils/logger.js,
      - src/modules/tasks/tasks.service.js     (getTaskById, updateTaskStatus,
                                                assignTask),
      - src/modules/comments/comments.service.js (addComment, deleteComment),
      - src/models/Counter.js                  (getNextSequence),
      - src/middleware/role.js, the task and comment controllers, the two task
        routes with a real-time effect, and the error handler of src/app.js,
    together with the parts of the Mongoose models these functions rely on.

    Socket.IO, jsonwebtoken and the MongoDB driver are libraries: rooms and
    emits follow Socket.IO's documented behaviour, token verification,
    ObjectId generation and the engine's printing of numbers are parameters.
    A payload is the value handed to [emit]; how Socket.IO and Mongoose
    serialise it is outside the embedding. *)

From stdpp Require Import base strings list gmap pretty.

#[global] Set Warnings "-clear-no-such-hyp".

(** ** JavaScript values that reach the handlers

    Payloads arrive as JSON. [VNum] stands for an integer-valued number;
    [VObj] lists the own properties of a plain object, each name once. *)
Module Js.

#[warnings="-register-all"] Inductive value :=
| VUndefined
| VNull
| VBool (b : bool)
| VNum (n : Z)
| VStr (s : string)
| VArr (items : list value)
| VObj (fields : list (string * value)).

(** [!v] is [negb (truthy v)]. *)
Definition truthy (v : value) : bool :=
  match v with
  | VUndefined | VNull => false
  | VBool b => b
  | VNum n => negb (n =? 0)%Z
  | VStr s => negb (String.eqb s EmptyString)
  | VArr _ | VObj _ => true
  end.

Fixpoint assoc {A} (k : string) (l : list (string * A)) : option A :=
  match l with
  | [] => None
  | (k', a) :: l' => if String.eqb k' k then Some a else assoc k l'
  end.

(** Exceptions: the constructor name, the message and the [statusCode]
    property the services attach. *)
Record Exn := mkExn {
  exn_name : string;
  exn_message : string;
  exn_statusCode : option nat }.

Definition TypeError (msg : string) : Exn := mkExn "TypeError" msg None.
Definition Error (msg : string) : Exn := mkExn "Error" msg None.

Inductive res (A : Type) :=
| Ok (a : A)
| Throw (e : Exn).
Arguments Ok {A} a.
Arguments Throw {A} e.

(** What the engine prints for a number ([Number::toString]): the decimal
    digits of an integer up to 2^53, rounded digits beyond, exponent notation
    from 1e21 on. The embedding takes it as given. *)
Class Runtime := { number_to_string : Z → string }.

(** Template-literal interpolation, [`${v}`]. A plain object has the
    [toString] of [Object.prototype] unless it has an own property of that
    name; an own property parsed from JSON is never a function, and the
    conversion then throws. An array prints its elements separated by commas,
    [null] and [undefined] as nothing, and throws where an element does. *)
Fixpoint to_string `{!Runtime} (v : value) : res string :=
  match v with
  | VUndefined => Ok "undefined"
  | VNull => Ok "null"
  | VBool true => Ok "true"
  | VBool false => Ok "false"
  | VNum n => Ok (number_to_string n)
  | VStr s => Ok s
  | VArr items =>
      (fix join (l : list value) : res string :=
         match l with
         | [] => Ok EmptyString
         | x :: l' =>
             match match x with
                   | VUndefined | VNull => Ok EmptyString
                   | _ => to_string x
                   end with
             | Throw e => Throw e
             | Ok s =>
                 match l' with
                 | [] => Ok s
                 | _ :: _ =>
                     match join l' with
                     | Ok r => Ok (s +:+ "," +:+ r)
                     | Throw e => Throw e
                     end
                 end
             end
         end) items
  | VObj fields =>
      match assoc "toString" fields with
      | Some _ => Throw (TypeError "Cannot convert object to primitive value")
      | None => Ok "[object Object]"
      end
  end.

(** Property read [v.k] for the names the handlers read ([roomId],
    [message], [stack], [timestamp]), which no prototype defines: reading a
    property of [undefined] or [null] throws, a plain object gives its own
    property, and strings, numbers, booleans and arrays have none under these
    names. *)
Definition get_prop (v : value) (k : string) : res value :=
  match v with
  | VUndefined =>
      Throw (TypeError ("Cannot read properties of undefined (reading '" +:+ k +:+ "')"))
  | VNull =>
      Throw (TypeError ("Cannot read properties of null (reading '" +:+ k +:+ "')"))
  | VObj fields => Ok (default VUndefined (assoc k fields))
  | _ => Ok VUndefined
  end.

(** Optional chaining [v?.k], for the same names. *)
Definition get_prop_opt (v : value) (k : string) : value :=
  match v with
  | VObj fields => default VUndefined (assoc k fields)
  | _ => VUndefined
  end.

(** The conversion to a number in [x - y] first turns an object or an array
    into a primitive, which throws where [to_string] throws; the number that
    comes out is not modelled. *)
Definition to_primitive `{!Runtime} (v : value) : res unit :=
  match to_string v with
  | Ok _ => Ok tt
  | Throw e => Throw e
  end.

(** Parameter destructuring [({ k }) => ...]. *)
Definition destructure (v : value) (k : string) : res value :=
  match v with
  | VUndefined =>
      Throw (TypeError ("Cannot destructure property '" +:+ k +:+ "' of 'undefined' as it is undefined."))
  | VNull =>
      Throw (TypeError ("Cannot destructure property '" +:+ k +:+ "' of 'null' as it is null."))
  | _ => get_prop v k
  end.

End Js.
Export Js.

(** ** A state-and-exception monad for the effectful code *)
Definition M (St A : Type) : Type := St → res A * St.

Definition ret {St A} (a : A) : M St A := λ s, (Ok a, s).
Definition throw {St A} (e : Exn) : M St A := λ s, (Throw e, s).
Definition bind {St A B} (m : M St A) (k : A → M St B) : M St B :=
  λ s, match m s with
       | (Ok a, s') => k a s'
       | (Throw e, s') => (Throw e, s')
       end.
(** [try { m } catch (e) { h e }] *)
Definition try_catch {St A} (m : M St A) (h : Exn → M St A) : M St A :=
  λ s, match m s with
       | (Ok a, s') => (Ok a, s')
       | (Throw e, s') => h e s'
       end.
Definition modify {St} (f : St → St) : M St unit := λ s, (Ok tt, f s).
Definition gets {St A} (f : St → A) : M St A := λ s, (Ok (f s), s).
Definition lift_res {St A} (r : res A) : M St A := λ s, (r, s).

#[global] Instance M_ret {St} : MRet (M St) := λ A, ret.
#[global] Instance M_bind {St} : MBind (M St) := λ A B k m, bind m k.

(** ** [Map] with insertion order, as [onlineUsers] uses it *)
Module JsMap.
Section JsMap.
Context {V : Type}.

(** [m.set(k, v)]: an existing key keeps its position. *)
Fixpoint set (k : string) (v : V) (m : list (string * V)) : list (string * V) :=
  match m with
  | [] => [(k, v)]
  | (k', v') :: m' =>
      if decide (k' = k) then (k, v) :: m' else (k', v') :: set k v m'
  end.

(** [m.delete(k)] *)
Definition delete (k : string) (m : list (string * V)) : list (string * V) :=
  filter (λ kv, kv.1 ≠ k) m.

Definition get (k : string) (m : list (string * V)) : option V :=
  snd <$> List.find (λ kv, bool_decide (kv.1 = k)) m.

Definition keys (m : list (string * V)) : list string := m.*1.

(** [Array.from(m.values())] *)
Definition values (m : list (string * V)) : list V := m.*2.

End JsMap.
End JsMap.

(** ** Text that Mongoose validates

    A JavaScript string is a sequence of UTF-16 code units; [length] counts
    them, and so does [maxlength]. *)
Definition jsstring := list N.

(** An ASCII text as a JavaScript string. *)
Definition js (s : string) : jsstring := Ascii.N_of_ascii <$> String.list_ascii_of_string s.

(** White space and line terminators, which [String.prototype.trim] strips:
    U+0009 to U+000D, U+0020, U+00A0, U+1680, U+2000 to U+200A, U+2028,
    U+2029, U+202F, U+205F, U+3000 and U+FEFF. *)
Definition is_ws (c : N) : bool :=
  ((9 <=? c) && (c <=? 13) || (c =? 32) || (c =? 160) || (c =? 5760)
   || (8192 <=? c) && (c <=? 8202) || (c =? 8232) || (c =? 8233) || (c =? 8239)
   || (c =? 8287) || (c =? 12288) || (c =? 65279))%N.

Fixpoint ltrim (s : jsstring) : jsstring :=
  match s with
  | c :: s' => if is_ws c then ltrim s' else s
  | [] => []
  end.

Fixpoint rtrim (s : jsstring) : jsstring :=
  match s with
  | [] => []
  | c :: s' =>
      match rtrim s' with
      | [] => if is_ws c then [] else [c]
      | r => c :: r
      end
  end.

(** [s.trim()], the setter of a [trim: true] path. *)
Definition trim (s : jsstring) : jsstring := rtrim (ltrim s).

(** ** Documents of the store (models/Task.js, Project.js, Comment.js,
    Notification.js)

    An [ObjectId] is an identifier that has passed Mongoose's cast; its
    string form is what a template literal prints. User documents are not
    part of the modelled store: tasks, comments and notifications refer to
    users by identifier. Timestamps are left out. *)
Definition ObjectId := string.

Record Project := mkProject {
  p_id : ObjectId;
  p_title : string;
  p_status : string }.

(** A project as [.populate("project", fields)] puts it into a task: [_id]
    and the fields selected. *)
Record ProjectView := mkProjectView {
  pv_id : ObjectId;
  pv_title : option string;
  pv_status : option string }.

Definition select_project (fields : list string) (p : Project) : ProjectView :=
  mkProjectView (p_id p)
    (if bool_decide ("title" ∈ fields) then Some (p_title p) else None)
    (if bool_decide ("status" ∈ fields) then Some (p_status p) else None).

Record Task := mkTask {
  t_id : ObjectId;
  t_title : string;
  t_status : string;
  t_project : ObjectId;
  t_createdBy : ObjectId;
  t_assignedTo : option ObjectId }.

(** A task as a query with [populate] returns it: the stored document; the
    project put in place of the reference, [null] when there is none; and,
    for each of [assignedTo] and [createdBy], the fields selected from the
    user document where the query populates that path ([None] where it leaves
    the reference). *)
Record PopulatedTask := mkPopulated {
  pt_doc : Task;
  pt_project : option ProjectView;
  pt_assignedTo : option (list string);
  pt_createdBy : option (list string) }.

Record Comment := mkComment {
  c_id : ObjectId;
  c_commentId : nat;
  c_content : jsstring;
  c_task : ObjectId;
  c_author : ObjectId }.

Record Notification := mkNotification {
  n_id : ObjectId;
  n_notificationId : nat;
  n_message : string;
  n_type : string;
  n_recipient : ObjectId;
  n_relatedTask : option ObjectId;
  n_relatedProject : option ObjectId;
  n_isRead : bool }.

(** The authenticated user of a request ([req.user]). *)
Record User := mkUser {
  u_id : ObjectId;
  u_name : string }.

(** ** Events sent to clients *)

(** An entry of [onlineUsers]: [{ userId, name }]. *)
Record OnlineUser := mkOnline {
  ou_userId : value;
  ou_name : value }.

Inductive Payload :=
| POnlineUsers (userList : list OnlineUser)
| PPing (timestamp : Z)
| PUserTyping (userId name roomId : value)
| PUserStoppedTyping (userId roomId : value)
| PTaskUpdated (taskId : ObjectId) (status : string) (updatedBy : string) (task : PopulatedTask)
| PCommentNew (taskId : ObjectId) (comment : Comment)
| PNotificationNew (notification : Notification).

(** One packet handed to one connection. *)
Record Delivery := mkDelivery {
  d_to : string;
  d_event : string;
  d_data : Payload }.

(** What is written through the logger: one constructor per call of
    [logger.socket] in socket.js, carrying the values of its template. The
    call of [logger.error] in the [error] listener writes its line
    ([LogSocketError]) and then, for an error with a [stack], the stack
    ([LogErrorStack]); [LogUncaughtException] is the call in the
    [uncaughtException] handler of server.js. *)
Inductive LogEntry :=
| LogRejectedNoToken (address : string)
| LogRejectedInvalid (message : string)
| LogAuthenticated (userId : value) (socketId : string)
| LogConnected (userId name : value) (socketId : string)
| LogOnlineUsersBroadcast (connected : nat)
| LogHeartbeatPing (userId : value) (socketId : string)
| LogHeartbeatPong (userId : value) (timestamp : value)
| LogJoinRoom (userId : value) (room : string)
| LogLeaveRoom (userId : value) (room : string)
| LogJoinPersonalRoom (userId : value) (room : string)
| LogLeavePersonalRoom (userId : value) (room : string)
| LogTypingStarted (userId : value) (roomId : string)
| LogTypingStopped (userId : value) (roomId : string)
| LogSocketError (userId : value) (socketId : string) (message : string)
| LogErrorStack (stack : string)
| LogDisconnected (userId : value) (socketId : string) (reason : string)
| LogUncaughtException (err : Exn).

(** ** The Socket.IO server as socket.js uses it *)

(** The payload of a verified token, as far as socket.js reads it. Tokens are
    signed by this server (auth.service.js signs [{ id }] with the user's
    ObjectId): [id] and [name] are values that a log line interpolates
    without throwing, and the log entries keep them as they are. *)
Record Decoded := mkDecoded {
  dec_id : value;
  dec_name : value }.

(** A connected socket: its id, [socket.user], and the rooms it joined with
    [socket.join]. Every socket is also in the room named by its own id. *)
Record Socket := mkSocket {
  sock_id : string;
  sock_user : Decoded;
  sock_rooms : gset string }.

(** The state of socket.js: the sockets of the namespace in connection order,
    the module-level [onlineUsers] map, the live [setInterval] heartbeats,
    what was logged, and every packet handed to a connection so far. *)
Record Server := mkServer {
  sockets : list Socket;
  onlineUsers : list (string * OnlineUser);
  heartbeats : list string;
  logs : list LogEntry;
  sent : list Delivery }.

Definition with_sockets (f : list Socket → list Socket) (srv : Server) : Server :=
  mkServer (f (sockets srv)) (onlineUsers srv) (heartbeats srv) (logs srv) (sent srv).
Definition with_onlineUsers (f : list (string * OnlineUser) → list (string * OnlineUser))
    (srv : Server) : Server :=
  mkServer (sockets srv) (f (onlineUsers srv)) (heartbeats srv) (logs srv) (sent srv).
Definition with_heartbeats (f : list string → list string) (srv : Server) : Server :=
  mkServer (sockets srv) (onlineUsers srv) (f (heartbeats srv)) (logs srv) (sent srv).
Definition with_logs (f : list LogEntry → list LogEntry) (srv : Server) : Server :=
  mkServer (sockets srv) (onlineUsers srv) (heartbeats srv) (f (logs srv)) (sent srv).
Definition with_sent (f : list Delivery → list Delivery) (srv : Server) : Server :=
  mkServer (sockets srv) (onlineUsers srv) (heartbeats srv) (logs srv) (f (sent srv)).

Module Sio.

Definition socket_ids (srv : Server) : list string := sock_id <$> sockets srv.

Definition find_socket (sid : string) (srv : Server) : option Socket :=
  List.find (λ s, bool_decide (sock_id s = sid)) (sockets srv).

Definition in_room (room : string) (s : Socket) : Prop :=
  room = sock_id s ∨ room ∈ sock_rooms s.

#[global] Instance in_room_dec room s : Decision (in_room room s).
Proof. unfold in_room. apply _. Defined.

Definition room_members (room : string) (srv : Server) : list Socket :=
  filter (in_room room) (sockets srv).

(** Hand one event to each of [targets]. The order among the recipients of
    one emit carries no meaning; they are listed in connection order. *)
Definition deliver (targets : list Socket) (ev : string) (data : Payload) : M Server unit :=
  modify (with_sent (λ l, l ++ ((λ s, mkDelivery (sock_id s) ev data) <$> targets))).

(** [io.emit(ev, data)]: every connected socket. *)
Definition io_emit (ev : string) (data : Payload) : M Server unit :=
  λ srv, deliver (sockets srv) ev data srv.

(** [io.to(room).emit(ev, data)]: every socket in [room]. *)
Definition io_to_emit (room : string) (ev : string) (data : Payload) : M Server unit :=
  λ srv, deliver (room_members room srv) ev data srv.

(** The room names among the elements of an array. *)
Definition room_names (items : list value) : list string :=
  omap (λ x, match x with VStr r => Some r | _ => None end) items.

(** [socket.to(room).emit(ev, data)]: every socket in [room] except the
    sender. Rooms are only ever created under string names, so a key that is
    not a string names a room without members. An array names several rooms,
    a socket in more than one of them still gets the event once; the empty
    array names no room at all, and an emit without rooms goes to every
    socket. *)
Definition socket_to_emit (sid : string) (room : value) (ev : string) (data : Payload)
    : M Server unit :=
  λ srv,
    let members := match room with
                   | VStr r => room_members r srv
                   | VArr [] => sockets srv
                   | VArr items =>
                       filter (λ s, Exists (λ r, in_room r s) (room_names items))
                              (sockets srv)
                   | _ => []
                   end in
    deliver (filter (λ s, sock_id s ≠ sid) members) ev data srv.

(** [socket.emit(ev, data)]: the socket itself, if it is still connected. *)
Definition socket_emit (sid : string) (ev : string) (data : Payload) : M Server unit :=
  λ srv, deliver (filter (λ s, sock_id s = sid) (sockets srv)) ev data srv.

Definition update_socket (sid : string) (f : Socket → Socket) : M Server unit :=
  modify (with_sockets (fmap (λ s, if decide (sock_id s = sid) then f s else s))).

(** [socket.join(room)] and [socket.leave(room)]: the rooms of a socket are a
    [Set]. *)
Definition socket_join (sid : string) (room : string) : M Server unit :=
  update_socket sid (λ s, mkSocket (sock_id s) (sock_user s) ({[room]} ∪ sock_rooms s)).

Definition socket_leave (sid : string) (room : string) : M Server unit :=
  update_socket sid (λ s, mkSocket (sock_id s) (sock_user s) (sock_rooms s ∖ {[room]})).

(** A socket that passed the middleware enters the namespace, in no room but
    its own. *)
Definition add_socket (sid : string) (user : Decoded) : M Server unit :=
  modify (with_sockets (λ l, l ++ [mkSocket sid user ∅])).

(** On close the socket leaves all its rooms and the namespace; only then do
    its [disconnect] listeners run. *)
Definition remove_socket (sid : string) : M Server unit :=
  modify (with_sockets (filter (λ s, sock_id s ≠ sid))).

End Sio.

(** ** src/config/socket.js *)

(** [socket.handshake]: the value of [auth?.token] and the remote address. *)
Record Handshake := mkHandshake {
  hs_token : value;
  hs_address : string }.

Definition logger_socket (e : LogEntry) : M Server unit :=
  modify (with_logs (λ l, l ++ [e])).

(** [s.split(" ")] *)
Fixpoint split_space (s : string) : list string :=
  match s with
  | EmptyString => [EmptyString]
  | String c s' =>
      if Ascii.eqb c (Ascii.ascii_of_nat 32) then EmptyString :: split_space s'
      else match split_space s' with
           | w :: ws => String c w :: ws
           | [] => [String c EmptyString]
           end
  end.

(** [authHeader.startsWith("Bearer ") ? authHeader.split(" ")[1] : authHeader];
    [startsWith] exists on strings only. *)
Definition bearer_token (authHeader : value) : res (option string) :=
  match authHeader with
  | VStr h =>
      if String.prefix "Bearer " h then Ok (split_space h !! 1) else Ok (Some h)
  | _ => Throw (TypeError "authHeader.startsWith is not a function")
  end.

(** [broadcastOnlineUsers] *)
Definition broadcastOnlineUsers : M Server unit :=
  userList ← gets (λ srv, JsMap.values (onlineUsers srv));
  Sio.io_emit "onlineUsers" (POnlineUsers userList);;
  logger_socket (LogOnlineUsersBroadcast (length userList)).

(** The Session Registry of the specification is [onlineUsers]. *)
Definition register (connectionId : string) (identity : OnlineUser)
    (reg : list (string * OnlineUser)) : list (string * OnlineUser) :=
  JsMap.set connectionId identity reg.

Definition deregister (connectionId : string) (reg : list (string * OnlineUser))
    : list (string * OnlineUser) :=
  JsMap.delete connectionId reg.

Definition listOnline (reg : list (string * OnlineUser)) : list OnlineUser :=
  JsMap.values reg.

Section socket_js.
Context {engine : Runtime}.

(** [jwt.verify(token, process.env.JWT_SECRET)]: the decoded payload, or the
    exception jsonwebtoken throws (expired, malformed, bad signature). *)
Variable jwt_verify : string → res Decoded.

(** The [io.use] middleware. [inl err] is [next(err)], the socket is
    rejected; [inr decoded] is [next()] with [socket.user = decoded]. *)
Definition auth_middleware (sid : string) (hs : Handshake) : M Server (Exn + Decoded) :=
  try_catch
    (let authHeader := hs_token hs in
     if negb (truthy authHeader) then
       logger_socket (LogRejectedNoToken (hs_address hs));;
       mret (inl (Error "Authentication token required. Please login first."))
     else
       token ← lift_res (bearer_token authHeader);
       decoded ← lift_res (match token with
                           | Some t => jwt_verify t
                           | None => Throw (mkExn "JsonWebTokenError" "jwt must be provided" None)
                           end);
       logger_socket (LogAuthenticated (dec_id decoded) sid);;
       mret (inr decoded))
    (λ error,
       logger_socket (LogRejectedInvalid (exn_message error));;
       mret (inl (Error "Invalid or expired token. Please login again."))).

(** The body of [io.on("connection", ...)] up to the listeners. *)
Definition on_connection (sid : string) (user : Decoded) : M Server unit :=
  let userId := dec_id user in
  let userName := dec_name user in
  logger_socket (LogConnected userId userName sid);;
  modify (with_onlineUsers (register sid (mkOnline userId userName)));;
  broadcastOnlineUsers;;
  modify (with_heartbeats (λ l, l ++ [sid])).

(** The [setInterval] callback. *)
Definition on_heartbeat (sid : string) (userId : value) (now : Z) : M Server unit :=
  Sio.socket_emit sid "ping" (PPing now);;
  logger_socket (LogHeartbeatPing userId sid).

(** The [pong] listener. The latency it logs is
    [Date.now() - (data?.timestamp || Date.now())]: a truthy timestamp is
    converted to a number. *)
Definition on_pong (userId : value) (data : value) : M Server unit :=
  let timestamp := get_prop_opt data "timestamp" in
  (if truthy timestamp then lift_res (to_primitive timestamp) else mret tt);;
  logger_socket (LogHeartbeatPong userId timestamp).

Definition on_joinProject (sid : string) (userId : value) (projectId : value) : M Server unit :=
  name ← lift_res (to_string projectId);
  let room := "project:" +:+ name in
  Sio.socket_join sid room;;
  logger_socket (LogJoinRoom userId room).

Definition on_leaveProject (sid : string) (userId : value) (projectId : value) : M Server unit :=
  name ← lift_res (to_string projectId);
  let room := "project:" +:+ name in
  Sio.socket_leave sid room;;
  logger_socket (LogLeaveRoom userId room).

Definition on_joinUser (sid : string) (userId : value) (targetUserId : value) : M Server unit :=
  name ← lift_res (to_string targetUserId);
  let room := "user:" +:+ name in
  Sio.socket_join sid room;;
  logger_socket (LogJoinPersonalRoom userId room).

Definition on_leaveUser (sid : string) (userId : value) (targetUserId : value) : M Server unit :=
  name ← lift_res (to_string targetUserId);
  let room := "user:" +:+ name in
  Sio.socket_leave sid room;;
  logger_socket (LogLeavePersonalRoom userId room).

(** The typing listeners: the log line interpolates [roomId] before anything
    is emitted. *)
Definition on_startTyping (sid : string) (userId userName : value) (payload : value)
    : M Server unit :=
  roomId ← lift_res (destructure payload "roomId");
  room ← lift_res (to_string roomId);
  logger_socket (LogTypingStarted userId room);;
  Sio.socket_to_emit sid roomId "userTyping" (PUserTyping userId userName roomId).

Definition on_stopTyping (sid : string) (userId : value) (payload : value) : M Server unit :=
  roomId ← lift_res (destructure payload "roomId");
  room ← lift_res (to_string roomId);
  logger_socket (LogTypingStopped userId room);;
  Sio.socket_to_emit sid roomId "userStoppedTyping" (PUserStoppedTyping userId roomId).

(** The [error] listener: [err.message] is interpolated into the line that
    [logger.error] writes first; [logger.error] then prints [err.stack] if
    [err && err.stack]. *)
Definition on_error (sid : string) (userId : value) (err : value) : M Server unit :=
  message ← lift_res (get_prop err "message");
  text ← lift_res (to_string message);
  logger_socket (LogSocketError userId sid text);;
  if truthy err then
    stack ← lift_res (get_prop err "stack");
    if truthy stack then
      trace ← lift_res (to_string stack);
      logger_socket (LogErrorStack trace)
    else mret tt
  else mret tt.

(** The [disconnect] listener. *)
Definition on_disconnect (sid : string) (userId : value) (reason : string) : M Server unit :=
  modify (with_heartbeats (filter (λ h, h ≠ sid)));;
  modify (with_onlineUsers (deregister sid));;
  logger_socket (LogDisconnected userId sid reason);;
  broadcastOnlineUsers.

(** The listeners registered with [socket.on]; an event under any other name
    has no listener. [error] is not reserved for packets from clients, so a
    client can reach that listener; [disconnect] is, and comes from the
    transport alone. *)
Definition on_event (s : Socket) (name : string) (arg : value) : M Server unit :=
  let sid := sock_id s in
  let userId := dec_id (sock_user s) in
  let userName := dec_name (sock_user s) in
  if String.eqb name "pong" then on_pong userId arg
  else if String.eqb name "joinProject" then on_joinProject sid userId arg
  else if String.eqb name "leaveProject" then on_leaveProject sid userId arg
  else if String.eqb name "joinUser" then on_joinUser sid userId arg
  else if String.eqb name "leaveUser" then on_leaveUser sid userId arg
  else if String.eqb name "startTyping" then on_startTyping sid userId userName arg
  else if String.eqb name "stopTyping" then on_stopTyping sid userId arg
  else if String.eqb name "error" then on_error sid userId arg
  else mret tt.

(** What the transport feeds the server. *)
Inductive Input :=
| Connect (sid : string) (hs : Handshake)
| Receive (sid : string) (name : string) (arg : value)
| HeartbeatTick (sid : string) (now : Z)
| Disconnect (sid : string) (reason : string).

(** One input. [None]: the transport cannot produce this input in this state
    (a new connection gets an unused id; packets, ticks and closes belong to
    a connected socket). A [Throw] in the result is an exception that escapes
    the listener. *)
Definition step (i : Input) (srv : Server) : option (res unit * Server) :=
  match i with
  | Connect sid hs =>
      if decide (sid ∈ Sio.socket_ids srv) then None
      else Some ((verdict ← auth_middleware sid hs;
                  match verdict with
                  | inl _ => mret tt
                  | inr decoded => Sio.add_socket sid decoded;; on_connection sid decoded
                  end) srv)
  | Receive sid name arg =>
      s ← Sio.find_socket sid srv; Some (on_event s name arg srv)
  | HeartbeatTick sid now =>
      s ← Sio.find_socket sid srv;
      if decide (sid ∈ heartbeats srv)
      then Some (on_heartbeat sid (dec_id (sock_user s)) now srv) else None
  | Disconnect sid reason =>
      s ← Sio.find_socket sid srv;
      Some ((Sio.remove_socket sid;; on_disconnect sid (dec_id (sock_user s)) reason) srv)
  end.

(** The [uncaughtException] handler of server.js: it logs the exception and
    calls [server.close], after which the HTTP server accepts no new TCP
    connection and the process exits once the open ones have ended. *)
Definition uncaughtException (err : Exn) : M Server unit :=
  logger_socket (LogUncaughtException err).

(** A run of the server. An exception that escapes a listener reaches the
    handler above, and the process goes on serving: the sockets that are
    connected keep sending packets, their heartbeats keep ticking, they
    disconnect, and a handshake can still arrive over an HTTP connection that
    is already open. The process ends when its last connection has closed;
    the runs it can make are among those of [run]. *)
Fixpoint run (tr : list Input) (srv : Server) : option Server :=
  match tr with
  | [] => Some srv
  | i :: tr' =>
      match step i srv with
      | Some (Ok _, srv') => run tr' srv'
      | Some (Throw e, srv') => run tr' (snd (uncaughtException e srv'))
      | None => None
      end
  end.

(** [initSocket]: no socket, nobody online. *)
Definition initSocket : Server := mkServer [] [] [] [] [].

Definition reachable (srv : Server) : Prop := ∃ tr, run tr initSocket = Some srv.

End socket_js.

(** ** The document store and the HTTP-side world *)

Record Db := mkDb {
  tasks : list Task;
  projects : list Project;
  comments : list Comment;
  notifications : list Notification;
  counters : gmap string nat;
  (** how many ObjectIds this process has generated *)
  oid_count : nat }.

(** [console.warn(label, message)] *)
Inductive ConsoleEntry :=
| ConsoleWarn (label message : string).

(** What a service call can touch: the module-level [io] of socket.js
    ([None] before [initSocket]), the store, and the console. *)
Record World := mkWorld {
  w_io : option Server;
  w_db : Db;
  w_console : list ConsoleEntry }.

Definition with_db (f : Db → Db) (w : World) : World :=
  mkWorld (w_io w) (f (w_db w)) (w_console w).

Definition console_warn (label message : string) : M World unit :=
  modify (λ w, mkWorld (w_io w) (w_db w) (w_console w ++ [ConsoleWarn label message])).

(** [getIO]: throws while [io] is unset. *)
Definition getIO : M World Server :=
  λ w, match w_io w with
       | Some io => (Ok io, w)
       | None =>
           (Throw (Error "Socket.IO has not been initialized yet! Call initSocket(httpServer) first."), w)
       end.

(** Run a call on the shared [io] object obtained from [getIO]. *)
Definition on_io {A} (m : M Server A) : M World A :=
  λ w, match w_io w with
       | Some io => let '(r, io') := m io in (r, mkWorld (Some io') (w_db w) (w_console w))
       | None => (Throw (TypeError "Cannot read properties of undefined (reading 'to')"), w)
       end.

Definition ValidationError (msg : string) : Exn := mkExn "ValidationError" msg None.

Definition dquote : string := String (Ascii.ascii_of_nat 34) EmptyString.

(** The [enum] of [status] in models/Task.js and of [type] in
    models/Notification.js. *)
Definition task_statuses : list string := ["todo"; "in-progress"; "review"; "done"].
Definition notification_types : list string :=
  ["task_assigned"; "task_updated"; "comment_added"; "project_added"].

Fixpoint update_first (id : ObjectId) (f : Task → Task) (l : list Task) : list Task :=
  match l with
  | [] => []
  | t :: l' => if decide (t_id t = id) then f t :: l' else t :: update_first id f l'
  end.

Definition find_task (id : ObjectId) (db : Db) : option Task :=
  List.find (λ t, bool_decide (t_id t = id)) (tasks db).

Definition find_project (id : ObjectId) (db : Db) : option Project :=
  List.find (λ p, bool_decide (p_id p = id)) (projects db).

(** [getNextSequence(name)] of models/Counter.js: [$inc] with [upsert]
    starting from the default 0, returning the new value. *)
Definition getNextSequence (name : string) : M World nat :=
  λ w, let seq := S (default 0 (counters (w_db w) !! name)) in
       (Ok seq,
        with_db (λ db, mkDb (tasks db) (projects db) (comments db) (notifications db)
                            (<[name := seq]> (counters db)) (oid_count db)) w).

(** The task [t] with [project] populated from the projects [p] finds, and
    the user paths as the query populates them. *)
Definition populated (project : list string) (assignedTo createdBy : option (list string))
    (t : Task) (p : option Project) : PopulatedTask :=
  mkPopulated t (select_project project <$> p) assignedTo createdBy.

(** The [populate] calls of [updateTaskStatus], of [assignTask] and of
    [getTaskById]. *)
Definition populated_update : Task → option Project → PopulatedTask :=
  populated ["title"; "_id"] (Some ["name"; "email"]) (Some ["name"; "email"]).
Definition populated_assign : Task → option Project → PopulatedTask :=
  populated ["title"; "_id"] (Some ["name"; "email"]) None.
Definition populated_get : Task → option Project → PopulatedTask :=
  populated ["title"; "status"] (Some ["name"; "email"; "avatar"; "role"])
            (Some ["name"; "email"]).

Definition populate (view : Task → option Project → PopulatedTask) (t : Task)
    : M World PopulatedTask :=
  gets (λ w, view t (find_project (t_project t) (w_db w))).

(** [Task.findByIdAndUpdate(id, { status }, { new: true, runValidators: true })] *)
Definition Task_updateStatus (id : ObjectId) (newStatus : string) : M World (option Task) :=
  if bool_decide (newStatus ∈ task_statuses) then
    modify (with_db (λ db,
      mkDb (update_first id (λ t, mkTask (t_id t) (t_title t) newStatus (t_project t)
                                          (t_createdBy t) (t_assignedTo t)) (tasks db))
           (projects db) (comments db) (notifications db) (counters db) (oid_count db)));;
    gets (λ w, find_task id (w_db w))
  else throw (ValidationError "Validation failed: status is not a valid enum value").

(** [Task.findByIdAndUpdate(id, { assignedTo }, { new: true })] *)
Definition Task_updateAssignedTo (id : ObjectId) (assigneeId : ObjectId)
    : M World (option Task) :=
  modify (with_db (λ db,
    mkDb (update_first id (λ t, mkTask (t_id t) (t_title t) (t_status t) (t_project t)
                                        (t_createdBy t) (Some assigneeId)) (tasks db))
         (projects db) (comments db) (notifications db) (counters db) (oid_count db)));;
  gets (λ w, find_task id (w_db w)).

(** [Task.findById(id).select("project")] *)
Definition Task_findById (id : ObjectId) : M World (option Task) :=
  gets (λ w, find_task id (w_db w)).

(** ** The services: tasks.service.js and comments.service.js *)
Section services.

(** The [n]-th ObjectId the driver generates in this process. *)
Variable gen_oid : nat → ObjectId.

(** [io.to(room).emit(ev, data)] on the shared server object. Socket.IO's own
    behaviour is [Sio.io_to_emit]; the services are written against any
    broadcaster, including one that throws. *)
Variable io_to_emit : string → string → Payload → M Server unit.

Definition new_oid : M World ObjectId :=
  λ w, (Ok (gen_oid (oid_count (w_db w))),
        with_db (λ db, mkDb (tasks db) (projects db) (comments db) (notifications db)
                            (counters db) (S (oid_count db))) w).

(** [Notification.create({...})]: schema validation, then the pre-save hook
    that draws [notificationId], then the insert; [isRead] defaults to
    [false]. *)
Definition Notification_create (message type : string) (recipient : ObjectId)
    (relatedTask relatedProject : option ObjectId) : M World Notification :=
  _id ← new_oid;
  if negb (String.eqb message EmptyString) && bool_decide (type ∈ notification_types) then
    notificationId ← getNextSequence "notificationId";
    let doc := mkNotification _id notificationId message type recipient
                              relatedTask relatedProject false in
    modify (with_db (λ db, mkDb (tasks db) (projects db) (comments db)
                                (notifications db ++ [doc]) (counters db) (oid_count db)));;
    mret doc
  else throw (ValidationError "Notification validation failed").

(** [Comment.create({ content, task, author })]: [content] is trimmed when
    it is set, then required to be non-empty and to have a [length] of at
    most 1000. *)
Definition Comment_create (content : jsstring) (task author : ObjectId) : M World Comment :=
  _id ← new_oid;
  let content := trim content in
  if bool_decide (content ≠ []) && bool_decide (length content ≤ 1000) then
    commentId ← getNextSequence "commentId";
    let doc := mkComment _id commentId content task author in
    modify (with_db (λ db, mkDb (tasks db) (projects db) (comments db ++ [doc])
                                (notifications db) (counters db) (oid_count db)));;
    mret doc
  else throw (ValidationError "Comment validation failed").

Definition task_not_found : Exn := mkExn "Error" "Task not found" (Some 404).

(** [task.project._id] on a populated task. *)
Definition project_id_of (task : PopulatedTask) : M World ObjectId :=
  match pt_project task with
  | Some p => mret (pv_id p)
  | None => throw (TypeError "Cannot read properties of null (reading '_id')")
  end.

Definition warn_emit_failed (e : Exn) : M World unit :=
  console_warn "Socket emit failed:" (exn_message e).

(** [addComment] of comments.service.js. [comment.populate("author", ...)]
    puts the author's user document in place of the reference in what is
    returned and sent; user documents are outside the store, and the comment
    here keeps the reference. *)
Definition addComment (taskId : ObjectId) (content : jsstring) (authorId : ObjectId)
    : M World Comment :=
  comment ← Comment_create content taskId authorId;
  try_catch
    (task ← Task_findById taskId;
     match task with
     | Some t =>
         getIO;;
         on_io (io_to_emit ("project:" +:+ t_project t) "comment:new"
                           (PCommentNew taskId comment))
     | None => mret tt
     end)
    warn_emit_failed;;
  mret comment.

(** [updateTaskStatus] of tasks.service.js *)
Definition updateTaskStatus (taskId : ObjectId) (newStatus : string) (updatedBy : User)
    : M World PopulatedTask :=
  found ← Task_updateStatus taskId newStatus;
  match found with
  | None => throw task_not_found
  | Some t =>
      task ← populate populated_update t;
      try_catch
        (getIO;;
         projectId ← project_id_of task;
         on_io (io_to_emit ("project:" +:+ projectId) "task:updated"
                           (PTaskUpdated (t_id t) (t_status t) (u_name updatedBy) task)))
        warn_emit_failed;;
      mret task
  end.

(** [assignTask] of tasks.service.js *)
Definition assignTask (taskId : ObjectId) (assigneeId : ObjectId) (assignedBy : User)
    : M World PopulatedTask :=
  found ← Task_updateAssignedTo taskId assigneeId;
  match found with
  | None => throw task_not_found
  | Some t =>
      task ← populate populated_assign t;
      projectId ← project_id_of task;
      notification ← Notification_create
        ("You have been assigned to task: " +:+ dquote +:+ t_title t +:+ dquote)
        "task_assigned" assigneeId (Some taskId) (Some projectId);
      try_catch
        (getIO;;
         on_io (io_to_emit ("user:" +:+ assigneeId) "notification:new"
                           (PNotificationNew notification)))
        warn_emit_failed;;
      mret task
  end.

End services.

(** ** Sequences of registry operations *)

Inductive RegOp :=
| Register (connectionId : string) (identity : OnlineUser)
| Deregister (connectionId : string).

Definition apply_op (reg : list (string * OnlineUser)) (op : RegOp)
    : list (string * OnlineUser) :=
  match op with
  | Register c i => register c i reg
  | Deregister c => deregister c reg
  end.

Definition apply_ops (ops : list RegOp) (reg : list (string * OnlineUser))
    : list (string * OnlineUser) :=
  foldl apply_op reg ops.

(** Connection identifiers are unique: an identifier that is registered has
    not been used by an earlier operation. [seen] are the identifiers used so
    far. *)
Fixpoint fresh_ids (seen : list string) (ops : list RegOp) : bool :=
  match ops with
  | [] => true
  | Register c _ :: ops' => bool_decide (c ∉ seen) && fresh_ids (c :: seen) ops'
  | Deregister c :: ops' => fresh_ids (c :: seen) ops'
  end.

Definition unique_ids (ops : list RegOp) : Prop := fresh_ids [] ops = true.

(** ** Sample data *)

(** An engine for the samples: decimal digits, as [Number::toString] prints
    the integers up to 2^53; the samples hold no larger number. *)
#[global] Instance sample_runtime : Runtime := {| number_to_string := pretty |}.

Definition alice : OnlineUser := mkOnline (VStr "u1") (VStr "Alice").
Definition bob : OnlineUser := mkOnline (VStr "u2") (VStr "Bob").

Definition sample_ops : list RegOp :=
  [Register "c1" alice; Register "c2" bob; Deregister "c1"; Deregister "c1"; Deregister "c9"].

(** ** The two kinds of topic a client joins and leaves *)

Inductive TopicKind := ProjectTopic | UserTopic.

Definition topic_prefix (k : TopicKind) : string :=
  match k with ProjectTopic => "project:" | UserTopic => "user:" end.

(** [joinProject] / [joinUser] and [leaveProject] / [leaveUser]. *)
Definition on_join `{!Runtime} (k : TopicKind) : string → value → value → M Server unit :=
  match k with ProjectTopic => on_joinProject | UserTopic => on_joinUser end.

Definition on_leave `{!Runtime} (k : TopicKind) : string → value → value → M Server unit :=
  match k with ProjectTopic => on_leaveProject | UserTopic => on_leaveUser end.

(** The room a join or leave event names, if its payload can be interpolated. *)
Definition topic_of `{!Runtime} (k : TopicKind) (p : value) : option string :=
  match to_string p with
  | Ok name => Some (topic_prefix k +:+ name)
  | Throw _ => None
  end.

(** One connection of user u1, whose token carries no name. *)
Definition one_socket : Server :=
  mkServer [mkSocket "c1" (mkDecoded (VStr "u1") VUndefined) ∅]
           [("c1", mkOnline (VStr "u1") VUndefined)] ["c1"] [] [].

(** ** Vocabulary of the lifecycle properties *)

(** The handshake carries a token that [jwt.verify] accepts with payload [d]. *)
Definition verified (jwt_verify : string → res Decoded) (hs : Handshake) (d : Decoded) : Prop :=
  truthy (hs_token hs) = true ∧
  ∃ t, bearer_token (hs_token hs) = Ok (Some t) ∧ jwt_verify t = Ok d.

(** The registry, the identifiers of the connected sockets, and the live
    heartbeats. *)
Definition presence (srv : Server) : list (string * OnlineUser) * list string * list string :=
  (onlineUsers srv, Sio.socket_ids srv, heartbeats srv).

(** The registry, the connected sockets and the heartbeats name the same
    connections, in the same order. *)
Definition in_sync (srv : Server) : Prop :=
  JsMap.keys (onlineUsers srv) = Sio.socket_ids srv ∧ heartbeats srv = Sio.socket_ids srv.

(** The events socket.js listens to. *)
Definition event_names : list string :=
  ["pong"; "joinProject"; "leaveProject"; "joinUser"; "leaveUser"; "startTyping"; "stopTyping";
   "error"].

(** A verifier that knows two tokens. *)
Definition sample_verify : string → res Decoded :=
  λ t, if String.eqb t "tok-u1" then Ok (mkDecoded (VStr "u1") (VStr "Alice"))
       else if String.eqb t "tok-u2" then Ok (mkDecoded (VStr "u2") (VStr "Bob"))
       else Throw (mkExn "JsonWebTokenError" "invalid token" None).

Definition socketA : Socket :=
  mkSocket "c1" (mkDecoded (VStr "u1") (VStr "Alice")) {["project:p1"]}.
Definition socketB : Socket :=
  mkSocket "c2" (mkDecoded (VStr "u2") (VStr "Bob")) {["project:p1"]}.

(** Alice and Bob online, both in the room of project p1. *)
Definition two_sockets : Server :=
  mkServer [socketA; socketB] [("c1", alice); ("c2", bob)] ["c1"; "c2"] [] [].

(** A handshake with a token the verifier knows, and one with a token it
    refuses. *)
Definition good_handshake : Handshake := mkHandshake (VStr "Bearer tok-u1") "10.0.0.1".
Definition bad_handshake : Handshake := mkHandshake (VStr "Bearer expired") "10.0.0.2".

(** ** Vocabulary of the service properties *)

(** The updates [{ assignedTo }] and [{ status }] of [findByIdAndUpdate]. *)
Definition set_assignedTo (a : ObjectId) (t : Task) : Task :=
  mkTask (t_id t) (t_title t) (t_status t) (t_project t) (t_createdBy t) (Some a).
Definition set_status (st : string) (t : Task) : Task :=
  mkTask (t_id t) (t_title t) st (t_project t) (t_createdBy t) (t_assignedTo t).
Definition with_tasks (f : list Task → list Task) (db : Db) : Db :=
  mkDb (f (tasks db)) (projects db) (comments db) (notifications db) (counters db) (oid_count db).

(** The documents [Notification.create] and [Comment.create] insert. *)
Definition next_seq (name : string) (db : Db) : nat := S (default 0 (counters db !! name)).

Definition notification_doc (gen_oid : nat → ObjectId) (db : Db) (message type : string)
    (recipient : ObjectId) (relatedTask relatedProject : option ObjectId) : Notification :=
  mkNotification (gen_oid (oid_count db)) (next_seq "notificationId" db) message type
                 recipient relatedTask relatedProject false.

Definition insert_notification (doc : Notification) (db : Db) : Db :=
  mkDb (tasks db) (projects db) (comments db) (notifications db ++ [doc])
       (<["notificationId" := n_notificationId doc]> (counters db)) (S (oid_count db)).

Definition comment_doc (gen_oid : nat → ObjectId) (db : Db) (content : jsstring)
    (task author : ObjectId) : Comment :=
  mkComment (gen_oid (oid_count db)) (next_seq "commentId" db) (trim content) task author.

Definition insert_comment (doc : Comment) (db : Db) : Db :=
  mkDb (tasks db) (projects db) (comments db ++ [doc]) (notifications db)
       (<["commentId" := c_commentId doc]> (counters db)) (S (oid_count db)).

Definition assigned_message (t : Task) : string :=
  "You have been assigned to task: " +:+ dquote +:+ t_title t +:+ dquote.

(** A computation that leaves the notifications of the store alone. *)
Definition keeps_notifications {A} (m : M World A) : Prop :=
  ∀ w, notifications (w_db (snd (m w))) = notifications (w_db w).

(** ** Sample store *)

Definition sample_gen_oid : nat → ObjectId := λ n, "oid" +:+ pretty n.

Definition sample_task : Task := mkTask "t1" "Write report" "todo" "p1" "u1" None.
Definition sample_project : Project := mkProject "p1" "Apollo" "active".

Definition sample_db : Db := mkDb [sample_task] [sample_project] [] [] ∅ 0.

(** The store with Alice and Bob connected, and before [initSocket]. *)
Definition sample_world : World := mkWorld (Some two_sockets) sample_db [].
Definition offline_world : World := mkWorld None sample_db [].

Definition manager : User := mkUser "u1" "Alice".

(** ** Vocabulary of the further properties *)

(** A packet or a heartbeat tick of a connected socket. *)
Definition inbound (i : Input) : bool :=
  match i with
  | Receive _ _ _ | HeartbeatTick _ _ => true
  | _ => false
  end.

(** The registry entry of a connection. *)
Definition identity_of (d : Decoded) : OnlineUser := mkOnline (dec_id d) (dec_name d).

(** The registry that lists each of [l] once, in order. *)
Definition registry_of (l : list Socket) : list (string * OnlineUser) :=
  (λ s, (sock_id s, identity_of (sock_user s))) <$> l.

Definition consistent (srv : Server) : Prop :=
  onlineUsers srv = registry_of (sockets srv) ∧
  heartbeats srv = Sio.socket_ids srv ∧
  NoDup (Sio.socket_ids srv).

(** No blank in [s]. *)
Fixpoint no_space (s : string) : bool :=
  match s with
  | EmptyString => true
  | String c s' => negb (Ascii.eqb c (Ascii.ascii_of_nat 32)) && no_space s'
  end.

(** ** More of comments.service.js and tasks.service.js *)

Definition find_comment (id : ObjectId) (db : Db) : option Comment :=
  List.find (λ c, bool_decide (c_id c = id)) (comments db).

(** [Comment.findById(id)] *)
Definition Comment_findById (id : ObjectId) : M World (option Comment) :=
  gets (λ w, find_comment id (w_db w)).

(** [comment.deleteOne()]: removes the document with this [_id]. *)
Definition Comment_deleteOne (c : Comment) : M World unit :=
  modify (with_db (λ db,
    mkDb (tasks db) (projects db) (filter (λ c', c_id c' ≠ c_id c) (comments db))
         (notifications db) (counters db) (oid_count db))).

Definition comment_not_found : Exn := mkExn "Error" "Comment not found" (Some 404).
Definition not_authorized_to_delete : Exn :=
  mkExn "Error" "Not authorized to delete this comment" (Some 403).

(** [deleteComment] of comments.service.js; the result is the [message] of
    the object it returns. *)
Definition deleteComment (commentId userId : ObjectId) (userRole : string) : M World string :=
  comment ← Comment_findById commentId;
  match comment with
  | None => throw comment_not_found
  | Some c =>
      if negb (String.eqb (c_author c) userId) && negb (String.eqb userRole "admin")
      then throw not_authorized_to_delete
      else Comment_deleteOne c;; mret "Comment deleted"
  end.

(** [getTaskById] of tasks.service.js *)
Definition getTaskById (id : ObjectId) : M World PopulatedTask :=
  found ← Task_findById id;
  match found with
  | None => throw task_not_found
  | Some t => populate populated_get t
  end.

(** ** The HTTP side: middleware/role.js, the controllers, and the error
    handler of app.js *)

(** A request that passed [protect], as far as the routes below read it. The
    fields of the body are strings. *)
Record Request := mkRequest {
  req_method : string;
  req_originalUrl : string;
  req_params_id : ObjectId;
  req_params_taskId : ObjectId;
  req_body_status : string;
  req_body_userId : ObjectId;
  req_body_content : jsstring;
  req_user : User;
  req_user_role : string }.

(** [{ success: true, data }], or [{ success: false, message }] with or
    without the [stack]. *)
Inductive Body (A : Type) :=
| Success (data : A)
| Failure (message : string) (stack : bool).
Arguments Success {A} data.
Arguments Failure {A} message stack.

Record Response (A : Type) := mkResponse {
  res_status : nat;
  res_body : Body A }.
Arguments mkResponse {A} res_status res_body.
Arguments res_status {A} r.
Arguments res_body {A} r.

(** The line the error handler writes with [logger.error]. *)
Inductive ErrorLog :=
| LogError (method originalUrl : string) (statusCode : nat) (message : string).

Record Http := mkHttp {
  h_world : World;
  h_errors : list ErrorLog }.

Definition on_world {A} (m : M World A) : M Http A :=
  λ h, let '(r, w') := m (h_world h) in (r, mkHttp w' (h_errors h)).

Definition logger_error (e : ErrorLog) : M Http unit :=
  modify (λ h, mkHttp (h_world h) (h_errors h ++ [e])).

(** [authorize(...roles)]: [Some] is the 403 answer, [None] is [next()]. *)
Definition authorize {A} (roles : list string) (req : Request) : option (Response A) :=
  if bool_decide (req_user_role req ∈ roles) then None
  else Some (mkResponse 403
         (Failure ("Role '" +:+ req_user_role req +:+ "' is not authorized to access this route")
                  false)).

Section app_js.

(** [process.env.NODE_ENV === "development"] *)
Variable development : bool.

(** [err.statusCode || 500] *)
Definition status_of (err : Exn) : nat :=
  match exn_statusCode err with
  | Some n => if (n =? 0)%nat then 500 else n
  | None => 500
  end.

(** The error-handling middleware at the end of app.js. *)
Definition error_handler {A} (err : Exn) (req : Request) : M Http (Response A) :=
  let statusCode := status_of err in
  logger_error (LogError (req_method req) (req_originalUrl req) statusCode (exn_message err));;
  mret (mkResponse statusCode
          (Failure (if String.eqb (exn_message err) EmptyString
                    then "Internal Server Error" else exn_message err)
                   development)).

End app_js.

(** tasks.controller.js and comments.controller.js: [next(error)] reaches the
    error handler. *)
Module Controller.
Section Controller.
Variable development : bool.
Variable gen_oid : nat → ObjectId.
Variable io_to_emit : string → string → Payload → M Server unit.

Definition getTaskById (req : Request) : M Http (Response PopulatedTask) :=
  try_catch
    (task ← on_world (getTaskById (req_params_id req));
     mret (mkResponse 200 (Success task)))
    (λ error, error_handler development error req).

Definition updateTaskStatus (req : Request) : M Http (Response PopulatedTask) :=
  try_catch
    (task ← on_world (updateTaskStatus io_to_emit (req_params_id req) (req_body_status req)
                                       (req_user req));
     mret (mkResponse 200 (Success task)))
    (λ error, error_handler development error req).

Definition assignTask (req : Request) : M Http (Response PopulatedTask) :=
  try_catch
    (task ← on_world (assignTask gen_oid io_to_emit (req_params_id req) (req_body_userId req)
                                 (req_user req));
     mret (mkResponse 200 (Success task)))
    (λ error, error_handler development error req).

Definition addComment (req : Request) : M Http (Response Comment) :=
  try_catch
    (comment ← on_world (addComment gen_oid io_to_emit (req_params_taskId req)
                                    (req_body_content req) (u_id (req_user req)));
     mret (mkResponse 201 (Success comment)))
    (λ error, error_handler development error req).

Definition deleteComment (req : Request) : M Http (Response string) :=
  try_catch
    (result ← on_world (deleteComment (req_params_id req) (u_id (req_user req))
                                      (req_user_role req));
     mret (mkResponse 200 (Success result)))
    (λ error, error_handler development error req).

End Controller.
End Controller.

(** tasks.routes.js: [PATCH /:id/status] has no role check, [POST /:id/assign]
    is for admins and managers. *)
Module Routes.
Section Routes.
Variable development : bool.
Variable gen_oid : nat → ObjectId.
Variable io_to_emit : string → string → Payload → M Server unit.

Definition patch_status (req : Request) : M Http (Response PopulatedTask) :=
  Controller.updateTaskStatus development io_to_emit req.

Definition post_assign (req : Request) : M Http (Response PopulatedTask) :=
  match authorize ["admin"; "manager"] req with
  | Some forbidden => mret forbidden
  | None => Controller.assignTask development gen_oid io_to_emit req
  end.

End Routes.
End Routes.

(** ** Vocabulary of the further service properties *)

(** [n] calls of [getNextSequence(name)] in a row. *)
Fixpoint draw_many (name : string) (n : nat) : M World (list nat) :=
  match n with
  | 0 => mret []
  | S n' => x ← getNextSequence name; xs ← draw_many name n'; mret (x :: xs)
  end.

(** The current value of a counter, 0 while it does not exist. *)
Definition counter_value (name : string) (db : Db) : nat := default 0 (counters db !! name).

(** The store after [new Model(...)] drew an ObjectId. *)
Definition bump_oid (db : Db) : Db :=
  mkDb (tasks db) (projects db) (comments db) (notifications db) (counters db)
       (S (oid_count db)).

(** Every [notificationId] in the store was drawn from the counter, and no two
    notifications share one. *)
Definition notification_ids_ok (db : Db) : Prop :=
  (∀ n, n ∈ notifications db → n_notificationId n ≤ counter_value "notificationId" db) ∧
  NoDup (n_notificationId <$> notifications db).

(** [io'] is [io] after at most one emit to one room. *)
Definition sent_at_most_once (io io' : Server) : Prop :=
  sockets io' = sockets io ∧ onlineUsers io' = onlineUsers io ∧
  heartbeats io' = heartbeats io ∧ logs io' = logs io ∧
  (sent io' = sent io ∨
   ∃ room ev data,
     sent io' = sent io ++ ((λ s, mkDelivery (sock_id s) ev data) <$> Sio.room_members room io)).

(** How a controller answers the outcome of its service call. *)
Definition maps_outcome {A} (development : bool) (ok : nat) (service : M World A)
    (controller : M Http (Response A)) (req : Request) : Prop :=
  ∀ h,
    match service (h_world h) with
    | (Ok a, w') => controller h = (Ok (mkResponse ok (Success a)), mkHttp w' (h_errors h))
    | (Throw e, w') =>
        controller h
        = (Ok (mkResponse (status_of e)
                 (Failure (if String.eqb (exn_message e) EmptyString
                           then "Internal Server Error" else exn_message e) development)),
           mkHttp w' (h_errors h ++ [LogError (req_method req) (req_originalUrl req)
                                              (status_of e) (exn_message e)]))
    end.

(** A task whose project is gone. *)
Definition orphan_task : Task := mkTask "t2" "Orphan" "todo" "p9" "u1" None.
Definition orphan_world : World :=
  mkWorld (Some two_sockets) (mkDb [orphan_task] [] [] [] ∅ 0) [].

(** Alice connected and in the room of p9, the project of the orphan task. *)
Definition watching_p9 : Server :=
  mkServer [mkSocket "c1" (mkDecoded (VStr "u1") (VStr "Alice")) {["project:p9"]}]
           [("c1", alice)] ["c1"] [] [].
Definition watched_orphan_world : World :=
  mkWorld (Some watching_p9) (mkDb [orphan_task] [] [] [] ∅ 0) [].

(** The packets of one emit to [room] on the server [io]. *)
Definition room_packets (io : Server) (room ev : string) (data : Payload) : list Delivery :=
  (λ s, mkDelivery (sock_id s) ev data) <$> Sio.room_members room io.

(** From [w] to [w'] the server object, where [initSocket] has made one, has
    been handed exactly [packets]. *)
Definition handed (w w' : World) (packets : Server → list Delivery) : Prop :=
  match w_io w with
  | Some io => ∃ io', w_io w' = Some io' ∧ sent io' = sent io ++ packets io
  | None => w_io w' = None
  end.

(** * Properties *)

(** ** The [Map] operations *)
Module JsMapFacts.
Section JsMapFacts.
Context {V : Type}.
Implicit Types (m : list (string * V)) (k : string) (v : V).

Lemma set_absent k v m : k ∉ JsMap.keys m → JsMap.set k v m = m ++ [(k, v)].
Proof.
  unfold JsMap.keys. induction m as [|[k' v'] m IH]; simpl; [done|].
  intros Hk. apply not_elem_of_cons in Hk as [Hne Hk].
  destruct (decide (k' = k)); [congruence|]. by rewrite IH.
Qed.

Lemma keys_set_present k v m : k ∈ JsMap.keys m → JsMap.keys (JsMap.set k v m) = JsMap.keys m.
Proof.
  unfold JsMap.keys. induction m as [|[k' v'] m IH]; simpl.
  - by intros ?%elem_of_nil.
  - intros Hk. destruct (decide (k' = k)) as [->|Hne]; simpl; [done|].
    apply elem_of_cons in Hk as [?|Hk]; [congruence|]. f_equal. by apply IH.
Qed.

Lemma get_set_eq k v m : JsMap.get k (JsMap.set k v m) = Some v.
Proof.
  unfold JsMap.get. induction m as [|[k' v'] m IH]; simpl.
  - by rewrite bool_decide_eq_true_2.
  - destruct (decide (k' = k)) as [->|Hne]; simpl.
    + by rewrite bool_decide_eq_true_2.
    + by rewrite bool_decide_eq_false_2.
Qed.

Lemma get_set_ne k k' v m : k ≠ k' → JsMap.get k' (JsMap.set k v m) = JsMap.get k' m.
Proof.
  unfold JsMap.get. intros Hne. induction m as [|[k0 v0] m IH]; simpl.
  - by rewrite bool_decide_eq_false_2.
  - destruct (decide (k0 = k)) as [->|Hne0]; simpl.
    + by rewrite !bool_decide_eq_false_2.
    + destruct (bool_decide (k0 = k')); [done|]. apply IH.
Qed.

Lemma elem_of_delete k m k' v : (k', v) ∈ JsMap.delete k m ↔ (k', v) ∈ m ∧ k' ≠ k.
Proof. unfold JsMap.delete. rewrite list_elem_of_filter. simpl. tauto. Qed.

Lemma delete_absent k m : k ∉ JsMap.keys m → JsMap.delete k m = m.
Proof.
  unfold JsMap.keys, JsMap.delete. induction m as [|[k' v'] m IH]; simpl; [done|].
  intros Hk. apply not_elem_of_cons in Hk as [Hne Hk].
  rewrite filter_cons_True by (simpl; congruence). by rewrite IH.
Qed.

Lemma keys_delete k m : JsMap.keys (JsMap.delete k m) = filter (λ k', k' ≠ k) (JsMap.keys m).
Proof.
  unfold JsMap.keys, JsMap.delete. induction m as [|[k' v'] m IH]; [done|].
  rewrite fmap_cons, !filter_cons. simpl.
  destruct (decide (k' ≠ k)); [rewrite fmap_cons; f_equal|]; apply IH.
Qed.

Lemma not_elem_of_keys_delete k m : k ∉ JsMap.keys (JsMap.delete k m).
Proof. rewrite keys_delete, list_elem_of_filter. tauto. Qed.

Lemma get_None k m : JsMap.get k m = None ↔ k ∉ JsMap.keys m.
Proof.
  unfold JsMap.get, JsMap.keys. induction m as [|[k' v'] m IH]; simpl.
  - split; [intros _ ?%elem_of_nil; done|done].
  - rewrite not_elem_of_cons. destruct (decide (k' = k)) as [->|Hne].
    + rewrite bool_decide_eq_true_2 by done. simpl. split; [done|tauto].
    + rewrite bool_decide_eq_false_2 by done. rewrite IH. intuition congruence.
Qed.

End JsMapFacts.
End JsMapFacts.

(** ** The session registry *)

Lemma fresh_ids_register seen ops c i :
  fresh_ids seen ops = true → Register c i ∈ ops → c ∉ seen.
Proof.
  revert seen. induction ops as [|op ops IH]; intros seen Hf Hin.
  - by apply elem_of_nil in Hin.
  - apply elem_of_cons in Hin as [<-|Hin]; simpl in Hf.
    + apply andb_prop in Hf as [Hc _]. by apply bool_decide_eq_true in Hc.
    + destruct op as [c' i'|c']; [apply andb_prop in Hf as [_ Hf]|];
        apply IH in Hf; try done; set_solver.
Qed.

(** What a run of operations leaves in the registry, for a registry whose
    identifiers have all been seen. *)
Lemma apply_ops_spec seen ops reg :
  JsMap.keys reg ⊆ seen → fresh_ids seen ops = true →
  ∀ c i, (c, i) ∈ apply_ops ops reg ↔
         ((c, i) ∈ reg ∨ Register c i ∈ ops) ∧ Deregister c ∉ ops.
Proof.
  revert seen reg. induction ops as [|op ops IH]; intros seen reg Hsub Hf c i.
  - simpl. split; [intros ?; split; [by left|by intros ?%elem_of_nil]|].
    by intros [[?|?%elem_of_nil] _].
  - unfold apply_ops in *. destruct op as [c0 i0|c0]; simpl in Hf |- *.
    + apply andb_prop in Hf as [Hc Hf]. apply bool_decide_eq_true in Hc.
      assert (Hc0 : c0 ∉ JsMap.keys reg) by (intros ?; apply Hc; by apply Hsub).
      unfold register. rewrite JsMapFacts.set_absent by done.
      rewrite (IH (c0 :: seen)); [| |done].
      * rewrite elem_of_app, list_elem_of_singleton, not_elem_of_cons, elem_of_cons.
        split.
        -- intros [[[?|Heq]|?] ?]; (split; [|split; [discriminate|done]]);
             [by left|right; left; congruence|by right; right].
        -- intros [[?|[Heq|?]] [_ ?]]; (split; [|done]);
             [by left; left|left; right; congruence|by right].
      * unfold JsMap.keys in *. rewrite fmap_app. simpl.
        intros k [Hk|Hk%list_elem_of_singleton]%elem_of_app;
          [apply elem_of_cons; right; by apply Hsub|apply elem_of_cons; by left].
    + unfold deregister. rewrite (IH (c0 :: seen)); [| |done].
      * rewrite JsMapFacts.elem_of_delete, not_elem_of_cons, elem_of_cons.
        pose proof (fresh_ids_register _ _ c i Hf) as Hfr.
        split.
        -- intros [[[? Hne]|Hr] ?].
           ++ split; [by left|]. split; [congruence|done].
           ++ split; [by right; right|]. split; [|done].
              intros [= ->]. apply (Hfr Hr). apply elem_of_cons. by left.
        -- intros [[?|[?|Hr]] [Hne ?]]; [|discriminate|]; (split; [|done]).
           ++ left. split; [done|congruence].
           ++ by right.
      * rewrite JsMapFacts.keys_delete. intros k [_ Hk]%list_elem_of_filter.
        apply elem_of_cons. right. by apply Hsub.
Qed.

(** C5, as stated, fails: with connection c1 already in the registry, a second
    registration of c1 raises nothing and replaces the entry that was there. *)
Lemma register_duplicate_overwrites :
  let reg := [("c1", alice)] in
  let srv := mkServer [mkSocket "c1" (mkDecoded (VStr "u1") (VStr "Alice")) ∅]
                      reg ["c1"] [] [] in
  "c1" ∈ JsMap.keys reg ∧
  register "c1" bob reg = [("c1", bob)] ∧
  register "c1" bob reg ≠ reg ∧
  fst (on_connection "c1" (mkDecoded (VStr "u2") (VStr "Bob")) srv) = Ok tt ∧
  onlineUsers (snd (on_connection "c1" (mkDecoded (VStr "u2") (VStr "Bob")) srv))
    = [("c1", bob)].
Proof.
  simpl. split; [set_solver|]. split; [reflexivity|]. split; [discriminate|].
  split; reflexivity.
Qed.

(** C5 (amended): registering a connection identifier that is already present
    succeeds and replaces the identity stored under it; the identifier keeps
    its place and stays in the registry once, every other entry is untouched,
    and the connection handler that performs the registration returns
    normally. *)
Theorem register_present_replaces (c : string) (i : OnlineUser)
    (reg : list (string * OnlineUser)) :
  c ∈ JsMap.keys reg →
  JsMap.keys (register c i reg) = JsMap.keys reg ∧
  JsMap.get c (register c i reg) = Some i ∧
  (∀ c', c' ≠ c → JsMap.get c' (register c i reg) = JsMap.get c' reg) ∧
  (∀ (user : Decoded) (srv : Server),
     fst (on_connection c user srv) = Ok tt ∧
     onlineUsers (snd (on_connection c user srv))
       = register c (mkOnline (dec_id user) (dec_name user)) (onlineUsers srv)).
Proof.
  intros Hc. unfold register. split; [by apply JsMapFacts.keys_set_present|].
  split; [apply JsMapFacts.get_set_eq|].
  split; [intros c' Hne; by apply JsMapFacts.get_set_ne|].
  intros user srv. split; reflexivity.
Qed.

Lemma register_present_replaces_witness :
  "c1" ∈ JsMap.keys [("c0", alice); ("c1", alice)] ∧
  JsMap.get "c1" (register "c1" bob [("c0", alice); ("c1", alice)]) = Some bob.
Proof.
  assert (H : "c1" ∈ JsMap.keys [("c0", alice); ("c1", alice)]) by (simpl; set_solver).
  split; [exact H|].
  exact (proj1 (proj2 (register_present_replaces "c1" bob _ H))).
Defined.

(** C2: after any sequence of register and deregister calls with unique
    connection identifiers, starting from the empty registry, the identities
    [listOnline] returns are exactly those registered under an identifier that
    was not deregistered; deregistering an identifier that is absent changes
    nothing. *)
Theorem listOnline_registered_minus_deregistered (ops : list RegOp) :
  unique_ids ops →
  (∀ c i, (c, i) ∈ apply_ops ops [] ↔ Register c i ∈ ops ∧ Deregister c ∉ ops) ∧
  (∀ i, i ∈ listOnline (apply_ops ops []) ↔
        ∃ c, Register c i ∈ ops ∧ Deregister c ∉ ops) ∧
  (∀ c reg, c ∉ JsMap.keys reg → deregister c reg = reg).
Proof.
  intros Hu.
  assert (Hspec : ∀ c i,
    (c, i) ∈ apply_ops ops [] ↔ Register c i ∈ ops ∧ Deregister c ∉ ops).
  { intros c i. rewrite (apply_ops_spec [] ops []); [|done|done]. set_solver. }
  split; [exact Hspec|]. split.
  - intros i. unfold listOnline, JsMap.values. rewrite list_elem_of_fmap. split.
    + intros [[c i'] [-> Hin]]. exists c. by apply Hspec.
    + intros [c Hc]. exists (c, i). split; [done|]. by apply Hspec.
  - intros c reg. apply JsMapFacts.delete_absent.
Qed.

Lemma listOnline_registered_minus_deregistered_witness :
  unique_ids sample_ops ∧
  (∀ i, i ∈ listOnline (apply_ops sample_ops []) ↔
        ∃ c, Register c i ∈ sample_ops ∧ Deregister c ∉ sample_ops).
Proof.
  assert (H : unique_ids sample_ops) by reflexivity.
  split; [exact H|].
  exact (proj1 (proj2 (listOnline_registered_minus_deregistered sample_ops H))).
Defined.

(** ** Rooms *)

Section rooms.
Implicit Types (srv : Server) (s : Socket) (sid room : string).

Lemma socket_eta s : mkSocket (sock_id s) (sock_user s) (sock_rooms s) = s.
Proof. by destruct s. Qed.

Lemma sockets_socket_join sid room srv :
  sockets (snd (Sio.socket_join sid room srv)) =
  (λ s, if decide (sock_id s = sid)
        then mkSocket (sock_id s) (sock_user s) ({[room]} ∪ sock_rooms s) else s) <$> sockets srv.
Proof. reflexivity. Qed.

Lemma sockets_socket_leave sid room srv :
  sockets (snd (Sio.socket_leave sid room srv)) =
  (λ s, if decide (sock_id s = sid)
        then mkSocket (sock_id s) (sock_user s) (sock_rooms s ∖ {[room]}) else s) <$> sockets srv.
Proof. reflexivity. Qed.

Lemma join_join sid room srv :
  sockets (snd (Sio.socket_join sid room (snd (Sio.socket_join sid room srv)))) =
  sockets (snd (Sio.socket_join sid room srv)).
Proof.
  rewrite !sockets_socket_join, <- list_fmap_compose. apply list_fmap_ext.
  intros _ s _. simpl. destruct (decide (sock_id s = sid)) as [Heq|Hne]; simpl.
  - rewrite decide_True by done. f_equal. set_solver.
  - by rewrite decide_False.
Qed.

Lemma leave_not_joined sid room srv :
  (∀ s, s ∈ sockets srv → sock_id s = sid → room ∉ sock_rooms s) →
  sockets (snd (Sio.socket_leave sid room srv)) = sockets srv.
Proof.
  intros Hno. rewrite sockets_socket_leave.
  rewrite <- (list_fmap_id (sockets srv)) at 2. apply list_fmap_ext.
  intros i s Hs. apply list_elem_of_lookup_2 in Hs.
  destruct (decide (sock_id s = sid)) as [Heq|Hne]; [|done].
  specialize (Hno s Hs Heq). destruct s as [i' u r]; simpl in *. f_equal. set_solver.
Qed.

Lemma leave_clears sid room srv s :
  s ∈ sockets (snd (Sio.socket_leave sid room srv)) → sock_id s = sid → room ∉ sock_rooms s.
Proof.
  rewrite sockets_socket_leave. intros [s0 [-> Hs0]]%list_elem_of_fmap.
  destruct (decide (sock_id s0 = sid)); simpl; [set_solver|done].
Qed.
End rooms.
Section topics.
Context {engine : Runtime}.

Lemma on_join_named k sid userId p name srv :
  to_string p = Ok name →
  fst (on_join k sid userId p srv) = Ok tt ∧
  sockets (snd (on_join k sid userId p srv)) =
  sockets (snd (Sio.socket_join sid (topic_prefix k +:+ name) srv)).
Proof.
  intros Hp. destruct k; simpl;
    unfold on_joinProject, on_joinUser, mbind, M_bind, bind, lift_res; by rewrite Hp.
Qed.

Lemma on_leave_named k sid userId p name srv :
  to_string p = Ok name →
  fst (on_leave k sid userId p srv) = Ok tt ∧
  sockets (snd (on_leave k sid userId p srv)) =
  sockets (snd (Sio.socket_leave sid (topic_prefix k +:+ name) srv)).
Proof.
  intros Hp. destruct k; simpl;
    unfold on_leaveProject, on_leaveUser, mbind, M_bind, bind, lift_res; by rewrite Hp.
Qed.

Lemma on_join_unnamed k sid userId p e srv :
  to_string p = Throw e → on_join k sid userId p srv = (Throw e, srv).
Proof.
  intros Hp. destruct k; simpl;
    unfold on_joinProject, on_joinUser, mbind, M_bind, bind, lift_res; by rewrite Hp.
Qed.

Lemma on_leave_unnamed k sid userId p e srv :
  to_string p = Throw e → on_leave k sid userId p srv = (Throw e, srv).
Proof.
  intros Hp. destruct k; simpl;
    unfold on_leaveProject, on_leaveUser, mbind, M_bind, bind, lift_res; by rewrite Hp.
Qed.

Lemma on_join_sockets k sid userId p name srv :
  to_string p = Ok name →
  sockets (snd (on_join k sid userId p srv)) =
  sockets (snd (Sio.socket_join sid (topic_prefix k +:+ name) srv)).
Proof. intros Hp. by destruct (on_join_named k sid userId p name srv Hp). Qed.

Lemma on_leave_sockets k sid userId p name srv :
  to_string p = Ok name →
  sockets (snd (on_leave k sid userId p srv)) =
  sockets (snd (Sio.socket_leave sid (topic_prefix k +:+ name) srv)).
Proof. intros Hp. by destruct (on_leave_named k sid userId p name srv Hp). Qed.

Lemma socket_join_sockets_congr sid room srv srv' :
  sockets srv = sockets srv' →
  sockets (snd (Sio.socket_join sid room srv)) = sockets (snd (Sio.socket_join sid room srv')).
Proof. rewrite !sockets_socket_join. by intros ->. Qed.

(** C8: topic membership is a set. The topic of a join or leave event is the
    room named by the text its payload interpolates to; every string is the
    name of such a room. For either kind of topic and any connection, both
    listeners return normally, a second join leaves the memberships as the
    first one made them; leaving a topic the connection has not joined
    changes no membership; and after any number of joins, one leave leaves
    the connection outside the topic. A payload that cannot be interpolated
    names no topic: the listener throws before it joins or leaves, and the
    server is as before. *)
Theorem topic_membership_is_a_set (k : TopicKind) (sid : string) (userId p : value)
    (srv : Server) :
  let join := λ srv, snd (on_join k sid userId p srv) in
  let leave := λ srv, snd (on_leave k sid userId p srv) in
  (∀ name, to_string p = Ok name →
     let room := topic_prefix k +:+ name in
     fst (on_join k sid userId p srv) = Ok tt ∧
     fst (on_leave k sid userId p srv) = Ok tt ∧
     (∀ s, s ∈ sockets (join srv) → sock_id s = sid → room ∈ sock_rooms s) ∧
     sockets (join (join srv)) = sockets (join srv) ∧
     ((∀ s, s ∈ sockets srv → sock_id s = sid → room ∉ sock_rooms s) →
      sockets (leave srv) = sockets srv) ∧
     (∀ n s, s ∈ sockets (leave (Nat.iter n join srv)) → sock_id s = sid →
             room ∉ sock_rooms s)) ∧
  (∀ e, to_string p = Throw e →
     on_join k sid userId p srv = (Throw e, srv) ∧
     on_leave k sid userId p srv = (Throw e, srv)) ∧
  (∀ t, to_string (VStr t) = Ok t).
Proof.
  intros join leave. subst join leave. cbv beta. split; [|split; [|done]].
  - intros name Hp room.
    split; [by destruct (on_join_named k sid userId p name srv Hp)|].
    split; [by destruct (on_leave_named k sid userId p name srv Hp)|]. split.
    { intros s. rewrite (on_join_sockets _ _ _ _ name) by done.
      rewrite sockets_socket_join. intros [s0 [-> Hs0]]%list_elem_of_fmap.
      destruct (decide (sock_id s0 = sid)); simpl; [set_solver|done]. }
    split.
    { rewrite !(on_join_sockets _ _ _ _ name) by done.
      rewrite (socket_join_sockets_congr _ _ _ (snd (Sio.socket_join sid room srv)))
        by (by apply on_join_sockets).
      apply join_join. }
    split.
    { intros Hno. rewrite (on_leave_sockets _ _ _ _ name) by done.
      by apply leave_not_joined. }
    intros n s. rewrite (on_leave_sockets _ _ _ _ name) by done. apply leave_clears.
  - intros e Hp. split; [by apply on_join_unnamed|by apply on_leave_unnamed].
Qed.
End topics.

Lemma topic_membership_is_a_set_witness :
  to_string (VStr "p1") = Ok "p1" ∧
  (∀ s, s ∈ sockets one_socket → sock_id s = "c1" → "project:p1" ∉ sock_rooms s) ∧
  sockets (snd (on_leaveProject "c1" (VStr "u1") (VStr "p1") one_socket)) = sockets one_socket.
Proof.
  assert (H0 : to_string (VStr "p1") = Ok "p1") by reflexivity.
  assert (H : ∀ s, s ∈ sockets one_socket → sock_id s = "c1" → "project:p1" ∉ sock_rooms s).
  { intros s Hs _. apply list_elem_of_singleton in Hs as ->. simpl. set_solver. }
  split; [exact H0|]. split; [exact H|].
  exact (proj1 (proj2 (proj2 (proj2 (proj2
    (proj1 (topic_membership_is_a_set ProjectTopic "c1" (VStr "u1") (VStr "p1") one_socket)
           "p1" H0))))) H).
Defined.

(** ** The connection lifecycle *)

(** Case analysis on what a listener reads and converts. *)
Ltac listener_cases :=
  unfold on_pong, on_joinProject, on_leaveProject, on_joinUser, on_leaveUser,
         on_startTyping, on_stopTyping, on_error,
         mbind, M_bind, bind, lift_res, to_primitive;
  repeat match goal with
         | |- context [to_string ?v] => destruct (to_string v) eqn:?
         | |- context [destructure ?v ?k] => destruct (destructure v k) eqn:?
         | |- context [get_prop ?v ?k] => destruct (get_prop v k) eqn:?
         | |- context [truthy ?v] => destruct (truthy v) eqn:?
         end.

Section lifecycle.
Context {engine : Runtime}.
Variable jwt_verify : string → res Decoded.

Lemma step_receive sid name arg srv s :
  Sio.find_socket sid srv = Some s →
  step jwt_verify (Receive sid name arg) srv = Some (on_event s name arg srv).
Proof. intros H. simpl. by rewrite H. Qed.

Lemma find_socket_id sid srv s : Sio.find_socket sid srv = Some s → sock_id s = sid ∧ s ∈ sockets srv.
Proof.
  unfold Sio.find_socket. intros H. split.
  - apply find_some in H as [_ H]. by apply bool_decide_eq_true in H.
  - apply find_some in H as [H _]. by apply list_elem_of_In.
Qed.

(** C6: for a connected socket and a payload whose [roomId] is the string [t],
    [startTyping] hands [userTyping] with [{ userId, name, roomId }], and
    [stopTyping] hands [userStoppedTyping] with [{ userId, roomId }], to
    exactly the sockets in room [t] other than the sender; the sender is never
    among the recipients, so when it is alone in the room nobody receives
    anything. *)
Theorem typing_relay (sid t : string) (s : Socket) (payload : value) (srv : Server) :
  Sio.find_socket sid srv = Some s →
  destructure payload "roomId" = Ok (VStr t) →
  let userId := dec_id (sock_user s) in
  let name := dec_name (sock_user s) in
  let others := filter (λ s', sock_id s' ≠ sid) (Sio.room_members t srv) in
  (∃ srv', step jwt_verify (Receive sid "startTyping" payload) srv = Some (Ok tt, srv') ∧
     sent srv' = sent srv ++
       ((λ s', mkDelivery (sock_id s') "userTyping" (PUserTyping userId name (VStr t)))
          <$> others) ∧
     sockets srv' = sockets srv ∧ onlineUsers srv' = onlineUsers srv) ∧
  (∃ srv', step jwt_verify (Receive sid "stopTyping" payload) srv = Some (Ok tt, srv') ∧
     sent srv' = sent srv ++
       ((λ s', mkDelivery (sock_id s') "userStoppedTyping" (PUserStoppedTyping userId (VStr t)))
          <$> others) ∧
     sockets srv' = sockets srv ∧ onlineUsers srv' = onlineUsers srv) ∧
  (sid ∉ sock_id <$> others) ∧
  (∀ s', s' ∈ others ↔ s' ∈ sockets srv ∧ Sio.in_room t s' ∧ sock_id s' ≠ sid).
Proof.
  intros Hs Hd userId name others.
  destruct (find_socket_id _ _ _ Hs) as [Hid _]. split; [|split; [|split]].
  - rewrite (step_receive _ _ _ _ _ Hs). unfold on_event. simpl.
    unfold on_startTyping, mbind, M_bind, bind, lift_res. rewrite Hd.
    eexists. split; [reflexivity|]. simpl. rewrite Hid. done.
  - rewrite (step_receive _ _ _ _ _ Hs). unfold on_event. simpl.
    unfold on_stopTyping, mbind, M_bind, bind, lift_res. rewrite Hd.
    eexists. split; [reflexivity|]. simpl. rewrite Hid. done.
  - intros [s' [Heq Hin]]%list_elem_of_fmap. subst others.
    apply list_elem_of_filter in Hin as [Hne _]. congruence.
  - intros s'. subst others. unfold Sio.room_members.
    rewrite !list_elem_of_filter. tauto.
Qed.

Lemma auth_middleware_cases sid hs srv :
  (∃ d, verified jwt_verify hs d ∧
        auth_middleware jwt_verify sid hs srv
          = (Ok (inr d), with_logs (λ l, l ++ [LogAuthenticated (dec_id d) sid]) srv)) ∨
  ((¬ ∃ d, verified jwt_verify hs d) ∧
   ∃ e entry, auth_middleware jwt_verify sid hs srv
          = (Ok (inl e), with_logs (λ l, l ++ [entry]) srv)).
Proof.
  unfold verified, auth_middleware, try_catch, mbind, M_bind, bind, lift_res.
  destruct (truthy (hs_token hs)) eqn:Ht; simpl.
  - destruct (bearer_token (hs_token hs)) as [[t|]|e] eqn:Hb; simpl.
    + destruct (jwt_verify t) as [d|e] eqn:Hj; simpl.
      * left. exists d. split; [|done]. split; [done|]. by exists t.
      * right. split; [|by eexists _, _].
        intros [d [_ [t' [[= <-] Hj']]]]. congruence.
    + right. split; [|by eexists _, _]. by intros [d [_ [t' [? _]]]].
    + right. split; [|by eexists _, _]. by intros [d [_ [t' [? _]]]].
  - right. split; [|by eexists _, _]. by intros [d [? _]].
Qed.

Lemma step_connect_rejected sid hs srv :
  sid ∉ Sio.socket_ids srv → (¬ ∃ d, verified jwt_verify hs d) →
  ∃ entry, step jwt_verify (Connect sid hs) srv
           = Some (Ok tt, with_logs (λ l, l ++ [entry]) srv).
Proof.
  intros Hsid Hno. simpl. rewrite decide_False by done.
  destruct (auth_middleware_cases sid hs srv) as [[d [Hv _]]|[_ [e [entry He]]]].
  - exfalso. apply Hno. by exists d.
  - exists entry. unfold mbind at 1, M_bind, bind. by rewrite He.
Qed.

Lemma step_connect_accepted sid hs d srv :
  sid ∉ Sio.socket_ids srv → verified jwt_verify hs d →
  ∃ srv', step jwt_verify (Connect sid hs) srv = Some (Ok tt, srv') ∧
    sockets srv' = sockets srv ++ [mkSocket sid d ∅] ∧
    onlineUsers srv' = register sid (mkOnline (dec_id d) (dec_name d)) (onlineUsers srv) ∧
    heartbeats srv' = heartbeats srv ++ [sid] ∧
    sent srv' = sent srv ++
      ((λ s, mkDelivery (sock_id s) "onlineUsers" (POnlineUsers (listOnline (onlineUsers srv'))))
         <$> sockets srv').
Proof.
  intros Hsid Hv. simpl. rewrite decide_False by done.
  destruct (auth_middleware_cases sid hs srv) as [[d' [Hv' He]]|[Hno _]].
  - assert (d' = d) as ->.
    { destruct Hv as [_ [t [Hb Hj]]], Hv' as [_ [t' [Hb' Hj']]]. congruence. }
    unfold mbind at 1, M_bind, bind. rewrite He. eexists. split; [reflexivity|]. done.
  - exfalso. apply Hno. by exists d.
Qed.

Lemma step_disconnect sid reason srv s :
  Sio.find_socket sid srv = Some s →
  ∃ srv', step jwt_verify (Disconnect sid reason) srv = Some (Ok tt, srv') ∧
    sockets srv' = filter (λ s, sock_id s ≠ sid) (sockets srv) ∧
    onlineUsers srv' = deregister sid (onlineUsers srv) ∧
    heartbeats srv' = filter (λ h, h ≠ sid) (heartbeats srv) ∧
    sent srv' = sent srv ++
      ((λ s, mkDelivery (sock_id s) "onlineUsers" (POnlineUsers (listOnline (onlineUsers srv'))))
         <$> sockets srv').
Proof. intros Hs. simpl. rewrite Hs. simpl. eexists. split; [reflexivity|]. done. Qed.


Lemma elem_of_set_inv {V} k (v : V) m k' v' :
  (k', v') ∈ JsMap.set k v m → (k', v') ∈ m ∨ (k', v') = (k, v).
Proof.
  induction m as [|[k0 v0] m IH]; simpl.
  - intros ?%list_elem_of_singleton. by right.
  - destruct (decide (k0 = k)) as [->|Hne].
    + intros [?|?]%elem_of_cons; [by right|left; by apply elem_of_cons; right].
    + intros [?|H]%elem_of_cons; [left; by apply elem_of_cons; left|].
      destruct (IH H) as [?|?]; [left; by apply elem_of_cons; right|by right].
Qed.

Lemma socket_ids_filter sid (l : list Socket) :
  sock_id <$> filter (λ s, sock_id s ≠ sid) l = filter (λ c, c ≠ sid) (sock_id <$> l).
Proof.
  induction l as [|a l IH]; [done|].
  rewrite fmap_cons, !filter_cons.
  destruct (decide (sock_id a ≠ sid)); [rewrite fmap_cons|]; by rewrite IH.
Qed.

Lemma socket_ids_update sid f srv :
  (∀ s, sock_id (f s) = sock_id s) →
  Sio.socket_ids (snd (Sio.update_socket sid f srv)) = Sio.socket_ids srv.
Proof.
  intros Hf. unfold Sio.socket_ids. simpl. rewrite <- list_fmap_compose.
  apply list_fmap_ext. intros _ s _. simpl. by destruct (decide (sock_id s = sid)).
Qed.

Lemma on_event_presence s name arg srv :
  presence (snd (on_event s name arg srv)) = presence srv.
Proof.
  unfold on_event, presence.
  repeat (match goal with |- context [String.eqb name ?x] => destruct (String.eqb name x) end);
    try reflexivity; listener_cases; try reflexivity;
    simpl; f_equal; f_equal; by apply socket_ids_update.
Qed.

Lemma step_cases i srv r srv' :
  step jwt_verify i srv = Some (r, srv') →
  presence srv' = presence srv ∨
  (∃ sid hs d, i = Connect sid hs ∧ r = Ok tt ∧ (sid ∉ Sio.socket_ids srv) ∧ verified jwt_verify hs d ∧
     presence srv' = (register sid (mkOnline (dec_id d) (dec_name d)) (onlineUsers srv),
                      Sio.socket_ids srv ++ [sid], heartbeats srv ++ [sid])) ∨
  (∃ sid reason, i = Disconnect sid reason ∧ r = Ok tt ∧
     presence srv' = (deregister sid (onlineUsers srv),
                      filter (λ c, c ≠ sid) (Sio.socket_ids srv),
                      filter (λ c, c ≠ sid) (heartbeats srv))).
Proof.
  destruct i as [sid hs|sid name arg|sid now|sid reason]; intros Hstep.
  - destruct (decide (sid ∈ Sio.socket_ids srv)) as [Hin|Hnin].
    { simpl in Hstep. by rewrite decide_True in Hstep. }
    destruct (auth_middleware_cases sid hs srv) as [[d [Hv _]]|[Hno _]].
    + right; left. exists sid, hs, d.
      destruct (step_connect_accepted sid hs d srv Hnin Hv)
        as (srv1 & Hs1 & Hso & Hon & Hhb & _).
      rewrite Hs1 in Hstep. injection Hstep as <- <-.
      repeat (split; [done|]). unfold presence, Sio.socket_ids.
      by rewrite Hso, Hon, Hhb, fmap_app.
    + left. destruct (step_connect_rejected sid hs srv Hnin Hno) as [entry Hs1].
      rewrite Hs1 in Hstep. by injection Hstep as <- <-.
  - left. simpl in Hstep. destruct (Sio.find_socket sid srv) as [s|]; [|done].
    simpl in Hstep. injection Hstep as Hstep.
    rewrite <- (on_event_presence s name arg srv). by rewrite Hstep.
  - left. simpl in Hstep. destruct (Sio.find_socket sid srv) as [s|]; [|done].
    simpl in Hstep. destruct (decide (sid ∈ heartbeats srv)); [|done].
    by injection Hstep as <- <-.
  - right; right. exists sid, reason.
    destruct (Sio.find_socket sid srv) as [s|] eqn:Hs; [|simpl in Hstep; by rewrite Hs in Hstep].
    destruct (step_disconnect sid reason srv s Hs) as (srv1 & Hs1 & Hso & Hon & Hhb & _).
    rewrite Hs1 in Hstep. injection Hstep as <- <-. split; [done|]. split; [done|].
    unfold presence, Sio.socket_ids. rewrite Hso, Hon, Hhb. f_equal. f_equal.
    apply socket_ids_filter.
Qed.

Lemma keys_register_fresh c i (reg : list (string * OnlineUser)) :
  c ∉ JsMap.keys reg → JsMap.keys (register c i reg) = JsMap.keys reg ++ [c].
Proof.
  intros Hc. unfold register. rewrite JsMapFacts.set_absent by done.
  unfold JsMap.keys. by rewrite fmap_app.
Qed.

Lemma step_in_sync i srv r srv' :
  step jwt_verify i srv = Some (r, srv') → in_sync srv → in_sync srv'.
Proof.
  intros Hstep [Hk Hh].
  destruct (step_cases _ _ _ _ Hstep)
    as [Hp|[(sid & hs & d & _ & _ & Hsid & _ & Hp)|(sid & reason & _ & _ & Hp)]];
    unfold presence in Hp; injection Hp as Hon Hids Hhb; unfold in_sync;
    rewrite Hon, Hids, Hhb.
  - done.
  - rewrite keys_register_fresh by (by rewrite Hk). by rewrite Hk, Hh.
  - unfold deregister. rewrite JsMapFacts.keys_delete. by rewrite Hk, Hh.
Qed.

(** One input of a run: the step, then the [uncaughtException] handler if the
    step threw; the handler only logs. *)
Lemma run_cons_inv i tr srv0 srv :
  run jwt_verify (i :: tr) srv0 = Some srv →
  ∃ r srv1 srv2,
    step jwt_verify i srv0 = Some (r, srv1) ∧ run jwt_verify tr srv2 = Some srv ∧
    sockets srv2 = sockets srv1 ∧ onlineUsers srv2 = onlineUsers srv1 ∧
    heartbeats srv2 = heartbeats srv1 ∧ sent srv2 = sent srv1.
Proof.
  simpl. destruct (step jwt_verify i srv0) as [[[[]|e] srv1]|]; [| |done]; intros Hrun.
  - by exists (Ok tt), srv1, srv1.
  - by exists (Throw e), srv1, (snd (uncaughtException e srv1)).
Qed.

Lemma run_in_sync tr srv0 srv :
  run jwt_verify tr srv0 = Some srv → in_sync srv0 → in_sync srv.
Proof.
  revert srv0. induction tr as [|i tr IH]; intros srv0 Hrun Hinv.
  - by injection Hrun as <-.
  - destruct (run_cons_inv _ _ _ _ Hrun) as (r & srv1 & srv2 & Hstep & Hrun2 & Hso & Hon & Hhb & _).
    apply (IH srv2 Hrun2). apply (step_in_sync _ _ _ _ Hstep) in Hinv.
    unfold in_sync, Sio.socket_ids in *. by rewrite Hso, Hon, Hhb.
Qed.

Lemma run_provenance tr srv0 srv :
  run jwt_verify tr srv0 = Some srv →
  ∀ c ou, (c, ou) ∈ onlineUsers srv →
    (c, ou) ∈ onlineUsers srv0 ∨
    ∃ hs d, Connect c hs ∈ tr ∧ verified jwt_verify hs d ∧ ou = mkOnline (dec_id d) (dec_name d).
Proof.
  revert srv0. induction tr as [|i tr IH]; intros srv0 Hrun c ou Hin.
  - injection Hrun as <-. by left.
  - destruct (run_cons_inv _ _ _ _ Hrun) as (r & srv1 & srv2 & Hstep & Hrun2 & _ & Hon2 & _).
    destruct (IH srv2 Hrun2 c ou Hin) as [Hin1|(hs & d & Htr & Hv & Hou)].
    2:{ right. exists hs, d. split; [by apply elem_of_cons; right|done]. }
    rewrite Hon2 in Hin1.
    destruct (step_cases _ _ _ _ Hstep)
      as [Hp|[(sid & hs & d & Hi & _ & _ & Hv & Hp)|(sid & reason & _ & _ & Hp)]];
      unfold presence in Hp; injection Hp as Hon _ _; rewrite Hon in Hin1.
    + by left.
    + apply elem_of_set_inv in Hin1 as [?|[= -> ->]]; [by left|].
      right. exists hs, d. split; [rewrite Hi; by apply elem_of_cons; left|done].
    + apply JsMapFacts.elem_of_delete in Hin1 as [? _]. by left.
Qed.

(** C4: a handshake whose token is missing, is not a string, or is refused by
    [jwt.verify] is not verified; a handshake that is not verified is
    answered with [next(err)], and the connection attempt leaves sockets,
    registry, heartbeats and sent packets as they were; and in every state a
    run reaches from [initSocket], the registry holds exactly the connected
    sockets, each entry put there by a connection whose handshake was
    verified. *)
Theorem rejected_handshake_never_registered :
  (∀ hs,
     truthy (hs_token hs) = false ∨
     (∃ e, bearer_token (hs_token hs) = Throw e) ∨
     (∃ t e, bearer_token (hs_token hs) = Ok (Some t) ∧ jwt_verify t = Throw e) →
     ¬ ∃ d, verified jwt_verify hs d) ∧
  (∀ sid hs srv, (¬ ∃ d, verified jwt_verify hs d) →
     (∃ e srv', auth_middleware jwt_verify sid hs srv = (Ok (inl e), srv')) ∧
     (sid ∉ Sio.socket_ids srv →
      ∃ srv', step jwt_verify (Connect sid hs) srv = Some (Ok tt, srv') ∧
              sockets srv' = sockets srv ∧ onlineUsers srv' = onlineUsers srv ∧
              heartbeats srv' = heartbeats srv ∧ sent srv' = sent srv)) ∧
  (∀ tr srv, run jwt_verify tr initSocket = Some srv →
     JsMap.keys (onlineUsers srv) = Sio.socket_ids srv ∧
     ∀ c ou, (c, ou) ∈ onlineUsers srv →
       ∃ hs d, Connect c hs ∈ tr ∧ verified jwt_verify hs d ∧
               ou = mkOnline (dec_id d) (dec_name d)).
Proof.
  split; [|split].
  - intros hs Hfail [d [Ht (t & Hb & Hj)]].
    destruct Hfail as [?|[[e ?]|(t' & e & ? & ?)]]; congruence.
  - intros sid hs srv Hno. split.
    + destruct (auth_middleware_cases sid hs srv) as [[d [Hv _]]|[_ (e & entry & He)]].
      * exfalso. apply Hno. by exists d.
      * by eexists _, _.
    + intros Hsid. destruct (step_connect_rejected sid hs srv Hsid Hno) as [entry Hs].
      eexists. split; [exact Hs|done].
  - intros tr srv Hrun. split.
    + by apply (run_in_sync tr initSocket srv Hrun).
    + intros c ou Hin. destruct (run_provenance tr initSocket srv Hrun c ou Hin) as [H|H]; [|done].
      by apply elem_of_nil in H.
Qed.

(** C7: a connection that is accepted and a disconnection each change the
    registry and then hand an [onlineUsers] event carrying the whole new
    [listOnline] to every socket connected afterwards; after a disconnection
    the registry has no entry for the closed connection, and an identity held
    by no other connection is absent from the payload. *)
Theorem presence_broadcast (srv : Server) :
  (∀ sid hs d, sid ∉ Sio.socket_ids srv → verified jwt_verify hs d →
     ∃ srv', step jwt_verify (Connect sid hs) srv = Some (Ok tt, srv') ∧
       sockets srv' = sockets srv ++ [mkSocket sid d ∅] ∧
       onlineUsers srv' = register sid (mkOnline (dec_id d) (dec_name d)) (onlineUsers srv) ∧
       sent srv' = sent srv ++
         ((λ s, mkDelivery (sock_id s) "onlineUsers"
                  (POnlineUsers (listOnline (onlineUsers srv')))) <$> sockets srv')) ∧
  (∀ sid reason s, Sio.find_socket sid srv = Some s →
     ∃ srv', step jwt_verify (Disconnect sid reason) srv = Some (Ok tt, srv') ∧
       sockets srv' = filter (λ s, sock_id s ≠ sid) (sockets srv) ∧
       onlineUsers srv' = deregister sid (onlineUsers srv) ∧
       sent srv' = sent srv ++
         ((λ s, mkDelivery (sock_id s) "onlineUsers"
                  (POnlineUsers (listOnline (onlineUsers srv')))) <$> sockets srv') ∧
       (sid ∉ JsMap.keys (onlineUsers srv')) ∧
       ∀ b, (∀ c ou, (c, ou) ∈ onlineUsers srv → c ≠ sid → ou ≠ b) →
            b ∉ listOnline (onlineUsers srv')).
Proof.
  split.
  - intros sid hs d Hsid Hv.
    destruct (step_connect_accepted sid hs d srv Hsid Hv) as (srv' & Hs & Hso & Hon & _ & Hse).
    by exists srv'.
  - intros sid reason s Hs.
    destruct (step_disconnect sid reason srv s Hs) as (srv' & Hst & Hso & Hon & _ & Hse).
    exists srv'. repeat (split; [done|]). rewrite Hon. unfold deregister. split.
    + apply JsMapFacts.not_elem_of_keys_delete.
    + intros b Hb. unfold listOnline, JsMap.values.
      intros [[c ou] [-> [Hin Hne]%JsMapFacts.elem_of_delete]]%list_elem_of_fmap.
      by apply (Hb c ou).
Qed.

End lifecycle.

(** C9: a [startTyping] event that arrives without a payload is not logged and
    dropped by its listener. Destructuring the missing payload throws a
    [TypeError] out of the listener, which writes no log line and publishes
    nothing; the exception reaches the [uncaughtException] handler of
    server.js, which logs it and starts to shut the server down. A
    [stopTyping] event whose [roomId] cannot be interpolated into the log
    line escapes its listener the same way. *)
Lemma startTyping_without_payload_throws :
  let e := TypeError "Cannot destructure property 'roomId' of 'undefined' as it is undefined." in
  let e' := TypeError "Cannot convert object to primitive value" in
  let odd := VObj [("roomId", VObj [("toString", VNum 1)])] in
  Sio.find_socket "c1" one_socket = Some (mkSocket "c1" (mkDecoded (VStr "u1") VUndefined) ∅) ∧
  step sample_verify (Receive "c1" "startTyping" VUndefined) one_socket
    = Some (Throw e, one_socket) ∧
  run sample_verify [Receive "c1" "startTyping" VUndefined] one_socket
    = Some (with_logs (λ l, l ++ [LogUncaughtException e]) one_socket) ∧
  step sample_verify (Receive "c1" "stopTyping" odd) one_socket = Some (Throw e', one_socket) ∧
  run sample_verify [Receive "c1" "stopTyping" odd] one_socket
    = Some (with_logs (λ l, l ++ [LogUncaughtException e']) one_socket).
Proof. repeat split; reflexivity. Qed.

Lemma typing_relay_witness :
  Sio.find_socket "c1" two_sockets = Some socketA ∧
  destructure (VObj [("roomId", VStr "project:p1")]) "roomId" = Ok (VStr "project:p1") ∧
  ∃ srv', step sample_verify (Receive "c1" "startTyping" (VObj [("roomId", VStr "project:p1")]))
               two_sockets = Some (Ok tt, srv') ∧
          sent srv' = sent two_sockets ++
            ((λ s', mkDelivery (sock_id s') "userTyping"
                      (PUserTyping (VStr "u1") (VStr "Alice") (VStr "project:p1")))
               <$> filter (λ s', sock_id s' ≠ "c1") (Sio.room_members "project:p1" two_sockets)).
Proof.
  assert (H1 : Sio.find_socket "c1" two_sockets = Some socketA) by reflexivity.
  assert (H2 : destructure (VObj [("roomId", VStr "project:p1")]) "roomId"
               = Ok (VStr "project:p1")) by reflexivity.
  split; [exact H1|]. split; [exact H2|].
  destruct (proj1 (typing_relay sample_verify "c1" "project:p1" socketA _ two_sockets H1 H2))
    as (srv' & Hstep & Hsent & _).
  exists srv'. split; [exact Hstep|exact Hsent].
Defined.

Lemma rejected_handshake_never_registered_witness :
  (¬ ∃ d, verified sample_verify bad_handshake d) ∧
  run sample_verify [Connect "c1" good_handshake; Connect "c2" bad_handshake] initSocket
    = Some (mkServer [mkSocket "c1" (mkDecoded (VStr "u1") (VStr "Alice")) ∅]
              [("c1", alice)] ["c1"]
              [LogAuthenticated (VStr "u1") "c1"; LogConnected (VStr "u1") (VStr "Alice") "c1";
               LogOnlineUsersBroadcast 1; LogRejectedInvalid "invalid token"]
              [mkDelivery "c1" "onlineUsers" (POnlineUsers [alice])]) ∧
  ∃ srv, run sample_verify [Connect "c1" good_handshake; Connect "c2" bad_handshake] initSocket
           = Some srv ∧
         JsMap.keys (onlineUsers srv) = Sio.socket_ids srv.
Proof.
  assert (Hbad : ¬ ∃ d, verified sample_verify bad_handshake d).
  { apply (proj1 (rejected_handshake_never_registered sample_verify)).
    right; right. exists "expired", (mkExn "JsonWebTokenError" "invalid token" None).
    split; reflexivity. }
  split; [exact Hbad|]. split; [vm_compute; reflexivity|].
  eexists. split; [vm_compute; reflexivity|].
  refine (proj1 (proj2 (proj2 (rejected_handshake_never_registered sample_verify))
                  [Connect "c1" good_handshake; Connect "c2" bad_handshake] _ _)).
  vm_compute; reflexivity.
Defined.

Lemma presence_broadcast_witness :
  Sio.find_socket "c2" two_sockets = Some socketB ∧
  ∃ srv', step sample_verify (Disconnect "c2" "transport close") two_sockets = Some (Ok tt, srv') ∧
          sockets srv' = [socketA] ∧
          sent srv' = [mkDelivery "c1" "onlineUsers" (POnlineUsers [alice])] ∧
          bob ∉ listOnline (onlineUsers srv').
Proof.
  assert (H : Sio.find_socket "c2" two_sockets = Some socketB) by reflexivity.
  split; [exact H|].
  destruct (proj2 (presence_broadcast sample_verify two_sockets) "c2" "transport close" socketB H)
    as (srv' & Hstep & Hso & Hon & Hsent & _ & Hb).
  exists srv'. split; [exact Hstep|]. split; [rewrite Hso; reflexivity|].
  split; [rewrite Hsent, Hso, Hon; reflexivity|].
  apply Hb. intros c ou Hin Hne.
  apply elem_of_cons in Hin as [[= -> ->]|Hin]; [discriminate|].
  apply list_elem_of_singleton in Hin as [= -> ->]. done.
Defined.

(** ** The store *)

Lemma mbind_ok {St A B} (m : M St A) (k : A → M St B) s a s' :
  m s = (Ok a, s') → (m ≫= k) s = k a s'.
Proof. unfold mbind, M_bind, bind. by intros ->. Qed.

Lemma mbind_throw {St A B} (m : M St A) (k : A → M St B) s e s' :
  m s = (Throw e, s') → (m ≫= k) s = (Throw e, s').
Proof. unfold mbind, M_bind, bind. by intros ->. Qed.

Lemma find_update_first id f l t0 :
  (∀ t, t_id (f t) = t_id t) →
  List.find (λ t, bool_decide (t_id t = id)) l = Some t0 →
  List.find (λ t, bool_decide (t_id t = id)) (update_first id f l) = Some (f t0).
Proof.
  intros Hf. induction l as [|t l IH]; simpl; [done|].
  destruct (decide (t_id t = id)) as [Heq|Hne].
  - rewrite bool_decide_eq_true_2 by done. intros [= ->]. simpl.
    by rewrite bool_decide_eq_true_2 by (by rewrite Hf).
  - rewrite bool_decide_eq_false_2 by done. intros H. simpl.
    rewrite bool_decide_eq_false_2 by done. by apply IH.
Qed.

Lemma find_update_first_None id f l :
  List.find (λ t, bool_decide (t_id t = id)) l = None →
  update_first id f l = l.
Proof.
  induction l as [|t l IH]; simpl; [done|].
  destruct (decide (t_id t = id)) as [Heq|Hne].
  - by rewrite bool_decide_eq_true_2 by done.
  - rewrite bool_decide_eq_false_2 by done. intros H. by rewrite IH.
Qed.

Lemma find_task_id id db t : find_task id db = Some t → t_id t = id.
Proof. unfold find_task. intros [_ H]%find_some. by apply bool_decide_eq_true in H. Qed.

Lemma find_project_id id db p : find_project id db = Some p → p_id p = id.
Proof. unfold find_project. intros [_ H]%find_some. by apply bool_decide_eq_true in H. Qed.

Lemma Task_updateAssignedTo_found id a w t0 :
  find_task id (w_db w) = Some t0 →
  Task_updateAssignedTo id a w
    = (Ok (Some (set_assignedTo a t0)),
       with_db (with_tasks (update_first id (set_assignedTo a))) w).
Proof.
  intros H. unfold Task_updateAssignedTo, mbind, M_bind, bind, modify, gets. simpl.
  unfold find_task in *. simpl. by rewrite (find_update_first _ _ _ t0).
Qed.

Lemma Task_updateStatus_found id st w t0 :
  st ∈ task_statuses → find_task id (w_db w) = Some t0 →
  Task_updateStatus id st w
    = (Ok (Some (set_status st t0)),
       with_db (with_tasks (update_first id (set_status st))) w).
Proof.
  intros Hst H. unfold Task_updateStatus. rewrite bool_decide_eq_true_2 by done.
  unfold mbind, M_bind, bind, modify, gets. simpl.
  unfold find_task in *. simpl. by rewrite (find_update_first _ _ _ t0).
Qed.

Section store.
Variable gen_oid : nat → ObjectId.

Lemma Notification_create_ok message type recipient rt rp w :
  message ≠ EmptyString → type ∈ notification_types →
  let doc := notification_doc gen_oid (w_db w) message type recipient rt rp in
  Notification_create gen_oid message type recipient rt rp w
    = (Ok doc, with_db (insert_notification doc) w).
Proof.
  intros Hm Ht doc. unfold Notification_create, new_oid, mbind, M_bind, bind. simpl.
  apply String.eqb_neq in Hm. rewrite Hm. rewrite bool_decide_eq_true_2 by done. simpl.
  reflexivity.
Qed.

Lemma Notification_create_invalid message type recipient rt rp w :
  message = EmptyString ∨ type ∉ notification_types →
  ∃ e w', Notification_create gen_oid message type recipient rt rp w = (Throw e, w') ∧
          exn_name e = "ValidationError" ∧
          notifications (w_db w') = notifications (w_db w) ∧
          counters (w_db w') = counters (w_db w).
Proof.
  intros H. unfold Notification_create, new_oid, mbind, M_bind, bind. simpl.
  destruct H as [->|H].
  - simpl. by eexists _, _.
  - rewrite (bool_decide_eq_false_2 _ H). rewrite andb_false_r. by eexists _, _.
Qed.

Lemma Comment_create_ok content task author w :
  trim content ≠ [] → length (trim content) ≤ 1000 →
  let doc := comment_doc gen_oid (w_db w) content task author in
  Comment_create gen_oid content task author w = (Ok doc, with_db (insert_comment doc) w).
Proof.
  intros Hc Hl doc. unfold Comment_create, new_oid, mbind, M_bind, bind. simpl.
  rewrite !bool_decide_eq_true_2 by done. simpl. reflexivity.
Qed.
End store.

(** ** The services *)

Section services_facts.
Variable gen_oid : nat → ObjectId.
Variable emit : string → string → Payload → M Server unit.

(** The guarded emit of the three services. *)
Lemma guarded_emit room ev data w :
  ∃ w', try_catch (getIO;; on_io (emit room ev data)) (warn_emit_failed) w = (Ok tt, w') ∧
    w_db w' = w_db w ∧
    match w_io w with
    | None =>
        w_io w' = None ∧
        w_console w' = w_console w ++
          [ConsoleWarn "Socket emit failed:"
             "Socket.IO has not been initialized yet! Call initSocket(httpServer) first."]
    | Some io =>
        w_io w' = Some (snd (emit room ev data io)) ∧
        match fst (emit room ev data io) with
        | Ok _ => w_console w' = w_console w
        | Throw e => w_console w' = w_console w ++ [ConsoleWarn "Socket emit failed:" (exn_message e)]
        end
    end.
Proof.
  unfold try_catch, mbind, M_bind, bind, getIO, on_io, warn_emit_failed, console_warn, modify.
  destruct (w_io w) as [io|] eqn:Hio; simpl.
  - rewrite Hio. destruct (emit room ev data io) as [[[]|e] io'] eqn:He; simpl;
      eexists; (split; [reflexivity|]); simpl; by rewrite ?He.
  - eexists. split; [reflexivity|]. simpl. by rewrite Hio.
Qed.

Lemma assignTask_found taskId assigneeId assignedBy w t0 p :
  find_task taskId (w_db w) = Some t0 →
  find_project (t_project t0) (w_db w) = Some p →
  let w1 := with_db (with_tasks (update_first taskId (set_assignedTo assigneeId))) w in
  let doc := notification_doc gen_oid (w_db w1) (assigned_message t0) "task_assigned"
                              assigneeId (Some taskId) (Some (p_id p)) in
  let w2 := with_db (insert_notification doc) w1 in
  assignTask gen_oid emit taskId assigneeId assignedBy w
    = (Ok (populated_assign (set_assignedTo assigneeId t0) (Some p)),
       snd (try_catch (getIO;; on_io (emit ("user:" +:+ assigneeId) "notification:new"
                                           (PNotificationNew doc)))
                      warn_emit_failed w2)).
Proof.
  intros Ht Hp w1 doc w2. unfold assignTask.
  rewrite (mbind_ok _ _ _ _ _ (Task_updateAssignedTo_found taskId assigneeId w t0 Ht)).
  fold w1. unfold populate. 
  rewrite (mbind_ok _ _ w1 (populated_assign (set_assignedTo assigneeId t0) (Some p)) w1)
    by (unfold gets; simpl; unfold find_project in *; simpl; by rewrite Hp).
  unfold project_id_of. simpl.
  rewrite (mbind_ok _ _ w1 (p_id p) w1) by reflexivity.
  rewrite (mbind_ok _ _ w1 doc w2).
  2:{ apply Notification_create_ok; [done|]. unfold notification_types. set_solver. }
  destruct (guarded_emit ("user:" +:+ assigneeId) "notification:new" (PNotificationNew doc) w2)
    as (w3 & Hg & _).
  rewrite (mbind_ok _ _ w2 tt w3) by exact Hg. by rewrite Hg.
Qed.

Lemma updateTaskStatus_found taskId newStatus updatedBy w t0 p :
  newStatus ∈ task_statuses →
  find_task taskId (w_db w) = Some t0 →
  find_project (t_project t0) (w_db w) = Some p →
  let w1 := with_db (with_tasks (update_first taskId (set_status newStatus))) w in
  let task := populated_update (set_status newStatus t0) (Some p) in
  updateTaskStatus emit taskId newStatus updatedBy w
    = (Ok task,
       snd (try_catch (getIO;; on_io (emit ("project:" +:+ p_id p) "task:updated"
                        (PTaskUpdated (t_id t0) newStatus (u_name updatedBy) task)))
                      warn_emit_failed w1)).
Proof.
  intros Hst Ht Hp w1 task. unfold updateTaskStatus.
  rewrite (mbind_ok _ _ _ _ _ (Task_updateStatus_found taskId newStatus w t0 Hst Ht)).
  fold w1. unfold populate.
  rewrite (mbind_ok _ _ w1 task w1)
    by (unfold gets; simpl; unfold find_project in *; simpl; by rewrite Hp).
  destruct (guarded_emit ("project:" +:+ p_id p) "task:updated"
              (PTaskUpdated (t_id t0) newStatus (u_name updatedBy) task) w1) as (w3 & Hg & _).
  rewrite (mbind_ok _ _ w1 tt w3) by exact Hg. by rewrite Hg.
Qed.

Lemma addComment_found taskId content authorId w t0 :
  trim content ≠ [] → length (trim content) ≤ 1000 →
  find_task taskId (w_db w) = Some t0 →
  let doc := comment_doc gen_oid (w_db w) content taskId authorId in
  let w1 := with_db (insert_comment doc) w in
  addComment gen_oid emit taskId content authorId w
    = (Ok doc,
       snd (try_catch (getIO;; on_io (emit ("project:" +:+ t_project t0) "comment:new"
                                           (PCommentNew taskId doc)))
                      warn_emit_failed w1)).
Proof.
  intros Hc Hl Ht doc w1. unfold addComment.
  rewrite (mbind_ok _ _ _ _ _ (Comment_create_ok gen_oid content taskId authorId w Hc Hl)).
  fold doc w1.
  destruct (guarded_emit ("project:" +:+ t_project t0) "comment:new"
              (PCommentNew taskId doc) w1) as (w3 & Hg & _).
  assert (Hblock : try_catch
     (task ← Task_findById taskId;
      match task with
      | Some t => getIO;; on_io (emit ("project:" +:+ t_project t) "comment:new"
                                      (PCommentNew taskId doc))
      | None => mret tt
      end) warn_emit_failed w1 = (Ok tt, w3)).
  { rewrite <- Hg. unfold try_catch. 
    rewrite (mbind_ok _ _ w1 (Some t0) w1); [done|].
    unfold Task_findById, gets. f_equal. f_equal. exact Ht. }
  rewrite (mbind_ok _ _ w1 tt w3) by exact Hblock. by rewrite Hg.
Qed.
End services_facts.

Section keeps.
Variable gen_oid : nat → ObjectId.
Variable emit : string → string → Payload → M Server unit.

Lemma keeps_bind {A B} (m : M World A) (k : A → M World B) :
  keeps_notifications m → (∀ a, keeps_notifications (k a)) → keeps_notifications (m ≫= k).
Proof.
  intros Hm Hk w. unfold mbind, M_bind, bind. specialize (Hm w).
  destruct (m w) as [[a|e] w1]; simpl in *; [|done]. by rewrite Hk.
Qed.

Lemma keeps_try_catch {A} (m : M World A) (h : Exn → M World A) :
  keeps_notifications m → (∀ e, keeps_notifications (h e)) → keeps_notifications (try_catch m h).
Proof.
  intros Hm Hh w. unfold try_catch. specialize (Hm w).
  destruct (m w) as [[a|e] w1]; simpl in *; [done|]. by rewrite Hh.
Qed.

Lemma keeps_mret {A} (a : A) : keeps_notifications (mret a : M World A).
Proof. by intros w. Qed.

Lemma keeps_throw {A} e : keeps_notifications (throw e : M World A).
Proof. by intros w. Qed.

Lemma keeps_getIO : keeps_notifications getIO.
Proof. intros w. unfold getIO. by destruct (w_io w). Qed.

Lemma keeps_on_io {A} (m : M Server A) : keeps_notifications (on_io m).
Proof. intros w. unfold on_io. destruct (w_io w) as [io|]; [|done]. by destruct (m io). Qed.

Lemma keeps_warn e : keeps_notifications (warn_emit_failed e).
Proof. by intros w. Qed.

Lemma keeps_project_id_of task : keeps_notifications (project_id_of task).
Proof. intros w. unfold project_id_of. by destruct (pt_project task). Qed.

Lemma keeps_updateTaskStatus taskId newStatus updatedBy :
  keeps_notifications (updateTaskStatus emit taskId newStatus updatedBy).
Proof.
  unfold updateTaskStatus. apply keeps_bind.
  - intros w. unfold Task_updateStatus. by destruct (bool_decide _).
  - intros [t|]; [|apply keeps_throw]. apply keeps_bind; [by intros w|]. intros task.
    apply keeps_bind; [|intros ?; apply keeps_mret].
    apply keeps_try_catch; [|apply keeps_warn].
    apply keeps_bind; [apply keeps_getIO|]. intros _.
    apply keeps_bind; [apply keeps_project_id_of|]. intros ?. apply keeps_on_io.
Qed.

Lemma keeps_addComment taskId content authorId :
  keeps_notifications (addComment gen_oid emit taskId content authorId).
Proof.
  unfold addComment. apply keeps_bind.
  - intros w. unfold Comment_create, new_oid, mbind, M_bind, bind. simpl.
    by destruct (_ && _).
  - intros comment. apply keeps_bind; [|intros ?; apply keeps_mret].
    apply keeps_try_catch; [|apply keeps_warn].
    apply keeps_bind; [by intros w|]. intros [t|]; [|apply keeps_mret].
    apply keeps_bind; [apply keeps_getIO|]. intros _. apply keeps_on_io.
Qed.
End keeps.

Section fanout.
Variable gen_oid : nat → ObjectId.

Lemma sio_guarded_emit room ev data w io :
  w_io w = Some io →
  try_catch (getIO;; on_io (Sio.io_to_emit room ev data)) warn_emit_failed w
    = (Ok tt,
       mkWorld (Some (with_sent (λ l, l ++ ((λ s, mkDelivery (sock_id s) ev data)
                                              <$> Sio.room_members room io)) io))
               (w_db w) (w_console w)).
Proof.
  intros Hio. unfold try_catch, mbind, M_bind, bind, getIO, on_io. rewrite Hio. simpl.
  by rewrite Hio.
Qed.

End fanout.

Section swallow.
Variable gen_oid : nat → ObjectId.
Variable emit : string → string → Payload → M Server unit.


End swallow.

Lemma find_socket_update sid f srv s :
  (∀ s, sock_id (f s) = sock_id s) →
  Sio.find_socket sid srv = Some s →
  Sio.find_socket sid (snd (Sio.update_socket sid f srv)) = Some (f s).
Proof.
  intros Hf. unfold Sio.find_socket. simpl. induction (sockets srv) as [|a l IH]; [done|].
  rewrite fmap_cons. cbn [List.find].
  destruct (decide (sock_id a = sid)) as [Heq|Hne].
  - rewrite Hf. rewrite !bool_decide_eq_true_2 by done. by intros [= ->].
  - rewrite !bool_decide_eq_false_2 by done. exact IH.
Qed.

Section joinUser.
Variable gen_oid : nat → ObjectId.
Context {engine : Runtime}.
Variable jwt_verify : string → res Decoded.

(** C10: whatever the identity of a connected socket, a [joinUser] event with
    user id [U] puts it into the personal room of [U]; an assignment of a task
    to [U] that follows hands the new notification, whose recipient is [U], to
    that socket. *)
Theorem joinUser_any_user (io : Server) (s : Socket) (sid : string) (U taskId : ObjectId)
    (actor : User) :
  Sio.find_socket sid io = Some s →
  ∃ io1,
    step jwt_verify (Receive sid "joinUser" (VStr U)) io = Some (Ok tt, io1) ∧
    (∃ s1, Sio.find_socket sid io1 = Some s1 ∧ "user:" +:+ U ∈ sock_rooms s1 ∧
           sock_user s1 = sock_user s) ∧
    ∀ w t0 p,
      w_io w = Some io1 →
      find_task taskId (w_db w) = Some t0 →
      find_project (t_project t0) (w_db w) = Some p →
      ∃ r n w' io2,
        assignTask gen_oid Sio.io_to_emit taskId U actor w = (Ok r, w') ∧
        n ∈ notifications (w_db w') ∧ n_recipient n = U ∧
        w_io w' = Some io2 ∧
        mkDelivery sid "notification:new" (PNotificationNew n) ∈ sent io2.
Proof.
  intros Hs. destruct (find_socket_id _ _ _ Hs) as [Hid _].
  rewrite (step_receive _ _ _ _ _ _ Hs). unfold on_event. simpl. rewrite Hid.
  set (io1 := snd (on_joinUser sid (dec_id (sock_user s)) (VStr U) io)).
  exists io1. split; [reflexivity|].
  set (room := "user:" +:+ U).
  set (s1 := mkSocket (sock_id s) (sock_user s) ({[room]} ∪ sock_rooms s)).
  assert (Hs1 : Sio.find_socket sid io1 = Some s1).
  { apply (find_socket_update sid
             (λ s, mkSocket (sock_id s) (sock_user s) ({[room]} ∪ sock_rooms s)) io s);
      [done|exact Hs]. }
  split.
  { exists s1. split; [exact Hs1|]. split; [|done]. simpl. set_solver. }
  intros w t0 p Hio Ht Hp.
  rewrite (assignTask_found gen_oid _ taskId U actor w t0 p Ht Hp).
  rewrite (sio_guarded_emit _ _ _ _ io1) by exact Hio. simpl.
  eexists _, _, _, _. split; [reflexivity|]. simpl.
  split; [apply elem_of_app; right; by apply list_elem_of_singleton|].
  split; [done|]. split; [done|].
  apply elem_of_app. right. apply list_elem_of_fmap. exists s1.
  destruct (find_socket_id _ _ _ Hs1) as [Hid1 Hin1].
  split; [by rewrite Hid1|].
  unfold Sio.room_members. apply list_elem_of_filter. split; [|exact Hin1].
  right. simpl. set_solver.
Qed.
End joinUser.


Lemma joinUser_any_user_witness :
  Sio.find_socket "c1" two_sockets = Some socketA ∧
  dec_id (sock_user socketA) = VStr "u1" ∧
  ∃ io1,
    step sample_verify (Receive "c1" "joinUser" (VStr "u2")) two_sockets = Some (Ok tt, io1) ∧
    ∃ r n w' io2,
      assignTask sample_gen_oid Sio.io_to_emit "t1" "u2" manager
                 (mkWorld (Some io1) sample_db []) = (Ok r, w') ∧
      n ∈ notifications (w_db w') ∧ n_recipient n = "u2" ∧
      w_io w' = Some io2 ∧
      mkDelivery "c1" "notification:new" (PNotificationNew n) ∈ sent io2.
Proof.
  assert (H : Sio.find_socket "c1" two_sockets = Some socketA) by reflexivity.
  split; [exact H|]. split; [reflexivity|].
  destruct (joinUser_any_user sample_gen_oid sample_verify two_sockets socketA "c1" "u2" "t1"
              manager H) as (io1 & Hstep & _ & Hassign).
  exists io1. split; [exact Hstep|].
  apply (Hassign (mkWorld (Some io1) sample_db []) sample_task sample_project); reflexivity.
Defined.

(** ** Further properties of the connection lifecycle *)

Section consistency.
Context {engine : Runtime}.
Variable jwt_verify : string → res Decoded.

Lemma keys_registry_of l : JsMap.keys (registry_of l) = sock_id <$> l.
Proof.
  unfold JsMap.keys, registry_of. rewrite <- list_fmap_compose. by apply list_fmap_ext.
Qed.

Lemma registry_of_filter sid l :
  JsMap.delete sid (registry_of l) = registry_of (filter (λ s, sock_id s ≠ sid) l).
Proof.
  unfold JsMap.delete, registry_of. induction l as [|a l IH]; [done|].
  rewrite fmap_cons, !filter_cons. simpl.
  destruct (decide (sock_id a ≠ sid)); [rewrite fmap_cons|]; by rewrite IH.
Qed.

Lemma registry_of_update sid (f : Socket → Socket) l :
  (∀ s, sock_id (f s) = sock_id s ∧ sock_user (f s) = sock_user s) →
  registry_of ((λ s, if decide (sock_id s = sid) then f s else s) <$> l) = registry_of l.
Proof.
  intros Hf. unfold registry_of. rewrite <- list_fmap_compose. apply list_fmap_ext.
  intros _ s _. simpl. destruct (decide (sock_id s = sid)); [|done].
  by destruct (Hf s) as [-> ->].
Qed.

(** What a listener does to the sockets: nothing, or a change of rooms of the
    sender. *)
Lemma on_event_sockets s name arg srv :
  sockets (snd (on_event s name arg srv)) = sockets srv ∨
  ∃ f, (∀ s', sock_id (f s') = sock_id s' ∧ sock_user (f s') = sock_user s') ∧
       sockets (snd (on_event s name arg srv))
         = (λ s', if decide (sock_id s' = sock_id s) then f s' else s') <$> sockets srv.
Proof.
  unfold on_event.
  repeat (match goal with |- context [String.eqb name ?x] => destruct (String.eqb name x) end);
    try (by left); listener_cases;
    try (by left);
    right; eexists; (split; [|reflexivity]); by intros s'.
Qed.

Lemma step_consistent i srv r srv' :
  step jwt_verify i srv = Some (r, srv') → consistent srv → consistent srv'.
Proof.
  intros Hstep (Hreg & Hhb & Hnd).
  assert (Hkeys : JsMap.keys (onlineUsers srv) = Sio.socket_ids srv)
    by (by rewrite Hreg, keys_registry_of).
  destruct i as [sid hs|sid name arg|sid now|sid reason].
  - destruct (decide (sid ∈ Sio.socket_ids srv)) as [Hin|Hnin].
    { simpl in Hstep. by rewrite decide_True in Hstep. }
    destruct (auth_middleware_cases jwt_verify sid hs srv) as [[d [Hv _]]|[Hno _]].
    + destruct (step_connect_accepted jwt_verify sid hs d srv Hnin Hv)
        as (srv1 & Hs1 & Hso & Hon & Hh & _).
      rewrite Hs1 in Hstep. injection Hstep as <- <-.
      unfold consistent, Sio.socket_ids. rewrite Hso, Hon, Hh. split; [|split].
      * unfold register. rewrite JsMapFacts.set_absent by (by rewrite Hkeys).
        unfold registry_of. by rewrite fmap_app, Hreg.
      * by rewrite fmap_app, Hhb.
      * rewrite fmap_app. apply NoDup_app. split; [done|]. split; [|apply NoDup_singleton].
        intros x Hx ->%list_elem_of_singleton. done.
    + destruct (step_connect_rejected jwt_verify sid hs srv Hnin Hno) as [entry Hs1].
      rewrite Hs1 in Hstep. by injection Hstep as <- <-.
  - simpl in Hstep. destruct (Sio.find_socket sid srv) as [s|]; [|done].
    simpl in Hstep. injection Hstep as Hstep.
    pose proof (on_event_presence s name arg srv) as Hp. rewrite Hstep in Hp. simpl in Hp.
    unfold presence in Hp. injection Hp as Hon Hids Hh.
    pose proof (on_event_sockets s name arg srv) as Hso. rewrite Hstep in Hso. simpl in Hso.
    unfold consistent. rewrite Hon, Hids, Hh. split; [|done].
    destruct Hso as [->|(f & Hf & ->)]; [done|]. by rewrite registry_of_update.
  - simpl in Hstep. destruct (Sio.find_socket sid srv) as [s|]; [|done].
    simpl in Hstep. destruct (decide (sid ∈ heartbeats srv)); [|done].
    by injection Hstep as <- <-.
  - destruct (Sio.find_socket sid srv) as [s|] eqn:Hs; [|simpl in Hstep; by rewrite Hs in Hstep].
    destruct (step_disconnect jwt_verify sid reason srv s Hs) as (srv1 & Hs1 & Hso & Hon & Hh & _).
    rewrite Hs1 in Hstep. injection Hstep as <- <-.
    unfold consistent, Sio.socket_ids. rewrite Hso, Hon, Hh. split; [|split].
    + unfold deregister. by rewrite Hreg, registry_of_filter.
    + by rewrite socket_ids_filter, Hhb.
    + rewrite socket_ids_filter. by apply NoDup_filter.
Qed.

Lemma run_consistent tr srv0 srv :
  run jwt_verify tr srv0 = Some srv → consistent srv0 → consistent srv.
Proof.
  revert srv0. induction tr as [|i tr IH]; intros srv0 Hrun Hinv.
  - by injection Hrun as <-.
  - destruct (run_cons_inv _ _ _ _ _ Hrun)
      as (r & srv1 & srv2 & Hstep & Hrun2 & Hso & Hon & Hhb & _).
    apply (IH srv2 Hrun2). apply (step_consistent _ _ _ _ Hstep) in Hinv.
    unfold consistent, Sio.socket_ids in *. by rewrite Hso, Hon, Hhb.
Qed.

Lemma consistent_initSocket : consistent initSocket.
Proof. split; [done|]. split; [done|]. apply NoDup_nil_2. Qed.

(** X1: in every state reachable from [initSocket] the online list holds one
    entry per connected socket, in connection order, each the identity of that
    socket's token; the keys of the registry and the live heartbeats are the
    identifiers of the connected sockets, and these are pairwise distinct. *)
Theorem online_list_mirrors_connections (srv : Server) :
  reachable jwt_verify srv →
  listOnline (onlineUsers srv) = (λ s, identity_of (sock_user s)) <$> sockets srv ∧
  JsMap.keys (onlineUsers srv) = Sio.socket_ids srv ∧
  heartbeats srv = Sio.socket_ids srv ∧
  NoDup (Sio.socket_ids srv).
Proof.
  intros [tr Hrun].
  destruct (run_consistent tr initSocket srv Hrun consistent_initSocket) as (Hreg & Hhb & Hnd).
  split; [|split; [|done]].
  - rewrite Hreg. unfold listOnline, JsMap.values, registry_of.
    rewrite <- list_fmap_compose. by apply list_fmap_ext.
  - by rewrite Hreg, keys_registry_of.
Qed.
End consistency.

Section more_lifecycle.
Context {engine : Runtime}.
Variable jwt_verify : string → res Decoded.

(** X2: no packet from a client and no heartbeat tick changes who is online:
    registry, connected sockets with their identities, and heartbeats stay as
    they are, also when the listener throws. *)
Theorem events_keep_presence (i : Input) (srv srv' : Server) (r : res unit) :
  inbound i = true →
  step jwt_verify i srv = Some (r, srv') →
  onlineUsers srv' = onlineUsers srv ∧
  Sio.socket_ids srv' = Sio.socket_ids srv ∧
  ((λ s, sock_user s) <$> sockets srv') = ((λ s, sock_user s) <$> sockets srv) ∧
  heartbeats srv' = heartbeats srv.
Proof.
  intros Hi Hstep. destruct i as [sid hs|sid name arg|sid now|sid reason]; try done.
  - simpl in Hstep. destruct (Sio.find_socket sid srv) as [s|]; [|done].
    simpl in Hstep. injection Hstep as Hstep.
    pose proof (on_event_presence s name arg srv) as Hp. rewrite Hstep in Hp. simpl in Hp.
    unfold presence in Hp. injection Hp as Hon Hids Hh.
    pose proof (on_event_sockets s name arg srv) as Hso. rewrite Hstep in Hso. simpl in Hso.
    repeat (split; [done|]). split; [|done].
    destruct Hso as [->|(f & Hf & ->)]; [done|].
    rewrite <- list_fmap_compose. apply list_fmap_ext. intros _ s' _. simpl.
    destruct (decide (sock_id s' = sock_id s)); [|done]. by destruct (Hf s') as [_ ->].
  - simpl in Hstep. destruct (Sio.find_socket sid srv) as [s|]; [|done].
    simpl in Hstep. destruct (decide (sid ∈ heartbeats srv)); [|done].
    by injection Hstep as <- <-.
Qed.

Lemma on_event_sent s name arg srv :
  ∃ new, sent (snd (on_event s name arg srv)) = sent srv ++ new ∧
         ∀ d, d ∈ new → d_to d ∈ Sio.socket_ids srv ∧ d_to d ≠ sock_id s.
Proof.
  assert (Hnone : ∀ srv0 : Server, sent srv0 = sent srv →
            ∃ new, sent srv0 = sent srv ++ new ∧
                   ∀ d, d ∈ new → d_to d ∈ Sio.socket_ids srv ∧ d_to d ≠ sock_id s).
  { intros srv0 H. exists []. rewrite app_nil_r. split; [done|]. by intros d ?%elem_of_nil. }
  assert (Hto : ∀ roomId ev data u,
            ∃ new, sent (snd (Sio.socket_to_emit (sock_id s) roomId ev data
                                (with_logs u srv))) = sent srv ++ new ∧
                   ∀ d, d ∈ new → d_to d ∈ Sio.socket_ids srv ∧ d_to d ≠ sock_id s).
  { intros roomId ev data u. eexists. split; [reflexivity|].
    intros d [s' [-> Hs']]%list_elem_of_fmap. simpl.
    apply list_elem_of_filter in Hs' as [Hne Hs']. split; [|done].
    destruct roomId as [| |b|n|str|items|fields]; try (by apply elem_of_nil in Hs').
    - apply list_elem_of_filter in Hs' as [_ Hs']. by apply list_elem_of_fmap_2.
    - destruct items as [|x items]; [by apply list_elem_of_fmap_2|].
      apply list_elem_of_filter in Hs' as [_ Hs']. by apply list_elem_of_fmap_2. }
  unfold on_event.
  repeat (match goal with |- context [String.eqb name ?x] => destruct (String.eqb name x) end);
    try (by apply Hnone); listener_cases; try (by apply Hnone); apply Hto.
Qed.

(** X3: whatever the input, the server only adds to what it has sent, and
    each new packet goes to a socket that is connected once the input has
    been handled; a socket that has gone receives nothing. *)
Theorem deliveries_only_to_connected (i : Input) (srv srv' : Server) (r : res unit) :
  step jwt_verify i srv = Some (r, srv') →
  ∃ new, sent srv' = sent srv ++ new ∧ ∀ d, d ∈ new → d_to d ∈ Sio.socket_ids srv'.
Proof.
  intros Hstep. destruct i as [sid hs|sid name arg|sid now|sid reason].
  - destruct (decide (sid ∈ Sio.socket_ids srv)) as [Hin|Hnin].
    { simpl in Hstep. by rewrite decide_True in Hstep. }
    destruct (auth_middleware_cases jwt_verify sid hs srv) as [[d [Hv _]]|[Hno _]].
    + destruct (step_connect_accepted jwt_verify sid hs d srv Hnin Hv)
        as (srv1 & Hs1 & _ & _ & _ & Hse).
      rewrite Hs1 in Hstep. injection Hstep as <- <-.
      eexists. split; [exact Hse|].
      intros d0 [s' [-> Hs']]%list_elem_of_fmap. simpl. by apply list_elem_of_fmap_2.
    + destruct (step_connect_rejected jwt_verify sid hs srv Hnin Hno) as [entry Hs1].
      rewrite Hs1 in Hstep. injection Hstep as <- <-.
      exists []. simpl. rewrite app_nil_r. split; [done|]. by intros d ?%elem_of_nil.
  - simpl in Hstep. destruct (Sio.find_socket sid srv) as [s|]; [|done].
    simpl in Hstep. injection Hstep as Hstep.
    destruct (on_event_sent s name arg srv) as (new & Hse & Hto).
    pose proof (on_event_presence s name arg srv) as Hp. rewrite Hstep in *. simpl in *.
    unfold presence in Hp. injection Hp as _ Hids _.
    exists new. split; [done|]. intros d Hd. rewrite Hids. by apply Hto.
  - simpl in Hstep. destruct (Sio.find_socket sid srv) as [s|]; [|done].
    simpl in Hstep. destruct (decide (sid ∈ heartbeats srv)); [|done].
    injection Hstep as <- <-. eexists. split; [reflexivity|].
    intros d [s' [-> Hs']]%list_elem_of_fmap. simpl.
    apply list_elem_of_filter in Hs' as [_ Hs']. by apply list_elem_of_fmap_2.
  - destruct (Sio.find_socket sid srv) as [s|] eqn:Hs; [|simpl in Hstep; by rewrite Hs in Hstep].
    destruct (step_disconnect jwt_verify sid reason srv s Hs) as (srv1 & Hs1 & _ & _ & _ & Hse).
    rewrite Hs1 in Hstep. injection Hstep as <- <-.
    eexists. split; [exact Hse|].
    intros d0 [s' [-> Hs']]%list_elem_of_fmap. simpl. by apply list_elem_of_fmap_2.
Qed.
End more_lifecycle.

Section handshake.
Context {engine : Runtime}.
Variable jwt_verify : string → res Decoded.

Lemma split_space_word a rest :
  no_space a = true → split_space (a +:+ String (Ascii.ascii_of_nat 32) rest) = a :: split_space rest.
Proof.
  induction a as [|c a IH]; simpl; [done|].
  intros [Hc Ha]%andb_prop. apply negb_true_iff in Hc. rewrite Hc.
  by rewrite (IH Ha).
Qed.

Lemma split_space_no_space a : no_space a = true → split_space a = [a].
Proof.
  induction a as [|c a IH]; simpl; [done|].
  intros [Hc Ha]%andb_prop. apply negb_true_iff in Hc. rewrite Hc.
  by rewrite (IH Ha).
Qed.

Lemma prefix_Bearer t : String.prefix "Bearer " ("Bearer " +:+ t) = true.
Proof. by destruct t. Qed.

Lemma no_space_not_Bearer t : no_space t = true → String.prefix "Bearer " t = false.
Proof.
  intros Ht. destruct (String.prefix "Bearer " t) eqn:Hp; [|done]. exfalso.
  do 7 (destruct t as [|c t]; [discriminate Hp|]; cbn [String.prefix] in Hp;
        match type of Hp with
        | context [Ascii.ascii_dec ?a c] =>
            destruct (Ascii.ascii_dec a c) as [<-|]; [|discriminate Hp]
        end;
        cbn [no_space] in Ht; apply andb_prop in Ht as [Hc Ht]; try discriminate Hc; clear Hc).
Qed.

(** X4: for a token without blanks, the middleware finds it after a [Bearer ]
    prefix, also when more words follow it, and equally when it is sent
    without the prefix; if it is not empty, the handshake gets the same
    verdict, log line included, in both forms. *)
Theorem bearer_token_forms (t rest : string) :
  no_space t = true →
  bearer_token (VStr ("Bearer " +:+ t)) = Ok (Some t) ∧
  bearer_token (VStr ("Bearer " +:+ t +:+ " " +:+ rest)) = Ok (Some t) ∧
  bearer_token (VStr t) = Ok (Some t) ∧
  (t ≠ EmptyString → ∀ sid address srv,
     auth_middleware jwt_verify sid (mkHandshake (VStr ("Bearer " +:+ t)) address) srv
     = auth_middleware jwt_verify sid (mkHandshake (VStr t) address) srv).
Proof.
  intros Ht.
  assert (H1 : bearer_token (VStr ("Bearer " +:+ t)) = Ok (Some t)).
  { unfold bearer_token.
    rewrite prefix_Bearer.
    change ("Bearer " +:+ t) with ("Bearer" +:+ String (Ascii.ascii_of_nat 32) t).
    rewrite split_space_word by reflexivity. simpl. by rewrite split_space_no_space. }
  assert (H3 : bearer_token (VStr t) = Ok (Some t)).
  { unfold bearer_token. by rewrite no_space_not_Bearer. }
  split; [exact H1|]. split; [|split; [exact H3|]].
  - unfold bearer_token. rewrite prefix_Bearer.
    change ("Bearer " +:+ t +:+ " " +:+ rest)
      with ("Bearer" +:+ String (Ascii.ascii_of_nat 32) (t +:+ String (Ascii.ascii_of_nat 32) rest)).
    rewrite split_space_word by reflexivity. simpl. by rewrite split_space_word.
  - intros Hne sid address srv. unfold auth_middleware. simpl hs_token.
    rewrite H1, H3. simpl truthy. apply String.eqb_neq in Hne. by rewrite Hne.
Qed.

(** X5: the middleware never throws and writes exactly one log line; a
    missing token is refused with the message that asks for a token, any other
    handshake that is not verified with the message for an invalid or expired
    token, and a verified one is let through with the decoded payload. *)
Theorem auth_middleware_verdict (sid : string) (hs : Handshake) (srv : Server) :
  ∃ verdict entry,
    auth_middleware jwt_verify sid hs srv = (Ok verdict, with_logs (λ l, l ++ [entry]) srv) ∧
    (truthy (hs_token hs) = false →
       verdict = inl (Error "Authentication token required. Please login first.") ∧
       entry = LogRejectedNoToken (hs_address hs)) ∧
    (truthy (hs_token hs) = true → (¬ ∃ d, verified jwt_verify hs d) →
       verdict = inl (Error "Invalid or expired token. Please login again.") ∧
       ∃ message, entry = LogRejectedInvalid message) ∧
    (∀ d, verified jwt_verify hs d →
       verdict = inr d ∧ entry = LogAuthenticated (dec_id d) sid).
Proof.
  unfold verified, auth_middleware, try_catch, mbind, M_bind, bind, lift_res.
  destruct (truthy (hs_token hs)) eqn:Ht; simpl.
  - destruct (bearer_token (hs_token hs)) as [[t|]|e] eqn:Hb; simpl.
    + destruct (jwt_verify t) as [d|e] eqn:Hj; simpl; eexists _, _; (split; [reflexivity|]).
      * split; [done|]. split.
        -- intros _ Hno. exfalso. apply Hno. exists d. split; [done|]. by exists t.
        -- intros d' [_ [t' [[= <-] Hj']]]. rewrite Hj in Hj'. by injection Hj' as <-.
      * split; [done|]. split; [intros _ _; split; [done|by eexists]|].
        intros d' [_ [t' [[= <-] Hj']]]. congruence.
    + eexists _, _. split; [reflexivity|]. split; [done|].
      split; [intros _ _; split; [done|by eexists]|]. by intros d' [_ [t' [? _]]].
    + eexists _, _. split; [reflexivity|]. split; [done|].
      split; [intros _ _; split; [done|by eexists]|]. by intros d' [_ [t' [? _]]].
  - eexists _, _. split; [reflexivity|]. split; [done|]. split; [done|].
    by intros d' [? _].
Qed.
End handshake.

Section rooms_more.
Context {engine : Runtime}.

Lemma join_leave_lookup k sid userId p srv (join : bool) i s' :
  sockets (snd ((if join then on_join k else on_leave k) sid userId p srv)) !! i = Some s' →
  ∃ s, sockets srv !! i = Some s ∧
       sock_id s' = sock_id s ∧ sock_user s' = sock_user s ∧
       (sock_id s ≠ sid → s' = s) ∧
       (∀ r, Some r ≠ topic_of k p → r ∈ sock_rooms s' ↔ r ∈ sock_rooms s).
Proof.
  unfold topic_of. destruct (to_string p) as [name|e] eqn:Hp.
  2:{ destruct join; [rewrite (on_join_unnamed _ _ _ _ e) by done
                     |rewrite (on_leave_unnamed _ _ _ _ e) by done];
        simpl; intros Hs'; by exists s'. }
  assert (Hr : ∀ r, Some r ≠ Some (topic_prefix k +:+ name) → r ≠ topic_prefix k +:+ name)
    by (intros r Hne ->; by apply Hne).
  destruct join.
  - rewrite (on_join_sockets _ _ _ _ name) by done.
    rewrite sockets_socket_join, list_lookup_fmap.
    destruct (sockets srv !! i) as [s|]; [|done]. simpl. intros [= <-]. exists s.
    split; [done|]. destruct (decide (sock_id s = sid)); simpl; [|done].
    repeat (split; [done|]). intros r Hne%Hr. set_solver.
  - rewrite (on_leave_sockets _ _ _ _ name) by done.
    rewrite sockets_socket_leave, list_lookup_fmap.
    destruct (sockets srv !! i) as [s|]; [|done]. simpl. intros [= <-]. exists s.
    split; [done|]. destruct (decide (sock_id s = sid)); simpl; [|done].
    repeat (split; [done|]). intros r Hne%Hr. set_solver.
Qed.

(** X6: a join or leave event keeps every socket in place with its identity,
    leaves all sockets other than the sender as they are, and changes no
    membership of the sender other than that of the room named (none at all
    when the payload names no room). *)
Theorem join_leave_only_own_room (k : TopicKind) (sid : string) (userId p : value)
    (srv : Server) :
  let room := topic_of k p in
  ∀ srv', srv' = snd (on_join k sid userId p srv) ∨ srv' = snd (on_leave k sid userId p srv) →
    length (sockets srv') = length (sockets srv) ∧
    ∀ i s', sockets srv' !! i = Some s' →
      ∃ s, sockets srv !! i = Some s ∧
           sock_id s' = sock_id s ∧ sock_user s' = sock_user s ∧
           (sock_id s ≠ sid → s' = s) ∧
           (∀ r, Some r ≠ room → r ∈ sock_rooms s' ↔ r ∈ sock_rooms s).
Proof.
  intros room srv' Hsrv'.
  assert (Hlen : length (sockets srv') = length (sockets srv)).
  { destruct (to_string p) as [name|e] eqn:Hp.
    - destruct Hsrv' as [->| ->].
      + by rewrite (on_join_sockets _ _ _ _ name), sockets_socket_join, length_fmap.
      + by rewrite (on_leave_sockets _ _ _ _ name), sockets_socket_leave, length_fmap.
    - destruct Hsrv' as [->| ->].
      + by rewrite (on_join_unnamed _ _ _ _ e).
      + by rewrite (on_leave_unnamed _ _ _ _ e). }
  split; [exact Hlen|]. destruct Hsrv' as [->| ->]; intros i s'.
  - apply (join_leave_lookup k sid userId p srv true).
  - apply (join_leave_lookup k sid userId p srv false).
Qed.

End rooms_more.

Section heartbeat.
Context {engine : Runtime}.
Variable jwt_verify : string → res Decoded.

Lemma filter_socket_id_absent sid (l : list Socket) :
  sid ∉ sock_id <$> l → filter (λ s, sock_id s = sid) l = [].
Proof.
  induction l as [|a l IH]; [done|]. rewrite fmap_cons, not_elem_of_cons. intros [Hne Hl].
  rewrite filter_cons, decide_False by done. by apply IH.
Qed.

Lemma filter_socket_id sid l s :
  NoDup (sock_id <$> l) → List.find (λ s, bool_decide (sock_id s = sid)) l = Some s →
  filter (λ s, sock_id s = sid) l = [s].
Proof.
  induction l as [|a l IH]; [done|]. rewrite fmap_cons. intros [Ha Hnd]%NoDup_cons.
  cbn [List.find]. rewrite filter_cons.
  destruct (decide (sock_id a = sid)) as [Heq|Hne].
  - rewrite bool_decide_eq_true_2 by done. intros [= ->]. f_equal.
    apply filter_socket_id_absent. by rewrite <- Heq.
  - rewrite bool_decide_eq_false_2 by done. by apply IH.
Qed.

(** X7: in a consistent state a heartbeat tick of a connected socket sends one
    [ping] with the current time to that socket alone and logs it; nothing
    else changes. *)
Theorem heartbeat_pings_own_socket (sid : string) (now : Z) (s : Socket) (srv : Server) :
  consistent srv → Sio.find_socket sid srv = Some s →
  step jwt_verify (HeartbeatTick sid now) srv
    = Some (Ok tt,
            with_logs (λ l, l ++ [LogHeartbeatPing (dec_id (sock_user s)) sid])
              (with_sent (λ l, l ++ [mkDelivery sid "ping" (PPing now)]) srv)).
Proof.
  intros (_ & Hhb & Hnd) Hs. destruct (find_socket_id _ _ _ Hs) as [Hid Hin].
  simpl. rewrite Hs. simpl. rewrite decide_True
    by (rewrite Hhb; unfold Sio.socket_ids; rewrite <- Hid; by apply list_elem_of_fmap_2).
  unfold on_heartbeat, mbind, M_bind, bind, Sio.socket_emit, Sio.deliver, modify. simpl.
  rewrite (filter_socket_id sid (sockets srv) s Hnd Hs). simpl. by rewrite Hid.
Qed.

Lemma filter_app_fresh sid (l : list Socket) (x : Socket) :
  sid ∉ sock_id <$> l → sock_id x = sid →
  filter (λ s, sock_id s ≠ sid) (l ++ [x]) = l.
Proof.
  intros Hl Hx. rewrite filter_app. rewrite filter_cons, decide_False by (by intros ?).
  rewrite filter_nil, app_nil_r. induction l as [|a l IH]; [done|].
  rewrite fmap_cons, not_elem_of_cons in Hl. destruct Hl as [Hne Hl].
  rewrite filter_cons, decide_True by done. f_equal. by apply IH.
Qed.

Lemma filter_ids_app_fresh sid (l : list string) :
  sid ∉ l → filter (λ c, c ≠ sid) (l ++ [sid]) = l.
Proof.
  intros Hl. rewrite filter_app. rewrite filter_cons, decide_False by (by intros ?).
  rewrite filter_nil, app_nil_r. induction l as [|a l IH]; [done|].
  rewrite not_elem_of_cons in Hl. destruct Hl as [Hne Hl].
  rewrite filter_cons, decide_True by done. f_equal. by apply IH.
Qed.

Lemma delete_set_fresh {V} sid (v : V) m :
  sid ∉ JsMap.keys m → JsMap.delete sid (JsMap.set sid v m) = m.
Proof.
  intros Hm. rewrite JsMapFacts.set_absent by done. unfold JsMap.delete.
  rewrite filter_app. rewrite filter_cons, decide_False by (by intros ?).
  rewrite filter_nil, app_nil_r. by apply JsMapFacts.delete_absent.
Qed.

Lemma find_app_fresh sid (l : list Socket) (x : Socket) :
  sid ∉ sock_id <$> l → sock_id x = sid →
  List.find (λ s, bool_decide (sock_id s = sid)) (l ++ [x]) = Some x.
Proof.
  intros Hl Hx. induction l as [|a l IH]; simpl.
  - by rewrite bool_decide_eq_true_2.
  - rewrite fmap_cons, not_elem_of_cons in Hl. destruct Hl as [Hne Hl].
    rewrite bool_decide_eq_false_2 by done. by apply IH.
Qed.

(** X8: in a consistent state, accepting a connection and closing it again
    restores the connected sockets, the registry and the heartbeats. *)
Theorem connect_disconnect_round_trip (sid reason : string) (hs : Handshake) (d : Decoded)
    (srv : Server) :
  consistent srv → sid ∉ Sio.socket_ids srv → verified jwt_verify hs d →
  ∃ srv1 srv2,
    step jwt_verify (Connect sid hs) srv = Some (Ok tt, srv1) ∧
    step jwt_verify (Disconnect sid reason) srv1 = Some (Ok tt, srv2) ∧
    sockets srv2 = sockets srv ∧
    onlineUsers srv2 = onlineUsers srv ∧
    heartbeats srv2 = heartbeats srv.
Proof.
  intros (Hreg & Hhb & Hnd) Hsid Hv.
  destruct (step_connect_accepted jwt_verify sid hs d srv Hsid Hv)
    as (srv1 & Hs1 & Hso1 & Hon1 & Hh1 & _).
  assert (Hf : Sio.find_socket sid srv1 = Some (mkSocket sid d ∅)).
  { unfold Sio.find_socket. rewrite Hso1. by apply find_app_fresh. }
  destruct (step_disconnect jwt_verify sid reason srv1 _ Hf) as (srv2 & Hs2 & Hso2 & Hon2 & Hh2 & _).
  exists srv1, srv2. split; [done|]. split; [done|].
  rewrite Hso2, Hon2, Hh2, Hso1, Hon1, Hh1. split; [|split].
  - by apply filter_app_fresh.
  - unfold deregister, register. apply delete_set_fresh. by rewrite Hreg, keys_registry_of.
  - apply filter_ids_app_fresh. by rewrite Hhb.
Qed.
End heartbeat.

Lemma consistent_two_sockets : consistent two_sockets.
Proof.
  split; [reflexivity|]. split; [reflexivity|].
  unfold Sio.socket_ids. simpl.
  repeat (apply NoDup_cons_2; [set_solver|]). apply NoDup_nil_2.
Qed.

Lemma online_list_mirrors_connections_witness :
  reachable sample_verify
    (mkServer [mkSocket "c1" (mkDecoded (VStr "u1") (VStr "Alice")) ∅]
       [("c1", alice)] ["c1"]
       [LogAuthenticated (VStr "u1") "c1"; LogConnected (VStr "u1") (VStr "Alice") "c1";
        LogOnlineUsersBroadcast 1; LogRejectedInvalid "invalid token"]
       [mkDelivery "c1" "onlineUsers" (POnlineUsers [alice])]) ∧
  listOnline [("c1", alice)] = [identity_of (mkDecoded (VStr "u1") (VStr "Alice"))].
Proof.
  assert (H : reachable sample_verify
    (mkServer [mkSocket "c1" (mkDecoded (VStr "u1") (VStr "Alice")) ∅]
       [("c1", alice)] ["c1"]
       [LogAuthenticated (VStr "u1") "c1"; LogConnected (VStr "u1") (VStr "Alice") "c1";
        LogOnlineUsersBroadcast 1; LogRejectedInvalid "invalid token"]
       [mkDelivery "c1" "onlineUsers" (POnlineUsers [alice])])).
  { exists [Connect "c1" good_handshake; Connect "c2" bad_handshake]. vm_compute; reflexivity. }
  split; [exact H|].
  exact (proj1 (online_list_mirrors_connections sample_verify _ H)).
Defined.

Lemma events_keep_presence_witness :
  inbound (Receive "c1" "joinUser" (VStr "u2")) = true ∧
  ∃ srv', step sample_verify (Receive "c1" "joinUser" (VStr "u2")) two_sockets
            = Some (Ok tt, srv') ∧
          onlineUsers srv' = onlineUsers two_sockets.
Proof.
  split; [reflexivity|]. eexists. split; [vm_compute; reflexivity|].
  refine (proj1 (events_keep_presence sample_verify (Receive "c1" "joinUser" (VStr "u2"))
                   two_sockets _ (Ok tt) _ _)); reflexivity.
Defined.

Lemma deliveries_only_to_connected_witness :
  ∃ srv', step sample_verify (Disconnect "c2" "transport close") two_sockets
            = Some (Ok tt, srv') ∧
          ∃ new, sent srv' = sent two_sockets ++ new ∧
                 ∀ d, d ∈ new → d_to d ∈ Sio.socket_ids srv'.
Proof.
  eexists. split; [reflexivity|].
  refine (deliveries_only_to_connected sample_verify (Disconnect "c2" "transport close")
            two_sockets _ (Ok tt) _). reflexivity.
Defined.

Lemma bearer_token_forms_witness :
  no_space "tok-u1" = true ∧
  bearer_token (VStr "Bearer tok-u1") = Ok (Some "tok-u1") ∧
  bearer_token (VStr "Bearer tok-u1 trailing words") = Ok (Some "tok-u1").
Proof.
  assert (H : no_space "tok-u1" = true) by reflexivity.
  split; [exact H|].
  destruct (bearer_token_forms sample_verify "tok-u1" "trailing words" H) as (H1 & H2 & _).
  split; [exact H1|exact H2].
Defined.

Lemma join_leave_only_own_room_witness :
  length (sockets (snd (on_joinProject "c1" (VStr "u1") (VStr "p2") two_sockets)))
    = length (sockets two_sockets).
Proof.
  refine (proj1 (join_leave_only_own_room ProjectTopic "c1" (VStr "u1") (VStr "p2")
                   two_sockets _ _)).
  left. reflexivity.
Defined.

Lemma heartbeat_pings_own_socket_witness :
  consistent two_sockets ∧ Sio.find_socket "c1" two_sockets = Some socketA ∧
  ∃ srv', step sample_verify (HeartbeatTick "c1" 1700000000000) two_sockets = Some (Ok tt, srv') ∧
          sent srv' = [mkDelivery "c1" "ping" (PPing 1700000000000)].
Proof.
  assert (H : Sio.find_socket "c1" two_sockets = Some socketA) by reflexivity.
  split; [exact consistent_two_sockets|]. split; [exact H|].
  eexists. split;
    [exact (heartbeat_pings_own_socket sample_verify "c1" 1700000000000 socketA two_sockets
              consistent_two_sockets H)|reflexivity].
Defined.

Lemma connect_disconnect_round_trip_witness :
  consistent two_sockets ∧ ("c3" ∉ Sio.socket_ids two_sockets) ∧
  verified sample_verify good_handshake (mkDecoded (VStr "u1") (VStr "Alice")) ∧
  ∃ srv1 srv2,
    step sample_verify (Connect "c3" good_handshake) two_sockets = Some (Ok tt, srv1) ∧
    step sample_verify (Disconnect "c3" "client namespace disconnect") srv1 = Some (Ok tt, srv2) ∧
    sockets srv2 = sockets two_sockets ∧
    onlineUsers srv2 = onlineUsers two_sockets ∧
    heartbeats srv2 = heartbeats two_sockets.
Proof.
  assert (H1 : "c3" ∉ Sio.socket_ids two_sockets) by (unfold Sio.socket_ids; simpl; set_solver).
  assert (H2 : verified sample_verify good_handshake (mkDecoded (VStr "u1") (VStr "Alice"))).
  { split; [reflexivity|]. exists "tok-u1". split; reflexivity. }
  split; [exact consistent_two_sockets|]. split; [exact H1|]. split; [exact H2|].
  exact (connect_disconnect_round_trip sample_verify "c3" "client namespace disconnect"
           good_handshake _ two_sockets consistent_two_sockets H1 H2).
Defined.

(** ** Further properties of the services *)

Section counters.

Lemma getNextSequence_step name w :
  getNextSequence name w
    = (Ok (S (counter_value name (w_db w))),
       with_db (λ db, mkDb (tasks db) (projects db) (comments db) (notifications db)
                           (<[name := S (counter_value name db)]> (counters db))
                           (oid_count db)) w).
Proof. reflexivity. Qed.

(** X9: [n] calls of [getNextSequence] for one name return the [n] numbers
    that follow the current value of that counter (1, 2, ... for a counter
    that does not exist yet), leave the counter at the last of them, and touch
    no other counter and nothing else of the store. *)
Theorem getNextSequence_counts_up (name : string) (n : nat) (w : World) :
  ∃ w', draw_many name n w = (Ok (seq (S (counter_value name (w_db w))) n), w') ∧
        counter_value name (w_db w') = counter_value name (w_db w) + n ∧
        (∀ other, other ≠ name → counters (w_db w') !! other = counters (w_db w) !! other) ∧
        tasks (w_db w') = tasks (w_db w) ∧ projects (w_db w') = projects (w_db w) ∧
        comments (w_db w') = comments (w_db w) ∧
        notifications (w_db w') = notifications (w_db w) ∧
        w_io w' = w_io w ∧ w_console w' = w_console w.
Proof.
  revert w. induction n as [|n IH]; intros w.
  - exists w. simpl. split; [done|]. split; [lia|]. done.
  - simpl draw_many. rewrite (mbind_ok _ _ _ _ _ (getNextSequence_step name w)).
    set (w1 := with_db _ w).
    destruct (IH w1) as (w' & Hrun & Hc & Ho & Ht & Hp & Hcm & Hn & Hio & Hcon).
    assert (Hc1 : counter_value name (w_db w1) = S (counter_value name (w_db w))).
    { unfold counter_value. simpl. by rewrite lookup_insert_eq. }
    rewrite (mbind_ok _ _ _ _ _ Hrun). exists w'. rewrite Hc1. split; [done|].
    split; [rewrite Hc, Hc1; lia|].
    split.
    { intros other Hne. rewrite (Ho other Hne). simpl. by rewrite lookup_insert_ne. }
    by rewrite Ht, Hp, Hcm, Hn, Hio, Hcon.
Qed.
End counters.

Section edges.
Variable gen_oid : nat → ObjectId.
Variable emit : string → string → Payload → M Server unit.

Lemma world_eta w : mkWorld (w_io w) (w_db w) (w_console w) = w.
Proof. by destruct w. Qed.

Lemma db_eta db :
  mkDb (tasks db) (projects db) (comments db) (notifications db) (counters db) (oid_count db) = db.
Proof. by destruct db. Qed.

Lemma with_tasks_missing id f w :
  find_task id (w_db w) = None → with_db (with_tasks (update_first id f)) w = w.
Proof.
  intros H. unfold with_db, with_tasks. rewrite (find_update_first_None id f _ H).
  by rewrite db_eta, world_eta.
Qed.

Lemma Task_updateAssignedTo_missing id a w :
  find_task id (w_db w) = None → Task_updateAssignedTo id a w = (Ok None, w).
Proof.
  intros H. unfold Task_updateAssignedTo, mbind, M_bind, bind, modify, gets, with_db.
  unfold find_task in *. simpl. rewrite (find_update_first_None _ _ _ H), H.
  destruct w as [io db con]. by destruct db.
Qed.

Lemma Task_updateStatus_missing id st w :
  st ∈ task_statuses → find_task id (w_db w) = None → Task_updateStatus id st w = (Ok None, w).
Proof.
  intros Hst H. unfold Task_updateStatus. rewrite bool_decide_eq_true_2 by done.
  unfold mbind, M_bind, bind, modify, gets, with_db.
  unfold find_task in *. simpl. rewrite (find_update_first_None _ _ _ H), H.
  destruct w as [io db con]. by destruct db.
Qed.

(** X14: for a task that is not in the store, [assignTask] and (with a valid
    status) [updateTaskStatus] throw the error "Task not found" with
    [statusCode] 404 and change nothing. *)
Theorem missing_task_is_404 (taskId U : ObjectId) (newStatus : string) (actor : User)
    (w : World) :
  find_task taskId (w_db w) = None →
  assignTask gen_oid emit taskId U actor w = (Throw task_not_found, w) ∧
  (newStatus ∈ task_statuses →
   updateTaskStatus emit taskId newStatus actor w = (Throw task_not_found, w)) ∧
  exn_message task_not_found = "Task not found" ∧
  exn_statusCode task_not_found = Some 404.
Proof.
  intros H. split; [|split; [|done]].
  - unfold assignTask. by rewrite (mbind_ok _ _ _ _ _ (Task_updateAssignedTo_missing _ U _ H)).
  - intros Hst. unfold updateTaskStatus.
    by rewrite (mbind_ok _ _ _ _ _ (Task_updateStatus_missing _ _ _ Hst H)).
Qed.

(** X13: a status outside the enumeration makes [updateTaskStatus] throw a
    [ValidationError] without [statusCode]; store, server and console are
    untouched. *)
Theorem invalid_status_is_rejected (taskId : ObjectId) (newStatus : string) (actor : User)
    (w : World) :
  newStatus ∉ task_statuses →
  ∃ e, updateTaskStatus emit taskId newStatus actor w = (Throw e, w) ∧
       exn_name e = "ValidationError" ∧ exn_statusCode e = None.
Proof.
  intros Hst. unfold updateTaskStatus, Task_updateStatus.
  rewrite bool_decide_eq_false_2 by done. by eexists.
Qed.

(** X11: when the task exists but its project does not, [assignTask] throws a
    [TypeError] on [task.project._id] after the assignment has been written:
    the task now carries the new assignee, but no notification is created,
    nothing is emitted and nothing is logged. *)
Theorem assignTask_dangling_project (taskId U : ObjectId) (actor : User) (w : World)
    (t0 : Task) :
  find_task taskId (w_db w) = Some t0 →
  find_project (t_project t0) (w_db w) = None →
  ∃ w', assignTask gen_oid emit taskId U actor w
          = (Throw (TypeError "Cannot read properties of null (reading '_id')"), w') ∧
        find_task taskId (w_db w') = Some (set_assignedTo U t0) ∧
        notifications (w_db w') = notifications (w_db w) ∧
        counters (w_db w') = counters (w_db w) ∧
        w_io w' = w_io w ∧ w_console w' = w_console w.
Proof.
  intros Ht Hp. unfold assignTask.
  rewrite (mbind_ok _ _ _ _ _ (Task_updateAssignedTo_found taskId U w t0 Ht)).
  set (w1 := with_db _ w). unfold populate.
  rewrite (mbind_ok _ _ w1 (populated_assign (set_assignedTo U t0) None) w1)
    by (unfold gets; simpl; unfold find_project in *; simpl; by rewrite Hp).
  exists w1. split; [reflexivity|]. split; [|done].
  unfold find_task in *. simpl. by apply find_update_first.
Qed.

(** X12: when the task exists but its project does not, [updateTaskStatus]
    with an initialised server still writes the status and returns the task
    (with [project] null); the [TypeError] is caught, reported with
    [console.warn], and nothing is emitted. *)
Theorem updateTaskStatus_dangling_project (taskId : ObjectId) (newStatus : string)
    (actor : User) (w : World) (io : Server) (t0 : Task) :
  w_io w = Some io →
  newStatus ∈ task_statuses →
  find_task taskId (w_db w) = Some t0 →
  find_project (t_project t0) (w_db w) = None →
  ∃ w', updateTaskStatus emit taskId newStatus actor w
          = (Ok (populated_update (set_status newStatus t0) None), w') ∧
        find_task taskId (w_db w') = Some (set_status newStatus t0) ∧
        w_io w' = Some io ∧
        w_console w' = w_console w ++
          [ConsoleWarn "Socket emit failed:" "Cannot read properties of null (reading '_id')"].
Proof.
  intros Hio Hst Ht Hp. unfold updateTaskStatus.
  rewrite (mbind_ok _ _ _ _ _ (Task_updateStatus_found taskId newStatus w t0 Hst Ht)).
  set (w1 := with_db _ w). unfold populate.
  rewrite (mbind_ok _ _ w1 (populated_update (set_status newStatus t0) None) w1)
    by (unfold gets; simpl; unfold find_project in *; simpl; by rewrite Hp).
  unfold mbind, M_bind, bind, try_catch, getIO, project_id_of. simpl. rewrite Hio. simpl.
  eexists. split; [reflexivity|]. simpl. split; [|done].
  unfold find_task in *. simpl. by apply find_update_first.
Qed.

Lemma addComment_missing (taskId authorId : ObjectId) (content : jsstring) (w : World) :
  trim content ≠ [] → length (trim content) ≤ 1000 →
  find_task taskId (w_db w) = None →
  let doc := comment_doc gen_oid (w_db w) content taskId authorId in
  addComment gen_oid emit taskId content authorId w = (Ok doc, with_db (insert_comment doc) w).
Proof.
  intros Hc Hl Ht doc. unfold addComment.
  rewrite (mbind_ok _ _ _ _ _ (Comment_create_ok gen_oid content taskId authorId w Hc Hl)).
  fold doc. unfold mbind, M_bind, bind, try_catch, Task_findById, gets. simpl.
  assert (Hnone : find_task taskId (insert_comment doc (w_db w)) = None) by exact Ht.
  by rewrite Hnone.
Qed.

(** X15: a valid comment on a task that does not exist is stored and returned
    all the same; nothing is emitted and no warning is written. *)
Theorem addComment_without_task (taskId authorId : ObjectId) (content : jsstring) (w : World) :
  trim content ≠ [] → length (trim content) ≤ 1000 →
  find_task taskId (w_db w) = None →
  ∃ c w',
    addComment gen_oid emit taskId content authorId w = (Ok c, w') ∧
    c_content c = trim content ∧ c_task c = taskId ∧ c_author c = authorId ∧
    comments (w_db w') = comments (w_db w) ++ [c] ∧
    w_io w' = w_io w ∧ w_console w' = w_console w.
Proof.
  intros Hc Hl Ht. eexists _, _. split; [by apply addComment_missing|]. done.
Qed.
End edges.


Section cases.
Variable gen_oid : nat → ObjectId.
Variable emit : string → string → Payload → M Server unit.

Lemma updateTaskStatus_cases taskId newStatus actor w :
  ((newStatus ∉ task_statuses) ∧
   updateTaskStatus emit taskId newStatus actor w
     = (Throw (ValidationError "Validation failed: status is not a valid enum value"), w)) ∨
  newStatus ∈ task_statuses ∧
  ((find_task taskId (w_db w) = None ∧
   updateTaskStatus emit taskId newStatus actor w = (Throw task_not_found, w)) ∨
  (∃ t0, find_task taskId (w_db w) = Some t0 ∧
     find_project (t_project t0) (w_db w) = None ∧
     ∃ msg, updateTaskStatus emit taskId newStatus actor w
            = (Ok (populated_update (set_status newStatus t0) None),
               mkWorld (w_io w)
                 (with_tasks (update_first taskId (set_status newStatus)) (w_db w))
                 (w_console w ++ [ConsoleWarn "Socket emit failed:" msg]))) ∨
  (∃ t0 p, find_task taskId (w_db w) = Some t0 ∧
     find_project (t_project t0) (w_db w) = Some p ∧
     updateTaskStatus emit taskId newStatus actor w
       = (Ok (populated_update (set_status newStatus t0) (Some p)),
          snd (try_catch
                 (getIO;; on_io (emit ("project:" +:+ p_id p) "task:updated"
                    (PTaskUpdated (t_id t0) newStatus (u_name actor)
                       (populated_update (set_status newStatus t0) (Some p)))))
                 warn_emit_failed
                 (with_db (with_tasks (update_first taskId (set_status newStatus))) w))))).
Proof.
  destruct (decide (newStatus ∈ task_statuses)) as [Hst|Hst].
  2:{ left. split; [done|]. unfold updateTaskStatus, Task_updateStatus.
      by rewrite bool_decide_eq_false_2 by done. }
  right. split; [done|]. destruct (find_task taskId (w_db w)) as [t0|] eqn:Ht.
  2:{ left. split; [done|]. unfold updateTaskStatus.
      by rewrite (mbind_ok _ _ _ _ _ (Task_updateStatus_missing _ _ _ Hst Ht)). }
  right. destruct (find_project (t_project t0) (w_db w)) as [p|] eqn:Hp.
  - right. exists t0, p. split; [done|]. split; [done|].
    by apply updateTaskStatus_found.
  - left. exists t0. split; [done|]. split; [done|].
    unfold updateTaskStatus.
    rewrite (mbind_ok _ _ _ _ _ (Task_updateStatus_found taskId newStatus w t0 Hst Ht)).
    set (w1 := with_db _ w). unfold populate.
    rewrite (mbind_ok _ _ w1 (populated_update (set_status newStatus t0) None) w1)
      by (unfold gets; simpl; unfold find_project in *; simpl; by rewrite Hp).
    unfold mbind, M_bind, bind, try_catch, getIO, project_id_of. simpl.
    subst w1. unfold with_db. destruct (w_io w); simpl; by eexists.
Qed.

Lemma assignTask_cases taskId U actor w :
  (find_task taskId (w_db w) = None ∧
   assignTask gen_oid emit taskId U actor w = (Throw task_not_found, w)) ∨
  (∃ t0, find_task taskId (w_db w) = Some t0 ∧
     find_project (t_project t0) (w_db w) = None ∧
     assignTask gen_oid emit taskId U actor w
       = (Throw (TypeError "Cannot read properties of null (reading '_id')"),
          with_db (with_tasks (update_first taskId (set_assignedTo U))) w)) ∨
  (∃ t0 p, find_task taskId (w_db w) = Some t0 ∧
     find_project (t_project t0) (w_db w) = Some p ∧
     let w1 := with_db (with_tasks (update_first taskId (set_assignedTo U))) w in
     let doc := notification_doc gen_oid (w_db w1) (assigned_message t0) "task_assigned"
                                 U (Some taskId) (Some (p_id p)) in
     assignTask gen_oid emit taskId U actor w
       = (Ok (populated_assign (set_assignedTo U t0) (Some p)),
          snd (try_catch (getIO;; on_io (emit ("user:" +:+ U) "notification:new"
                                              (PNotificationNew doc)))
                         warn_emit_failed (with_db (insert_notification doc) w1)))).
Proof.
  destruct (find_task taskId (w_db w)) as [t0|] eqn:Ht.
  2:{ left. split; [done|]. unfold assignTask.
      by rewrite (mbind_ok _ _ _ _ _ (Task_updateAssignedTo_missing _ U _ Ht)). }
  right. destruct (find_project (t_project t0) (w_db w)) as [p|] eqn:Hp.
  - right. exists t0, p. split; [done|]. split; [done|]. by apply assignTask_found.
  - left. exists t0. split; [done|]. split; [done|]. unfold assignTask.
    rewrite (mbind_ok _ _ _ _ _ (Task_updateAssignedTo_found taskId U w t0 Ht)).
    set (w1 := with_db _ w). unfold populate.
    by rewrite (mbind_ok _ _ w1 (populated_assign (set_assignedTo U t0) None) w1)
      by (unfold gets; simpl; unfold find_project in *; simpl; by rewrite Hp).
Qed.

Lemma addComment_cases taskId content authorId w :
  ((trim content = [] ∨ 1000 < length (trim content)) ∧
   addComment gen_oid emit taskId content authorId w
     = (Throw (ValidationError "Comment validation failed"), with_db bump_oid w)) ∨
  (trim content ≠ [] ∧ length (trim content) ≤ 1000 ∧
   let doc := comment_doc gen_oid (w_db w) content taskId authorId in
   (find_task taskId (w_db w) = None ∧
    addComment gen_oid emit taskId content authorId w = (Ok doc, with_db (insert_comment doc) w)) ∨
   (∃ t0, find_task taskId (w_db w) = Some t0 ∧
      addComment gen_oid emit taskId content authorId w
        = (Ok doc,
           snd (try_catch (getIO;; on_io (emit ("project:" +:+ t_project t0) "comment:new"
                                               (PCommentNew taskId doc)))
                          warn_emit_failed (with_db (insert_comment doc) w))))).
Proof.
  destruct (decide (trim content = [])) as [He|Hne].
  { left. split; [by left|]. unfold addComment, Comment_create, new_oid, mbind, M_bind, bind.
    simpl. by rewrite He. }
  destruct (decide (length (trim content) ≤ 1000)) as [Hl|Hl].
  2:{ left. split; [right; lia|].
      unfold addComment, Comment_create, new_oid, mbind, M_bind, bind. simpl.
      by rewrite (bool_decide_eq_false_2 _ Hl), andb_false_r. }
  right. split; [done|]. split; [done|]. intros doc.
  destruct (find_task taskId (w_db w)) as [t0|] eqn:Ht.
  - right. exists t0. split; [done|]. by apply addComment_found.
  - left. split; [done|]. by apply addComment_missing.
Qed.
End cases.

Section after_cases.
Variable gen_oid : nat → ObjectId.
Variable emit : string → string → Payload → M Server unit.

Lemma guarded_emit_db room ev data w :
  w_db (snd (try_catch (getIO;; on_io (emit room ev data)) warn_emit_failed w)) = w_db w.
Proof. destruct (guarded_emit emit room ev data w) as (w' & Hg & Hdb & _). by rewrite Hg. Qed.

(** What a service call can have done to the store. *)
Lemma updateTaskStatus_db taskId newStatus actor w :
  let db' := w_db (snd (updateTaskStatus emit taskId newStatus actor w)) in
  db' = w_db w ∨ db' = with_tasks (update_first taskId (set_status newStatus)) (w_db w).
Proof.
  destruct (updateTaskStatus_cases emit taskId newStatus actor w)
    as [(_ & ->)|(_ & [(_ & ->)|[(t0 & _ & _ & msg & ->)|(t0 & p & _ & _ & ->)]])]; simpl.
  - by left.
  - by left.
  - by right.
  - right. by rewrite guarded_emit_db.
Qed.

Lemma assignTask_db taskId U actor w :
  let db' := w_db (snd (assignTask gen_oid emit taskId U actor w)) in
  let db1 := with_tasks (update_first taskId (set_assignedTo U)) (w_db w) in
  db' = w_db w ∨ db' = db1 ∨
  ∃ message rp, db' = insert_notification
       (notification_doc gen_oid db1 message "task_assigned" U (Some taskId) rp) db1.
Proof.
  destruct (assignTask_cases gen_oid emit taskId U actor w)
    as [(_ & ->)|[(t0 & _ & _ & ->)|(t0 & p & _ & _ & ->)]]; simpl.
  - by left.
  - right. by left.
  - right. right. rewrite guarded_emit_db. by eexists _, _.
Qed.

Lemma addComment_db taskId content authorId w :
  let db' := w_db (snd (addComment gen_oid emit taskId content authorId w)) in
  db' = bump_oid (w_db w) ∨
  db' = insert_comment (comment_doc gen_oid (w_db w) content taskId authorId) (w_db w).
Proof.
  destruct (addComment_cases gen_oid emit taskId content authorId w)
    as [(_ & ->)|(_ & _ & [(_ & ->)|(t0 & _ & ->)])]; simpl.
  - by left.
  - by right.
  - right. by rewrite guarded_emit_db.
Qed.

Lemma ids_ok_insert_notification doc db :
  n_notificationId doc = next_seq "notificationId" db →
  notification_ids_ok db → notification_ids_ok (insert_notification doc db).
Proof.
  intros Hid [Hle Hnd]. unfold notification_ids_ok, counter_value in *. simpl.
  rewrite lookup_insert_eq. simpl. unfold next_seq in Hid. split.
  - intros n [Hn|Hn%list_elem_of_singleton]%elem_of_app; [|subst n; lia].
    specialize (Hle n Hn). lia.
  - rewrite fmap_app. apply NoDup_app. split; [done|]. split; [|apply NoDup_singleton].
    intros x [n [-> Hn]]%list_elem_of_fmap Hx%list_elem_of_singleton.
    specialize (Hle n Hn). lia.
Qed.

Lemma ids_ok_insert_comment doc db :
  notification_ids_ok db → notification_ids_ok (insert_comment doc db).
Proof.
  intros [Hle Hnd]. unfold notification_ids_ok, counter_value in *. simpl.
  by rewrite lookup_insert_ne.
Qed.

(** X10: if every [notificationId] in the store is at most the counter and no
    two notifications share one, this still holds after any call of
    [assignTask], [updateTaskStatus] or [addComment], whatever its outcome. *)
Theorem notification_ids_stay_unique (w : World) :
  notification_ids_ok (w_db w) →
  (∀ taskId U actor,
     notification_ids_ok (w_db (snd (assignTask gen_oid emit taskId U actor w)))) ∧
  (∀ taskId newStatus actor,
     notification_ids_ok (w_db (snd (updateTaskStatus emit taskId newStatus actor w)))) ∧
  (∀ taskId content authorId,
     notification_ids_ok (w_db (snd (addComment gen_oid emit taskId content authorId w)))).
Proof.
  intros Hok. split; [|split].
  - intros taskId U actor.
    destruct (assignTask_db taskId U actor w) as [->|[->|(message & rp & ->)]]; [done|done|].
    by apply ids_ok_insert_notification.
  - intros taskId newStatus actor.
    by destruct (updateTaskStatus_db taskId newStatus actor w) as [->| ->].
  - intros taskId content authorId.
    destruct (addComment_db taskId content authorId w) as [->| ->]; [done|].
    by apply ids_ok_insert_comment.
Qed.

Lemma find_update_first_ne id id' f l :
  (∀ t, t_id (f t) = t_id t) → id' ≠ id →
  List.find (λ t, bool_decide (t_id t = id')) (update_first id f l)
  = List.find (λ t, bool_decide (t_id t = id')) l.
Proof.
  intros Hf Hne. induction l as [|t l IH]; [done|]. simpl.
  destruct (decide (t_id t = id)) as [Heq|Hneq]; simpl.
  - rewrite Hf. by rewrite !bool_decide_eq_false_2 by congruence.
  - by rewrite IH.
Qed.

(** X19: [assignTask] and [updateTaskStatus] leave every task other than the
    one named as it is; [addComment] changes no task; none of the three
    changes a project. *)
Theorem services_touch_one_task (w : World) (taskId other : ObjectId) :
  other ≠ taskId →
  (∀ U actor,
     find_task other (w_db (snd (assignTask gen_oid emit taskId U actor w)))
       = find_task other (w_db w)) ∧
  (∀ newStatus actor,
     find_task other (w_db (snd (updateTaskStatus emit taskId newStatus actor w)))
       = find_task other (w_db w)) ∧
  (∀ id content authorId,
     tasks (w_db (snd (addComment gen_oid emit id content authorId w))) = tasks (w_db w)) ∧
  (∀ U actor newStatus content authorId,
     projects (w_db (snd (assignTask gen_oid emit taskId U actor w))) = projects (w_db w) ∧
     projects (w_db (snd (updateTaskStatus emit taskId newStatus actor w))) = projects (w_db w) ∧
     projects (w_db (snd (addComment gen_oid emit taskId content authorId w)))
       = projects (w_db w)).
Proof.
  intros Hne. split; [|split; [|split]].
  - intros U actor.
    destruct (assignTask_db taskId U actor w) as [->|[->|(message & rp & ->)]]; [done| |];
      unfold find_task; simpl; by apply find_update_first_ne.
  - intros newStatus actor.
    destruct (updateTaskStatus_db taskId newStatus actor w) as [->| ->]; [done|].
    unfold find_task; simpl; by apply find_update_first_ne.
  - intros id content authorId.
    by destruct (addComment_db id content authorId w) as [->| ->].
  - intros U actor newStatus content authorId. split; [|split].
    + by destruct (assignTask_db taskId U actor w) as [->|[->|(message & rp & ->)]].
    + by destruct (updateTaskStatus_db taskId newStatus actor w) as [->| ->].
    + by destruct (addComment_db taskId content authorId w) as [->| ->].
Qed.
End after_cases.

Section fanout_every_call.
Variable gen_oid : nat → ObjectId.

Lemma sio_guarded_emit_handed room ev data w0 w :
  w_io w = w_io w0 →
  handed w0 (snd (try_catch (getIO;; on_io (Sio.io_to_emit room ev data)) warn_emit_failed w))
         (λ io, room_packets io room ev data).
Proof.
  intros Heq. unfold handed. rewrite <- Heq. destruct (w_io w) as [io|] eqn:Hio.
  - rewrite (sio_guarded_emit room ev data w io Hio). by eexists.
  - unfold try_catch, mbind, M_bind, bind, getIO. by rewrite Hio.
Qed.

(** C1 (amended): every successful [assignTask] names a task whose project is
    in the store, appends one notification of type task_assigned with the
    assignee as recipient, the task and its project as related documents and
    [isRead] false, and, where the server object exists, hands
    [notification:new] with that document to the sockets in the room of the
    assignee and nothing else. Every successful [updateTaskStatus] and
    [addComment] leaves the notifications as they are. A successful
    [updateTaskStatus] hands [task:updated] to the sockets in the room of the
    task's project when that project is in the store, and changes nothing of
    the server object when it is not; a successful [addComment] hands
    [comment:new] to the sockets in the room of the task's project when the
    task is in the store, and changes nothing of the server object when it
    is not. Whatever their arguments and outcome, [updateTaskStatus] and
    [addComment] never change the notifications. *)
Theorem fanout_rules (w : World) :
  (∀ taskId U actor r w',
     assignTask gen_oid Sio.io_to_emit taskId U actor w = (Ok r, w') →
     ∃ t0 p n,
       find_task taskId (w_db w) = Some t0 ∧
       find_project (t_project t0) (w_db w) = Some p ∧ p_id p = t_project t0 ∧
       notifications (w_db w') = notifications (w_db w) ++ [n] ∧
       n_type n = "task_assigned" ∧ n_recipient n = U ∧ n_relatedTask n = Some taskId ∧
       n_relatedProject n = Some (p_id p) ∧ n_isRead n = false ∧
       handed w w' (λ io, room_packets io ("user:" +:+ U) "notification:new"
                                       (PNotificationNew n))) ∧
  (∀ taskId newStatus actor r w',
     updateTaskStatus Sio.io_to_emit taskId newStatus actor w = (Ok r, w') →
     notifications (w_db w') = notifications (w_db w) ∧
     ∃ t0, find_task taskId (w_db w) = Some t0 ∧
       match find_project (t_project t0) (w_db w) with
       | Some p =>
           p_id p = t_project t0 ∧
           handed w w' (λ io, room_packets io ("project:" +:+ p_id p) "task:updated"
                                           (PTaskUpdated taskId newStatus (u_name actor) r))
       | None => w_io w' = w_io w
       end) ∧
  (∀ taskId content authorId c w',
     addComment gen_oid Sio.io_to_emit taskId content authorId w = (Ok c, w') →
     notifications (w_db w') = notifications (w_db w) ∧
     match find_task taskId (w_db w) with
     | Some t0 =>
         handed w w' (λ io, room_packets io ("project:" +:+ t_project t0) "comment:new"
                                         (PCommentNew taskId c))
     | None => w_io w' = w_io w
     end) ∧
  (∀ emit taskId status actor,
     keeps_notifications (updateTaskStatus emit taskId status actor)) ∧
  (∀ emit taskId content authorId,
     keeps_notifications (addComment gen_oid emit taskId content authorId)).
Proof.
  split; [|split; [|split; [|split]]].
  - intros taskId U actor r w'.
    destruct (assignTask_cases gen_oid Sio.io_to_emit taskId U actor w)
      as [(_ & ->)|[(t0 & _ & _ & ->)|(t0 & p & Ht & Hp & ->)]]; try done.
    intros [= <- <-]. eexists t0, p, _.
    split; [done|]. split; [done|]. split; [by apply (find_project_id _ (w_db w))|].
    rewrite guarded_emit_db. simpl. repeat (split; [reflexivity|]).
    by apply sio_guarded_emit_handed.
  - intros taskId newStatus actor r w' Hrun.
    split; [by rewrite <- (keeps_updateTaskStatus Sio.io_to_emit taskId newStatus actor w), Hrun|].
    revert Hrun.
    destruct (updateTaskStatus_cases Sio.io_to_emit taskId newStatus actor w)
      as [(_ & ->)|(_ & [(_ & ->)|[(t0 & Ht & Hp & msg & ->)|(t0 & p & Ht & Hp & ->)]])];
      try done; intros [= <- <-]; exists t0; (split; [done|]); rewrite Hp; [done|].
    split; [by apply (find_project_id _ (w_db w))|].
    rewrite (find_task_id _ _ _ Ht). by apply sio_guarded_emit_handed.
  - intros taskId content authorId c w' Hrun.
    split; [by rewrite <- (keeps_addComment gen_oid Sio.io_to_emit taskId content authorId w),
                       Hrun|].
    revert Hrun.
    destruct (addComment_cases gen_oid Sio.io_to_emit taskId content authorId w)
      as [(_ & ->)|(_ & _ & [(Ht & ->)|(t0 & Ht & ->)])]; try done;
      intros [= <- <-]; rewrite Ht; [done|].
    by apply sio_guarded_emit_handed.
  - intros. apply keeps_updateTaskStatus.
  - intros. apply keeps_addComment.
Qed.
End fanout_every_call.

(** C1, as stated, fails: with Alice in the room of project p9, a status
    change of the task of p9, whose project document is gone, succeeds and a
    comment on a task that does not exist succeeds, and neither hands her, or
    anybody, anything; and an assignment made before [initSocket] succeeds
    and stores its notification with no server object to emit on. *)
Lemma fanout_without_broadcast :
  Sio.room_members "project:p9" watching_p9 ≠ [] ∧
  sent watching_p9 = [] ∧
  (∃ r w', updateTaskStatus Sio.io_to_emit "t2" "done" manager watched_orphan_world = (Ok r, w') ∧
           w_io w' = Some watching_p9) ∧
  (∃ c w', addComment sample_gen_oid Sio.io_to_emit "t404" (js "Looks good") "u2"
                      watched_orphan_world = (Ok c, w') ∧
           w_io w' = Some watching_p9) ∧
  (∃ r w', assignTask sample_gen_oid Sio.io_to_emit "t1" "u2" manager offline_world = (Ok r, w') ∧
           length (notifications (w_db w')) = 1 ∧ w_io w' = None).
Proof.
  split; [vm_compute; discriminate|]. split; [reflexivity|].
  split; [|split]; eexists _, _; (split; [vm_compute; reflexivity|]); by repeat split.
Qed.

Lemma fanout_rules_witness :
  ∃ r w',
    assignTask sample_gen_oid Sio.io_to_emit "t1" "u2" manager sample_world = (Ok r, w') ∧
    ∃ t0 p n,
      find_task "t1" (w_db sample_world) = Some t0 ∧
      find_project (t_project t0) (w_db sample_world) = Some p ∧ p_id p = t_project t0 ∧
      notifications (w_db w') = notifications (w_db sample_world) ++ [n] ∧
      n_type n = "task_assigned" ∧ n_recipient n = "u2" ∧ n_relatedTask n = Some "t1" ∧
      n_relatedProject n = Some (p_id p) ∧ n_isRead n = false ∧
      handed sample_world w' (λ io, room_packets io "user:u2" "notification:new"
                                                 (PNotificationNew n)).
Proof.
  eexists _, _. split; [vm_compute; reflexivity|].
  eapply (proj1 (fanout_rules sample_gen_oid sample_world) "t1" "u2" manager).
  vm_compute; reflexivity.
Defined.

Section trim_facts.
#[local] Arguments is_ws : simpl never.

Lemma rtrim_idemp s : rtrim (rtrim s) = rtrim s.
Proof.
  induction s as [|c s IH]; [done|]. simpl.
  destruct (rtrim s) as [|c' r] eqn:Hr.
  - destruct (is_ws c) eqn:Hc; [done|]. simpl. by rewrite Hc.
  - simpl in *. by rewrite IH.
Qed.

Lemma ltrim_clean s :
  match ltrim s with c :: _ => is_ws c = false | [] => True end.
Proof.
  induction s as [|c s IH]; [done|]. simpl. destruct (is_ws c) eqn:Hc; [done|]. done.
Qed.

Lemma rtrim_keeps_head c s : is_ws c = false → ∃ r, rtrim (c :: s) = c :: r.
Proof. intros Hc. simpl. destruct (rtrim s); [rewrite Hc|]; by eexists. Qed.

Lemma trim_idemp s : trim (trim s) = trim s.
Proof.
  unfold trim. pose proof (ltrim_clean s) as Hcl.
  destruct (ltrim s) as [|c x] eqn:Hl; [done|].
  destruct (rtrim_keeps_head c x Hcl) as [r Hr]. rewrite Hr.
  assert (Hlt : ltrim (c :: r) = c :: r) by (simpl; by rewrite Hcl).
  rewrite Hlt, <- Hr. apply rtrim_idemp.
Qed.

Lemma trim_blank s : Forall (λ c, is_ws c = true) s → trim s = [].
Proof.
  unfold trim. induction 1 as [|c s Hc _ IH]; [done|]. simpl. by rewrite Hc.
Qed.
End trim_facts.

Section validation.
Variable gen_oid : nat → ObjectId.
Variable emit : string → string → Payload → M Server unit.

(** X16: [addComment] throws a [ValidationError] when the content is empty
    after trimming or longer than 1000 code units, storing no comment and
    drawing no [commentId]; a text of nothing but white space, of whatever
    kind, is empty after trimming. When [addComment] succeeds, the content
    stored is the trimmed text (trimming it again changes nothing), not empty
    and at most 1000 code units, and the comment is appended to the store. *)
Theorem addComment_validates_content (taskId authorId : ObjectId) (content : jsstring)
    (w : World) :
  (trim content = [] ∨ 1000 < length (trim content) →
   ∃ e w', addComment gen_oid emit taskId content authorId w = (Throw e, w') ∧
           exn_name e = "ValidationError" ∧
           comments (w_db w') = comments (w_db w) ∧
           counters (w_db w') = counters (w_db w) ∧
           w_io w' = w_io w ∧ w_console w' = w_console w) ∧
  (Forall (λ c, is_ws c = true) content → trim content = []) ∧
  (∀ c w', addComment gen_oid emit taskId content authorId w = (Ok c, w') →
     c_content c = trim content ∧ trim (c_content c) = c_content c ∧
     c_content c ≠ [] ∧ length (c_content c) ≤ 1000 ∧
     c_task c = taskId ∧ c_author c = authorId ∧
     comments (w_db w') = comments (w_db w) ++ [c]).
Proof.
  destruct (addComment_cases gen_oid emit taskId content authorId w)
    as [(Hbad & Hrun)|(Hne & Hl & Hrun)].
  - split; [|split; [apply trim_blank|]].
    + intros _. eexists _, (with_db bump_oid w). by rewrite Hrun.
    + intros c w'. rewrite Hrun. done.
  - split; [intros [?|?]; [done|lia]|]. split; [apply trim_blank|].
    intros c w' Heq.
    assert (c = comment_doc gen_oid (w_db w) content taskId authorId ∧
            w_db w' = insert_comment c (w_db w)) as [-> Hdb].
    { destruct Hrun as [(_ & Hrun)|(t0 & _ & Hrun)]; rewrite Hrun in Heq;
        injection Heq as <- <-; (split; [done|]); [done|]. by rewrite guarded_emit_db. }
    rewrite Hdb. simpl. split; [done|]. split; [apply trim_idemp|]. done.
Qed.

(** X17: what [updateTaskStatus] returns and what it leaves in the store do
    not depend on the user who calls it (there is no check that the caller is
    the assignee); [assignTask] does not read its [assignedBy] argument at
    all. *)
Theorem services_ignore_actor (taskId U : ObjectId) (newStatus : string)
    (actor1 actor2 : User) (w : World) :
  fst (updateTaskStatus emit taskId newStatus actor1 w)
    = fst (updateTaskStatus emit taskId newStatus actor2 w) ∧
  w_db (snd (updateTaskStatus emit taskId newStatus actor1 w))
    = w_db (snd (updateTaskStatus emit taskId newStatus actor2 w)) ∧
  assignTask gen_oid emit taskId U actor1 w = assignTask gen_oid emit taskId U actor2 w.
Proof.
  assert (H : fst (updateTaskStatus emit taskId newStatus actor1 w)
                = fst (updateTaskStatus emit taskId newStatus actor2 w) ∧
              w_db (snd (updateTaskStatus emit taskId newStatus actor1 w))
                = w_db (snd (updateTaskStatus emit taskId newStatus actor2 w))).
  { destruct (updateTaskStatus_cases emit taskId newStatus actor1 w)
      as [(Hst & ->)|(Hst & [(Ht & ->)|[(t0 & Ht & Hp & msg & ->)|(t0 & p & Ht & Hp & ->)]])];
    destruct (updateTaskStatus_cases emit taskId newStatus actor2 w)
      as [(Hst' & ->)|(Hst' & [(Ht' & ->)|[(t1 & Ht' & Hp' & msg' & ->)
                                          |(t1 & p' & Ht' & Hp' & ->)]])];
    try done; try congruence;
    rewrite Ht in Ht'; injection Ht' as <-; rewrite Hp in Hp'; try done.
    injection Hp' as <-. simpl. by rewrite !guarded_emit_db. }
  destruct H as [H1 H2]. split; [exact H1|]. split; [exact H2|reflexivity].
Qed.
End validation.


Section one_emit.
Variable gen_oid : nat → ObjectId.

Lemma sent_at_most_once_refl io : sent_at_most_once io io.
Proof. repeat (split; [done|]). by left. Qed.

Lemma sio_guarded_emit_io room ev data w io :
  w_io w = Some io →
  ∃ io', w_io (snd (try_catch (getIO;; on_io (Sio.io_to_emit room ev data))
                              warn_emit_failed w)) = Some io' ∧
         sent_at_most_once io io'.
Proof.
  intros Hio. rewrite (sio_guarded_emit room ev data w io Hio). simpl.
  eexists. split; [reflexivity|]. repeat (split; [done|]). right. by eexists _, _, _.
Qed.

(** X18: with Socket.IO's broadcaster on an initialised server, a call of
    [assignTask], [updateTaskStatus] or [addComment] leaves sockets, rooms,
    registry, heartbeats and the socket log as they are, and sends nothing or
    one event to the members of one room. *)
Theorem services_send_at_most_once (w : World) (io : Server) :
  w_io w = Some io →
  (∀ taskId U actor,
     ∃ io', w_io (snd (assignTask gen_oid Sio.io_to_emit taskId U actor w)) = Some io' ∧
            sent_at_most_once io io') ∧
  (∀ taskId newStatus actor,
     ∃ io', w_io (snd (updateTaskStatus Sio.io_to_emit taskId newStatus actor w)) = Some io' ∧
            sent_at_most_once io io') ∧
  (∀ taskId content authorId,
     ∃ io', w_io (snd (addComment gen_oid Sio.io_to_emit taskId content authorId w)) = Some io' ∧
            sent_at_most_once io io').
Proof.
  intros Hio. split; [|split].
  - intros taskId U actor.
    destruct (assignTask_cases gen_oid Sio.io_to_emit taskId U actor w)
      as [(_ & ->)|[(t0 & _ & _ & ->)|(t0 & p & _ & _ & ->)]]; simpl.
    + exists io. split; [done|apply sent_at_most_once_refl].
    + exists io. split; [done|apply sent_at_most_once_refl].
    + by apply sio_guarded_emit_io.
  - intros taskId newStatus actor.
    destruct (updateTaskStatus_cases Sio.io_to_emit taskId newStatus actor w)
      as [(_ & ->)|(_ & [(_ & ->)|[(t0 & _ & _ & msg & ->)|(t0 & p & _ & _ & ->)]])]; simpl.
    + exists io. split; [done|apply sent_at_most_once_refl].
    + exists io. split; [done|apply sent_at_most_once_refl].
    + exists io. split; [done|apply sent_at_most_once_refl].
    + by apply sio_guarded_emit_io.
  - intros taskId content authorId.
    destruct (addComment_cases gen_oid Sio.io_to_emit taskId content authorId w)
      as [(_ & ->)|(_ & _ & [(_ & ->)|(t0 & _ & ->)])]; simpl.
    + exists io. split; [done|apply sent_at_most_once_refl].
    + exists io. split; [done|apply sent_at_most_once_refl].
    + by apply sio_guarded_emit_io.
Qed.
End one_emit.

Section more_services.
Variable gen_oid : nat → ObjectId.
Variable emit : string → string → Payload → M Server unit.

Lemma find_comment_id id db c : find_comment id db = Some c → c_id c = id.
Proof. unfold find_comment. intros [_ H]%find_some. by apply bool_decide_eq_true in H. Qed.

Lemma find_filter_gone id (l : list Comment) :
  List.find (λ c, bool_decide (c_id c = id)) (filter (λ c', c_id c' ≠ id) l) = None.
Proof.
  induction l as [|c l IH]; [done|]. rewrite filter_cons.
  destruct (decide (c_id c ≠ id)) as [Hne|Heq]; [|done].
  simpl. by rewrite bool_decide_eq_false_2.
Qed.

Lemma find_filter_other id id' (l : list Comment) :
  id' ≠ id →
  List.find (λ c, bool_decide (c_id c = id')) (filter (λ c', c_id c' ≠ id) l)
  = List.find (λ c, bool_decide (c_id c = id')) l.
Proof.
  intros Hne. induction l as [|c l IH]; [done|]. rewrite filter_cons. simpl.
  destruct (decide (c_id c ≠ id)) as [Hc|Hc]; simpl.
  - by rewrite IH.
  - rewrite IH. apply dec_stable in Hc. by rewrite bool_decide_eq_false_2 by congruence.
Qed.

(** X20: [deleteComment] throws "Comment not found" (404) for an unknown id
    and "Not authorized to delete this comment" (403) when the caller is
    neither the author nor an admin, changing nothing; for the author or an
    admin it removes exactly that comment and returns "Comment deleted",
    touching neither tasks, notifications, the server (no event is emitted)
    nor the console. *)
Theorem deleteComment_authorization (commentId userId : ObjectId) (userRole : string)
    (w : World) :
  (find_comment commentId (w_db w) = None →
   deleteComment commentId userId userRole w = (Throw comment_not_found, w)) ∧
  (∀ c, find_comment commentId (w_db w) = Some c →
     c_author c ≠ userId → userRole ≠ "admin" →
     deleteComment commentId userId userRole w = (Throw not_authorized_to_delete, w)) ∧
  (∀ c, find_comment commentId (w_db w) = Some c →
     c_author c = userId ∨ userRole = "admin" →
     ∃ w', deleteComment commentId userId userRole w = (Ok "Comment deleted", w') ∧
           find_comment commentId (w_db w') = None ∧
           (∀ other, other ≠ commentId →
              find_comment other (w_db w') = find_comment other (w_db w)) ∧
           tasks (w_db w') = tasks (w_db w) ∧
           notifications (w_db w') = notifications (w_db w) ∧
           w_io w' = w_io w ∧ w_console w' = w_console w) ∧
  exn_statusCode comment_not_found = Some 404 ∧
  exn_statusCode not_authorized_to_delete = Some 403.
Proof.
  split; [|split; [|split; [|done]]].
  - intros H. unfold deleteComment, Comment_findById, mbind, M_bind, bind, gets.
    by rewrite H.
  - intros c H Ha Hr. unfold deleteComment, Comment_findById, mbind, M_bind, bind, gets.
    rewrite H. apply String.eqb_neq in Ha, Hr. by rewrite Ha, Hr.
  - intros c H Hor. unfold deleteComment, Comment_findById, mbind, M_bind, bind, gets.
    rewrite H.
    assert (Hcond : negb (String.eqb (c_author c) userId) && negb (String.eqb userRole "admin")
                    = false).
    { destruct Hor as [<-| ->]; [by rewrite String.eqb_refl|].
      by rewrite String.eqb_refl, andb_false_r. }
    rewrite Hcond. eexists. split; [reflexivity|]. simpl.
    rewrite (find_comment_id _ _ _ H). unfold find_comment. simpl.
    split; [apply find_filter_gone|]. split; [|done].
    intros other Hne. by apply find_filter_other.
Qed.

(** X21: [getTaskById] throws "Task not found" for an unknown id; after a
    successful [updateTaskStatus] or [assignTask] it finds the task, and what
    it returns carries the stored document that call returned, with the new
    status, respectively the new assignee, and the same project under the
    same title. (The two answers differ in the fields they populate.) *)
Theorem getTaskById_reads_back (taskId U : ObjectId) (newStatus : string) (actor : User)
    (w : World) :
  let same_task := λ r r' : PopulatedTask,
    pt_doc r' = pt_doc r ∧
    pv_id <$> pt_project r' = pv_id <$> pt_project r ∧
    pv_title <$> pt_project r' = pv_title <$> pt_project r in
  (find_task taskId (w_db w) = None → getTaskById taskId w = (Throw task_not_found, w)) ∧
  (∀ r w', updateTaskStatus emit taskId newStatus actor w = (Ok r, w') →
     ∃ r', getTaskById taskId w' = (Ok r', w') ∧ same_task r r' ∧
           t_status (pt_doc r') = newStatus) ∧
  (∀ r w', assignTask gen_oid emit taskId U actor w = (Ok r, w') →
     ∃ r', getTaskById taskId w' = (Ok r', w') ∧ same_task r r' ∧
           t_assignedTo (pt_doc r') = Some U).
Proof.
  intros same_task.
  assert (Hread : ∀ f t0 w', (∀ t, t_id (f t) = t_id t ∧ t_project (f t) = t_project t) →
            find_task taskId (w_db w) = Some t0 →
            w_db w' = with_tasks (update_first taskId f) (w_db w) ∨
            (∃ doc, w_db w' = insert_notification doc
                                (with_tasks (update_first taskId f) (w_db w))) →
            getTaskById taskId w'
              = (Ok (populated_get (f t0) (find_project (t_project t0) (w_db w))), w')).
  { intros f t0 w' Hf Ht Hdb.
    assert (Hft : find_task taskId (w_db w') = Some (f t0)).
    { destruct Hdb as [->|[doc ->]]; unfold find_task in *; simpl;
        apply find_update_first; try done; intros t; by destruct (Hf t). }
    assert (Hfp : find_project (t_project t0) (w_db w')
                  = find_project (t_project t0) (w_db w)).
    { by destruct Hdb as [->|[doc ->]]. }
    unfold getTaskById, Task_findById, populate, mbind, M_bind, bind, gets.
    rewrite Hft. destruct (Hf t0) as [_ ->]. by rewrite Hfp. }
  assert (Hsame : ∀ view t p,
            view = populated_update ∨ view = populated_assign →
            same_task (view t p) (populated_get t p)).
  { intros view t p [->| ->]; (split; [done|]); by destruct p. }
  split; [|split].
  - intros H. unfold getTaskById, Task_findById, mbind, M_bind, bind, gets. by rewrite H.
  - intros r w'.
    destruct (updateTaskStatus_cases emit taskId newStatus actor w)
      as [(_ & ->)|(_ & [(_ & ->)|[(t0 & Ht & Hp & msg & ->)|(t0 & p & Ht & Hp & ->)]])];
      try done; intros [= <- <-]; eexists.
    + rewrite (Hread (set_status newStatus) t0); [|done|done|by left].
      rewrite Hp. split; [done|]. split; [|done]. apply Hsame. by left.
    + rewrite (Hread (set_status newStatus) t0); [|done|done|left; by rewrite guarded_emit_db].
      rewrite Hp. split; [done|]. split; [|done]. apply Hsame. by left.
  - intros r w'.
    destruct (assignTask_cases gen_oid emit taskId U actor w)
      as [(_ & ->)|[(t0 & _ & _ & ->)|(t0 & p & Ht & Hp & ->)]]; try done.
    intros [= <- <-]. eexists.
    rewrite (Hread (set_assignedTo U) t0);
      [|done|done|right; rewrite guarded_emit_db; by eexists].
    rewrite Hp. split; [done|]. split; [|done]. apply Hsame. by right.
Qed.
End more_services.


Section http.
Variable development : bool.
Variable gen_oid : nat → ObjectId.
Variable emit : string → string → Payload → M Server unit.

Lemma respond {A} (ok : nat) (service : M World A) (req : Request) :
  maps_outcome development ok service
    (try_catch (data ← on_world service; mret (mkResponse ok (Success data)))
               (λ error, error_handler development error req)) req.
Proof.
  intros h. unfold try_catch, mbind, M_bind, bind, on_world.
  by destruct (service (h_world h)) as [[a|e] w'].
Qed.

(** X22: [PATCH /:id/status] answers a status outside the enumeration with
    500 (the validation error carries no [statusCode]) and no change, an
    unknown task with 404 "Task not found", and otherwise, for any role and
    any user, 200 with the task in its new status, which is then in the
    store. *)
Theorem patch_status_answers (req : Request) (h : Http) :
  (req_body_status req ∉ task_statuses →
   ∃ message,
     Routes.patch_status development emit req h
     = (Ok (mkResponse 500 (Failure message development)),
        mkHttp (h_world h)
               (h_errors h ++ [LogError (req_method req) (req_originalUrl req) 500 message]))) ∧
  (req_body_status req ∈ task_statuses →
   find_task (req_params_id req) (w_db (h_world h)) = None →
   Routes.patch_status development emit req h
   = (Ok (mkResponse 404 (Failure "Task not found" development)),
      mkHttp (h_world h)
             (h_errors h ++ [LogError (req_method req) (req_originalUrl req) 404
                                      "Task not found"]))) ∧
  (req_body_status req ∈ task_statuses →
   ∀ t0, find_task (req_params_id req) (w_db (h_world h)) = Some t0 →
   ∃ w',
     Routes.patch_status development emit req h
     = (Ok (mkResponse 200
              (Success (populated_update (set_status (req_body_status req) t0)
                                    (find_project (t_project t0) (w_db (h_world h)))))),
        mkHttp w' (h_errors h)) ∧
     find_task (req_params_id req) (w_db w') = Some (set_status (req_body_status req) t0)).
Proof.
  pose proof (respond 200 (updateTaskStatus emit (req_params_id req) (req_body_status req)
                                            (req_user req)) req h) as Hr.
  fold (Controller.updateTaskStatus development emit req) in Hr.
  unfold Routes.patch_status.
  destruct (updateTaskStatus_cases emit (req_params_id req) (req_body_status req)
              (req_user req) (h_world h))
    as [(Hst & Hrun)|(Hst & [(Ht & Hrun)|[(t0 & Ht & Hp & msg & Hrun)|(t0 & p & Ht & Hp & Hrun)]])];
    rewrite Hrun in Hr.
  - split; [intros _; by eexists|]. split; [done|done].
  - split; [done|]. split; [done|]. intros _ t0 Ht0. congruence.
  - split; [done|]. split; [intros _ Ht0; congruence|].
    intros _ t1 Ht1. rewrite Ht in Ht1. injection Ht1 as <-. eexists.
    split; [by rewrite Hp|]. simpl. unfold find_task in *. simpl. by apply find_update_first.
  - split; [done|]. split; [intros _ Ht0; congruence|].
    intros _ t1 Ht1. rewrite Ht in Ht1. injection Ht1 as <-. eexists.
    split; [by rewrite Hp|]. rewrite guarded_emit_db. simpl.
    unfold find_task in *. simpl. by apply find_update_first.
Qed.

(** X23: [POST /:id/assign] answers a role other than admin and manager with
    403 without calling the service, changing or logging anything; for those
    two roles it is the controller; and for a task whose project is gone it
    answers 500 although the new assignee has been written, with no
    notification created. *)
Theorem post_assign_answers (req : Request) (h : Http) :
  (req_user_role req ∉ ["admin"; "manager"] →
   Routes.post_assign development gen_oid emit req h
   = (Ok (mkResponse 403
            (Failure ("Role '" +:+ req_user_role req +:+ "' is not authorized to access this route")
                     false)), h)) ∧
  (req_user_role req ∈ ["admin"; "manager"] →
   Routes.post_assign development gen_oid emit req h
   = Controller.assignTask development gen_oid emit req h) ∧
  (req_user_role req ∈ ["admin"; "manager"] →
   ∀ t0, find_task (req_params_id req) (w_db (h_world h)) = Some t0 →
   find_project (t_project t0) (w_db (h_world h)) = None →
   ∃ w',
     Routes.post_assign development gen_oid emit req h
     = (Ok (mkResponse 500
              (Failure "Cannot read properties of null (reading '_id')" development)),
        mkHttp w' (h_errors h ++ [LogError (req_method req) (req_originalUrl req) 500
                                    "Cannot read properties of null (reading '_id')"])) ∧
     find_task (req_params_id req) (w_db w')
       = Some (set_assignedTo (req_body_userId req) t0) ∧
     notifications (w_db w') = notifications (w_db (h_world h))).
Proof.
  unfold Routes.post_assign, authorize. split; [|split].
  - intros Hrole. by rewrite bool_decide_eq_false_2.
  - intros Hrole. by rewrite bool_decide_eq_true_2.
  - intros Hrole t0 Ht Hp. rewrite bool_decide_eq_true_2 by done.
    pose proof (respond 200 (assignTask gen_oid emit (req_params_id req) (req_body_userId req)
                                        (req_user req)) req h) as Hr.
    fold (Controller.assignTask development gen_oid emit req) in Hr.
    destruct (assignTask_cases gen_oid emit (req_params_id req) (req_body_userId req)
                (req_user req) (h_world h))
      as [(Ht' & _)|[(t1 & Ht' & _ & Hrun)|(t1 & p & Ht' & Hp' & _)]]; [congruence| |congruence].
    rewrite Ht in Ht'. injection Ht' as <-. rewrite Hrun in Hr.
    eexists. split; [exact Hr|]. simpl. split; [|done].
    unfold find_task in *. simpl. by apply find_update_first.
Qed.
End http.

Section comment_endpoints.
Variable development : bool.
Variable gen_oid : nat → ObjectId.
Variable emit : string → string → Payload → M Server unit.

Lemma deleteComment_cases commentId userId userRole w :
  (find_comment commentId (w_db w) = None ∧
   deleteComment commentId userId userRole w = (Throw comment_not_found, w)) ∨
  (∃ c, find_comment commentId (w_db w) = Some c ∧
     c_author c ≠ userId ∧ userRole ≠ "admin" ∧
     deleteComment commentId userId userRole w = (Throw not_authorized_to_delete, w)) ∨
  (∃ c, find_comment commentId (w_db w) = Some c ∧
     (c_author c = userId ∨ userRole = "admin") ∧
     deleteComment commentId userId userRole w
       = (Ok "Comment deleted", snd (Comment_deleteOne c w))).
Proof.
  unfold deleteComment, Comment_findById, mbind, M_bind, bind, gets.
  destruct (find_comment commentId (w_db w)) as [c|] eqn:Hc; [|by left].
  right. destruct (String.eqb (c_author c) userId) eqn:Ha; simpl.
  - right. exists c. split; [done|]. split; [|done]. left. by apply String.eqb_eq.
  - destruct (String.eqb userRole "admin") eqn:Hr; simpl.
    + right. exists c. split; [done|]. split; [|done]. right. by apply String.eqb_eq.
    + left. exists c. split; [done|]. by split; [apply String.eqb_neq|split; [apply String.eqb_neq|]].
Qed.

(** X24: [GET /:id] answers an unknown task with 404 and a known one with 200
    and the task, changing nothing; posting a comment answers 500 when the
    content is empty after trimming or longer than 1000 code units (no
    comment is stored), and otherwise 201 with the stored comment, whose
    content is trimmed and whose author is the caller; deleting a comment
    answers 404 for an unknown id, 403 for a caller who is neither author nor
    admin (nothing changes in both cases), and otherwise 200 with the comment
    gone. Each error answer is logged once. *)
Theorem read_and_comment_endpoints_answer (req : Request) (h : Http) :
  let db := w_db (h_world h) in
  let failed := λ (code : nat) (message : string) (w' : World),
    mkHttp w' (h_errors h ++ [LogError (req_method req) (req_originalUrl req) code message]) in
  (find_task (req_params_id req) db = None →
   Controller.getTaskById development req h
   = (Ok (mkResponse 404 (Failure "Task not found" development)),
      failed 404 "Task not found" (h_world h))) ∧
  (∀ t, find_task (req_params_id req) db = Some t →
   Controller.getTaskById development req h
   = (Ok (mkResponse 200 (Success (populated_get t (find_project (t_project t) db)))), h)) ∧
  (trim (req_body_content req) = [] ∨
   1000 < length (trim (req_body_content req)) →
   ∃ message w',
     Controller.addComment development gen_oid emit req h
     = (Ok (mkResponse 500 (Failure message development)), failed 500 message w') ∧
     comments (w_db w') = comments db) ∧
  (trim (req_body_content req) ≠ [] →
   length (trim (req_body_content req)) ≤ 1000 →
   ∃ c w',
     Controller.addComment development gen_oid emit req h
     = (Ok (mkResponse 201 (Success c)), mkHttp w' (h_errors h)) ∧
     c_content c = trim (req_body_content req) ∧
     c_task c = req_params_taskId req ∧ c_author c = u_id (req_user req) ∧
     comments (w_db w') = comments db ++ [c]) ∧
  (find_comment (req_params_id req) db = None →
   Controller.deleteComment development req h
   = (Ok (mkResponse 404 (Failure "Comment not found" development)),
      failed 404 "Comment not found" (h_world h))) ∧
  (∀ c, find_comment (req_params_id req) db = Some c →
     c_author c ≠ u_id (req_user req) → req_user_role req ≠ "admin" →
     Controller.deleteComment development req h
     = (Ok (mkResponse 403 (Failure "Not authorized to delete this comment" development)),
        failed 403 "Not authorized to delete this comment" (h_world h))) ∧
  (∀ c, find_comment (req_params_id req) db = Some c →
     c_author c = u_id (req_user req) ∨ req_user_role req = "admin" →
     ∃ w',
       Controller.deleteComment development req h
       = (Ok (mkResponse 200 (Success "Comment deleted")), mkHttp w' (h_errors h)) ∧
       find_comment (req_params_id req) (w_db w') = None).
Proof.
  intros db failed. subst db failed. cbv beta.
  split; [|split; [|split; [|split; [|split; [|split]]]]].
  - intros Ht.
    pose proof (respond development 200 (getTaskById (req_params_id req)) req h) as Hr.
    fold (Controller.getTaskById development req) in Hr.
    assert (Hsvc : getTaskById (req_params_id req) (h_world h)
                   = (Throw task_not_found, h_world h)).
    { unfold getTaskById, Task_findById, mbind, M_bind, bind, gets. by rewrite Ht. }
    by rewrite Hsvc in Hr.
  - intros t Ht.
    pose proof (respond development 200 (getTaskById (req_params_id req)) req h) as Hr.
    fold (Controller.getTaskById development req) in Hr.
    assert (Hsvc : getTaskById (req_params_id req) (h_world h)
                   = (Ok (populated_get t (find_project (t_project t) (w_db (h_world h)))),
                      h_world h)).
    { unfold getTaskById, Task_findById, populate, mbind, M_bind, bind, gets.
      by rewrite Ht. }
    rewrite Hsvc in Hr. rewrite Hr. by destruct h.
  - intros Hbad.
    pose proof (respond development 201
                  (addComment gen_oid emit (req_params_taskId req) (req_body_content req)
                              (u_id (req_user req))) req h) as Hr.
    fold (Controller.addComment development gen_oid emit req) in Hr.
    destruct (addComment_cases gen_oid emit (req_params_taskId req) (req_body_content req)
                (u_id (req_user req)) (h_world h))
      as [(_ & Hrun)|(Hne & Hl & _)]; [|destruct Hbad; [done|lia]].
    rewrite Hrun in Hr. eexists _, _. split; [exact Hr|done].
  - intros Hne Hl.
    pose proof (respond development 201
                  (addComment gen_oid emit (req_params_taskId req) (req_body_content req)
                              (u_id (req_user req))) req h) as Hr.
    fold (Controller.addComment development gen_oid emit req) in Hr.
    destruct (addComment_cases gen_oid emit (req_params_taskId req) (req_body_content req)
                (u_id (req_user req)) (h_world h))
      as [([?|?] & _)|(_ & _ & [(_ & Hrun)|(t0 & _ & Hrun)])]; [done|lia| |];
      rewrite Hrun in Hr; eexists _, _; (split; [exact Hr|]); [done|].
    by rewrite guarded_emit_db.
  - intros Hc.
    pose proof (respond development 200
                  (deleteComment (req_params_id req) (u_id (req_user req)) (req_user_role req))
                  req h) as Hr.
    fold (Controller.deleteComment development req) in Hr.
    destruct (deleteComment_cases (req_params_id req) (u_id (req_user req)) (req_user_role req)
                (h_world h)) as [(_ & Hrun)|[(c & Hc' & _)|(c & Hc' & _)]]; [|congruence|congruence].
    by rewrite Hrun in Hr.
  - intros c Hc Ha Hrole.
    pose proof (respond development 200
                  (deleteComment (req_params_id req) (u_id (req_user req)) (req_user_role req))
                  req h) as Hr.
    fold (Controller.deleteComment development req) in Hr.
    destruct (deleteComment_cases (req_params_id req) (u_id (req_user req)) (req_user_role req)
                (h_world h)) as [(Hc' & _)|[(c' & Hc' & _ & _ & Hrun)|(c' & Hc' & Hor & _)]].
    + congruence.
    + by rewrite Hrun in Hr.
    + rewrite Hc in Hc'. injection Hc' as <-. by destruct Hor.
  - intros c Hc Hor.
    pose proof (respond development 200
                  (deleteComment (req_params_id req) (u_id (req_user req)) (req_user_role req))
                  req h) as Hr.
    fold (Controller.deleteComment development req) in Hr.
    destruct (deleteComment_cases (req_params_id req) (u_id (req_user req)) (req_user_role req)
                (h_world h)) as [(Hc' & _)|[(c' & Hc' & Ha & Hrole & _)|(c' & Hc' & _ & Hrun)]].
    + congruence.
    + rewrite Hc in Hc'. injection Hc' as <-. by destruct Hor.
    + rewrite Hc in Hc'. injection Hc' as <-. rewrite Hrun in Hr.
      eexists. split; [exact Hr|]. simpl. rewrite (find_comment_id _ _ _ Hc).
      unfold find_comment. simpl. apply find_filter_gone.
Qed.
End comment_endpoints.

Lemma notification_ids_stay_unique_witness :
  notification_ids_ok (w_db sample_world) ∧
  notification_ids_ok
    (w_db (snd (assignTask sample_gen_oid Sio.io_to_emit "t1" "u2" manager sample_world))).
Proof.
  assert (H : notification_ids_ok (w_db sample_world)).
  { split; [by intros n ?%elem_of_nil|apply NoDup_nil_2]. }
  split; [exact H|].
  exact (proj1 (notification_ids_stay_unique sample_gen_oid Sio.io_to_emit sample_world H)
           "t1" "u2" manager).
Defined.

Lemma assignTask_dangling_project_witness :
  find_task "t2" (w_db orphan_world) = Some orphan_task ∧
  find_project (t_project orphan_task) (w_db orphan_world) = None ∧
  ∃ w', assignTask sample_gen_oid Sio.io_to_emit "t2" "u2" manager orphan_world
          = (Throw (TypeError "Cannot read properties of null (reading '_id')"), w') ∧
        find_task "t2" (w_db w') = Some (set_assignedTo "u2" orphan_task).
Proof.
  assert (H1 : find_task "t2" (w_db orphan_world) = Some orphan_task) by reflexivity.
  assert (H2 : find_project (t_project orphan_task) (w_db orphan_world) = None) by reflexivity.
  split; [exact H1|]. split; [exact H2|].
  destruct (assignTask_dangling_project sample_gen_oid Sio.io_to_emit "t2" "u2" manager
              orphan_world orphan_task H1 H2) as (w' & Hrun & Hft & _).
  exists w'. split; [exact Hrun|exact Hft].
Defined.

Lemma updateTaskStatus_dangling_project_witness :
  ∃ w', updateTaskStatus Sio.io_to_emit "t2" "review" manager orphan_world
          = (Ok (populated_update (set_status "review" orphan_task) None), w') ∧
        w_console w' =
          [ConsoleWarn "Socket emit failed:" "Cannot read properties of null (reading '_id')"].
Proof.
  assert (H0 : w_io orphan_world = Some two_sockets) by reflexivity.
  assert (H1 : "review" ∈ task_statuses) by (unfold task_statuses; set_solver).
  assert (H2 : find_task "t2" (w_db orphan_world) = Some orphan_task) by reflexivity.
  assert (H3 : find_project (t_project orphan_task) (w_db orphan_world) = None) by reflexivity.
  destruct (updateTaskStatus_dangling_project Sio.io_to_emit "t2" "review" manager
              orphan_world two_sockets orphan_task H0 H1 H2 H3) as (w' & Hrun & _ & _ & Hcon).
  exists w'. split; [exact Hrun|exact Hcon].
Defined.

Lemma invalid_status_is_rejected_witness :
  ("finished" ∉ task_statuses) ∧
  ∃ e, updateTaskStatus Sio.io_to_emit "t1" "finished" manager sample_world
         = (Throw e, sample_world) ∧ exn_statusCode e = None.
Proof.
  assert (H : "finished" ∉ task_statuses) by (unfold task_statuses; set_solver).
  split; [exact H|].
  destruct (invalid_status_is_rejected Sio.io_to_emit "t1" "finished" manager sample_world H)
    as (e & Hrun & _ & Hcode).
  exists e. split; [exact Hrun|exact Hcode].
Defined.

Lemma missing_task_is_404_witness :
  find_task "t404" (w_db sample_world) = None ∧
  assignTask sample_gen_oid Sio.io_to_emit "t404" "u2" manager sample_world
    = (Throw task_not_found, sample_world).
Proof.
  assert (H : find_task "t404" (w_db sample_world) = None) by reflexivity.
  split; [exact H|].
  exact (proj1 (missing_task_is_404 sample_gen_oid Sio.io_to_emit "t404" "u2" "done" manager
                  sample_world H)).
Defined.

Lemma addComment_without_task_witness :
  find_task "t404" (w_db sample_world) = None ∧
  ∃ c w', addComment sample_gen_oid Sio.io_to_emit "t404" (js "  Looks good ") "u2" sample_world
            = (Ok c, w') ∧
          c_content c = trim (js "  Looks good ") ∧
          comments (w_db w') = comments (w_db sample_world) ++ [c] ∧
          w_io w' = w_io sample_world ∧ w_console w' = w_console sample_world.
Proof.
  assert (H1 : trim (js "  Looks good ") ≠ []) by (vm_compute; discriminate).
  assert (H2 : length (trim (js "  Looks good ")) ≤ 1000) by (simpl; lia).
  assert (H3 : find_task "t404" (w_db sample_world) = None) by reflexivity.
  split; [exact H3|].
  destruct (addComment_without_task sample_gen_oid Sio.io_to_emit "t404" "u2" (js "  Looks good ")
              sample_world H1 H2 H3) as (c & w' & Hrun & Hc & _ & _ & Hcs & Hio & Hcon).
  exists c, w'. repeat (split; [assumption|]). assumption.
Defined.

Lemma services_send_at_most_once_witness :
  w_io sample_world = Some two_sockets ∧
  ∃ io', w_io (snd (assignTask sample_gen_oid Sio.io_to_emit "t1" "u2" manager sample_world))
           = Some io' ∧
         sent_at_most_once two_sockets io'.
Proof.
  assert (H : w_io sample_world = Some two_sockets) by reflexivity.
  split; [exact H|].
  exact (proj1 (services_send_at_most_once sample_gen_oid sample_world two_sockets H)
           "t1" "u2" manager).
Defined.

Lemma services_touch_one_task_witness :
  "t9" ≠ "t1" ∧
  find_task "t9" (w_db (snd (updateTaskStatus Sio.io_to_emit "t1" "done" manager sample_world)))
    = find_task "t9" (w_db sample_world).
Proof.
  assert (H : "t9" ≠ "t1") by discriminate.
  split; [exact H|].
  exact (proj1 (proj2 (services_touch_one_task sample_gen_oid Sio.io_to_emit sample_world
                         "t1" "t9" H)) "done" manager).
Defined.

(** ** The error listener *)

Section error_listener.
Context {engine : Runtime}.
Variable jwt_verify : string → res Decoded.

End error_listener.

